(** * Equipment-inspection API (server.js): shallow embedding and properties

    The server is an Express application over a Postgres table
    [computadores] and a storage bucket [imagenes-soporte].  Each route
    handler is embedded as a state-passing function over a [World] that
    holds the table, the bucket, the local upload directory, the clock and
    the outcome schedule of the remote services.  Library functions whose
    code is not part of the repository ([getPublicUrl], [Buffer.from],
    [path.join], [Date.prototype.toISOString], and of the database its
    [lower()] and the input conversion of DECIMAL) are Section
    variables. *)

From Stdlib Require Import String Ascii List Bool Arith ZArith NArith Lia.
From Stdlib Require Import DecimalString Permutation Sorted.
Import ListNotations.
Open Scope string_scope.

(** ** JavaScript strings and truthiness

    A string is the UTF-8 encoding of the JavaScript text.  Every literal
    the handlers search for is ASCII, so searching the bytes agrees with
    searching the text. *)

Module JS.

(** [s.startsWith(p)] *)
Fixpoint startsWith (s p : string) : bool :=
  match p, s with
  | EmptyString, _ => true
  | String _ _, EmptyString => false
  | String a p', String b s' => Ascii.eqb a b && startsWith s' p'
  end.

(** [s.includes(p)] *)
Fixpoint includes (s p : string) : bool :=
  startsWith s p ||
  match s with
  | EmptyString => false
  | String _ s' => includes s' p
  end.

(** The rest of [s] after the literal [p], when [s] starts with [p]. *)
Fixpoint stripPrefix (p s : string) : option string :=
  match p, s with
  | EmptyString, _ => Some s
  | String _ _, EmptyString => None
  | String a p', String b s' =>
      if Ascii.eqb a b then stripPrefix p' s' else None
  end.

(** Truthiness of a value that is a string or [undefined]. *)
Definition truthy (v : option string) : bool :=
  match v with
  | Some s => negb (s =? EmptyString)
  | None => false
  end.

(** [v || d] on such a value. *)
Definition orElse (v : option string) (d : string) : string :=
  match v with
  | Some s => if s =? EmptyString then d else s
  | None => d
  end.

(** [n || 0] on a number or [undefined]. *)
Definition orZero (v : option N) : N :=
  match v with
  | Some n => n
  | None => 0%N
  end.

(** Template-literal rendering of a non-negative integer. *)
Definition decimal (n : N) : string :=
  NilEmpty.string_of_uint (N.to_uint n).

Definition isDigit (c : ascii) : bool :=
  let n := nat_of_ascii c in ((48 <=? n) && (n <=? 57))%nat.

Fixpoint allDigits (s : string) : bool :=
  match s with
  | EmptyString => true
  | String c s' => isDigit c && allDigits s'
  end.

End JS.

(** ** The data-URI pattern of [saveImageToSupabase]

    The regular expression is anchored at both ends and reads: the
    literal [data:image/], a first group of zero or more characters of
    the class a-zA-Z, the literal [;base64,], a second group of zero or
    more characters matched by the dot. *)

Module DataUri.

(** The class [[a-zA-Z]]. *)
Definition isLetter (c : ascii) : bool :=
  let n := nat_of_ascii c in
  (((65 <=? n) && (n <=? 90)) || ((97 <=? n) && (n <=? 122)))%nat.

Fixpoint allLetters (s : string) : bool :=
  match s with
  | EmptyString => true
  | String c s' => isLetter c && allLetters s'
  end.

(** The greedy first group: the longest run of letters, and the rest.
    The literal that follows starts with [;], which is no letter, so no
    shorter run can lead to a match and backtracking adds nothing. *)
Fixpoint spanLetters (s : string) : string * string :=
  match s with
  | EmptyString => (EmptyString, EmptyString)
  | String c s' =>
      if isLetter c
      then let (l, r) := spanLetters s' in (String c l, r)
      else (EmptyString, s)
  end.

(** The dot matches any character but the line terminators: line feed,
    carriage return, U+2028 and U+2029. *)
Definition lineTerminators : list string :=
  [String (ascii_of_nat 10) EmptyString;
   String (ascii_of_nat 13) EmptyString;
   String (ascii_of_nat 226) (String (ascii_of_nat 128)
     (String (ascii_of_nat 168) EmptyString));
   String (ascii_of_nat 226) (String (ascii_of_nat 128)
     (String (ascii_of_nat 169) EmptyString))].

Definition noLineTerminator (s : string) : bool :=
  negb (existsb (JS.includes s) lineTerminators).

(** [base64Data.match(...)]: the two captured groups, or [None] for
    [null]. *)
Definition matchPattern (s : string) : option (string * string) :=
  match JS.stripPrefix "data:image/" s with
  | None => None
  | Some r =>
      let (imageType, r') := spanLetters r in
      match JS.stripPrefix ";base64," r' with
      | None => None
      | Some imageData =>
          if noLineTerminator imageData
          then Some (imageType, imageData)
          else None
      end
  end.

End DataUri.


(** ** Data model *)

(** An element of the JSON array [imagenes], with the properties the
    handlers read or write; [None] is an absent property. *)
Record Imagen := mkImagen {
  title : option string;
  filename : option string;
  url : option string;
  size : option N;
  fecha_subida : option string;
  base64 : option string;
  url_anterior : option string;
  corregida_el : option string
}.

(** A row of the table [computadores], after the schema the server prints
    at start-up.  [imagenes] is [None] for SQL NULL. *)
Record Computador := mkComputador {
  id : Z;
  equipo_id : string;
  serial_number : string;
  placa_ml : option string;
  latitud : option string;
  longitud : option string;
  direccion_automatica : option string;
  ubicacion_manual : option string;
  responsable : string;
  cargo : string;
  estado : string;
  windows_update : string;
  imagenes : option (list Imagen);
  observaciones : option string;
  problemas_detectados : option string;
  fecha_revision : N;
  fecha_actualizacion : N;
  revisor : option string
}.

(** [req.body] of the create and update routes: each scalar property is a
    string or absent. *)
Module Body.

Inductive Imagenes :=
| Absent
| NotArray
| Array (l : list Imagen).

Record t := mk {
  equipo_id : option string;
  serial_number : option string;
  placa_ml : option string;
  latitud : option string;
  longitud : option string;
  direccion_automatica : option string;
  ubicacion_manual : option string;
  responsable : option string;
  cargo : option string;
  estado : option string;
  windows_update : option string;
  observaciones : option string;
  problemas_detectados : option string;
  revisor : option string;
  imagenes : Imagenes
}.

(** [imagenes && Array.isArray(imagenes)] *)
Definition asArray (v : Imagenes) : option (list Imagen) :=
  match v with
  | Array l => Some l
  | Absent | NotArray => None
  end.

End Body.

(** [req.query] of the list route. *)
Module Query.

Record t := mk {
  estado : option string;
  responsable : option string;
  equipo_id : option string;
  serial_number : option string;
  revisor : option string
}.

End Query.

(** The error object of a failed Supabase call. *)
Record PgError := mkPgError {
  code : string;
  message : string
}.

(** ** The world the handlers run in *)

Record World := mkWorld {
  dbInitialized : bool;
  (** the rows of [computadores] and the next value of its SERIAL key *)
  tabla : list Computador;
  serial : Z;
  (** the objects of the bucket [imagenes-soporte]: key and content *)
  bucket : list (string * list Byte.byte);
  (** the local file system: full path, and whether [unlink] is permitted *)
  disco : list (string * bool);
  (** the clock in milliseconds, and by how much it moves after each
      reading (it stands still once the list is used up) *)
  ahora : N;
  avances : list N;
  (** what the remote services answer to the coming calls beyond what the
      modelled data decides: [Some e] is a failure with error [e] *)
  fallos : list (option PgError)
}.

Definition setTabla (t : list Computador) (w : World) : World :=
  mkWorld (dbInitialized w) t (serial w) (bucket w) (disco w)
          (ahora w) (avances w) (fallos w).

Definition setSerial (n : Z) (w : World) : World :=
  mkWorld (dbInitialized w) (tabla w) n (bucket w) (disco w)
          (ahora w) (avances w) (fallos w).

Definition setBucket (b : list (string * list Byte.byte)) (w : World) : World :=
  mkWorld (dbInitialized w) (tabla w) (serial w) b (disco w)
          (ahora w) (avances w) (fallos w).

Definition setDisco (d : list (string * bool)) (w : World) : World :=
  mkWorld (dbInitialized w) (tabla w) (serial w) (bucket w) d
          (ahora w) (avances w) (fallos w).

Definition setReloj (t : N) (a : list N) (w : World) : World :=
  mkWorld (dbInitialized w) (tabla w) (serial w) (bucket w) (disco w)
          t a (fallos w).

Definition setFallos (f : list (option PgError)) (w : World) : World :=
  mkWorld (dbInitialized w) (tabla w) (serial w) (bucket w) (disco w)
          (ahora w) (avances w) f.

(** State passing. *)
Definition M (A : Type) : Type := World -> A * World.

Definition ret {A} (a : A) : M A := fun w => (a, w).

Definition bind {A B} (c : M A) (k : A -> M B) : M B :=
  fun w => let (a, w') := c w in k a w'.

Declare Scope m_scope.
Delimit Scope m_scope with M.
Notation "x <- c ;; k" := (bind c (fun x => k))
  (at level 61, c at next level, right associativity) : m_scope.
Notation "' pat <- c ;; k" := (bind c (fun x => match x with pat => k end))
  (at level 61, pat pattern, c at next level, right associativity) : m_scope.
Open Scope m_scope.

(** [Date.now()], and the instant of [new Date()]. *)
Definition Date_now : M N :=
  fun w => (ahora w, setReloj (ahora w + hd 0%N (avances w)) (tl (avances w)) w).

(** The next answer of the remote side; with the schedule used up, every
    call goes through. *)
Definition remoteCall : M (option PgError) :=
  fun w => (hd None (fallos w), setFallos (tl (fallos w)) w).

(** A call that reaches the remote side only when the schedule lets it. *)
Definition remote {A} (k : M (PgError + A)) : M (PgError + A) :=
  e <- remoteCall ;;
  match e with
  | Some err => ret (inl err)
  | None => k
  end.

(** ** Supabase Storage: the bucket [imagenes-soporte] *)

Definition hasKey (k : string) (b : list (string * list Byte.byte)) : bool :=
  existsb (fun o => fst o =? k) b.

Definition errDuplicate : PgError :=
  mkPgError "409" "The resource already exists".

(** The client cleans the path before it sends the upload
    ([_removeEmptyFolders] of storage-js): a slash at the start and a
    slash at the end are removed, then every run of slashes becomes one.
    [getPublicUrl] does not clean its argument. *)
Definition quitarInicial (s : string) : string :=
  match s with
  | EmptyString => EmptyString
  | String c s' => if Ascii.eqb c "/" then s' else s
  end.

Fixpoint quitarFinal (s : string) : string :=
  match s with
  | EmptyString => EmptyString
  | String c s' =>
      match s' with
      | EmptyString => if Ascii.eqb c "/" then EmptyString else s
      | String _ _ => String c (quitarFinal s')
      end
  end.

Fixpoint colapsar (s : string) : string :=
  match s with
  | EmptyString => EmptyString
  | String c s' =>
      if Ascii.eqb c "/" then
        match s' with
        | EmptyString => String c EmptyString
        | String d _ =>
            if Ascii.eqb d "/" then colapsar s' else String c (colapsar s')
        end
      else String c (colapsar s')
  end.

Definition removeEmptyFolders (path : string) : string :=
  colapsar (quitarFinal (quitarInicial path)).

Arguments removeEmptyFolders : simpl never.

(** [.upload(filePath, buffer, { ..., upsert: false })]: the object goes
    under the cleaned path; with [upsert] off the service refuses a key
    that is taken. *)
Definition storage_upload (filePath : string) (buffer : list Byte.byte)
  : M (PgError + unit) :=
  remote (fun w =>
    let key := removeEmptyFolders filePath in
    if hasKey key (bucket w)
    then (inl errDuplicate, w)
    else (inr tt, setBucket (bucket w ++ [(key, buffer)]) w)).

(** ** The local file system *)

Definition isPath (p : string) (f : string * bool) : bool := fst f =? p.

(** [fs.existsSync(p)] *)
Definition existsSync (p : string) (w : World) : bool :=
  existsb (isPath p) (disco w).

(** [fs.unlinkSync(p)]; [false] when it throws. *)
Definition unlinkSync (p : string) : M bool :=
  fun w =>
    match find (isPath p) (disco w) with
    | Some (_, true) =>
        (true, setDisco (filter (fun f => negb (isPath p f)) (disco w)) w)
    | Some (_, false) | None => (false, w)
    end.

(** ** The table [computadores] *)

Definition err23502 : PgError :=
  mkPgError "23502" "null value violates not-null constraint".
Definition err23514 : PgError :=
  mkPgError "23514" "new row violates check constraint".
Definition err23505 : PgError :=
  mkPgError "23505" "duplicate key value violates unique constraint".

(** [CHECK (estado IN ('operativo', 'mantenimiento', 'dañado'))] *)
Definition estadoValido (s : string) : bool :=
  (s =? "operativo") || (s =? "mantenimiento") || (s =? "dañado").

(** [CHECK (windows_update IN ('si', 'no'))] *)
Definition windowsValido (s : string) : bool :=
  (s =? "si") || (s =? "no").

Definition conImagenes (imgs : option (list Imagen)) (c : Computador)
  : Computador :=
  mkComputador (id c) (equipo_id c) (serial_number c) (placa_ml c)
    (latitud c) (longitud c) (direccion_automatica c) (ubicacion_manual c)
    (responsable c) (cargo c) (estado c) (windows_update c)
    imgs
    (observaciones c) (problemas_detectados c)
    (fecha_revision c) (fecha_actualizacion c) (revisor c).

Definition hasId (i : Z) (c : Computador) : bool := (id c =? i)%Z.

Definition isSome {A} (o : option A) : bool :=
  match o with Some _ => true | None => false end.

(** [.select('*').not('imagenes', 'is', null)] *)
Definition db_select_con_imagenes : M (PgError + list Computador) :=
  remote (fun w => (inr (filter (fun c => isSome (imagenes c)) (tabla w)), w)).

(** [.update({ imagenes }).eq('id', i)], with the id of a row that was
    read from the table *)
Definition db_update_imagenes (imgs : list Imagen) (i : Z)
  : M (PgError + unit) :=
  remote (fun w =>
    (inr tt,
     setTabla (map (fun c => if hasId i c then conImagenes (Some imgs) c else c)
                   (tabla w)) w)).

(** ** The types of the columns

    The values of a request are converted to the types of their columns
    before any constraint is looked at. *)

Definition err22001 : PgError :=
  mkPgError "22001" "value too long for type character varying".
Definition err22003 : PgError :=
  mkPgError "22003" "value out of range for type integer".

(** INTEGER: the id of a route is the integer its text names. *)
Definition int4 (i : Z) : bool :=
  ((-2147483648 <=? i) && (i <=? 2147483647))%Z.

(** The bytes 10xxxxxx continue a UTF-8 character. *)
Definition continua (c : ascii) : bool :=
  let n := nat_of_ascii c in ((128 <=? n) && (n <=? 191))%nat.

Fixpoint caracteres (s : string) : nat :=
  match s with
  | EmptyString => 0
  | String c s' => (if continua c then 0 else 1) + caracteres s'
  end.

(** The first [n] characters of a text, and what follows them. *)
Fixpoint cortar (n : nat) (s : string) : string * string :=
  match s with
  | EmptyString => (EmptyString, EmptyString)
  | String c s' =>
      if continua c then
        let (a, r) := cortar n s' in (String c a, r)
      else
        match n with
        | 0 => (EmptyString, s)
        | S n' => let (a, r) := cortar n' s' in (String c a, r)
        end
  end.

Fixpoint soloEspacios (s : string) : bool :=
  match s with
  | EmptyString => true
  | String c s' => Ascii.eqb c " " && soloEspacios s'
  end.

(** VARCHAR(n): a text of more than [n] characters is refused, unless
    the characters in excess are all spaces, which are cut off. *)
Definition varchar (n : nat) (v : string) : PgError + string :=
  let (a, r) := cortar n v in
  if soloEspacios r then inr a else inl err22001.

Definition convertir {A B} (r : PgError + A) (k : A -> PgError + B)
  : PgError + B :=
  match r with
  | inl e => inl e
  | inr a => k a
  end.

Definition opcional (f : string -> PgError + string) (v : option string)
  : PgError + option string :=
  match v with
  | None => inr None
  | Some s => convertir (f s) (fun a => inr (Some a))
  end.

(** The scalar values of a request as their columns take them; TEXT
    takes any text.  [numeric p s] is the input conversion of
    DECIMAL(p, s): the number that is stored, or the error. *)
Definition columnas (numeric : nat -> nat -> string -> PgError + string)
  (b : Body.t) : PgError + Body.t :=
  convertir (opcional (varchar 100) (Body.equipo_id b)) (fun e =>
  convertir (opcional (varchar 100) (Body.serial_number b)) (fun s =>
  convertir (opcional (varchar 100) (Body.placa_ml b)) (fun p =>
  convertir (opcional (numeric 10 8) (Body.latitud b)) (fun la =>
  convertir (opcional (numeric 11 8) (Body.longitud b)) (fun lo =>
  convertir (opcional (varchar 200) (Body.responsable b)) (fun r =>
  convertir (opcional (varchar 100) (Body.cargo b)) (fun c =>
  convertir (opcional (varchar 20) (Body.estado b)) (fun st =>
  convertir (opcional (varchar 5) (Body.windows_update b)) (fun wu =>
  convertir (opcional (varchar 100) (Body.revisor b)) (fun rev =>
  inr (Body.mk e s p la lo (Body.direccion_automatica b)
         (Body.ubicacion_manual b) r c st wu (Body.observaciones b)
         (Body.problemas_detectados b) rev (Body.imagenes b)))))))))))).

(** The insert of converted values.  The key is drawn from the sequence
    first; NOT NULL and CHECK are tested before the unique index.  The
    two timestamps take their default. *)
Definition insertar (b : Body.t) (imgs : list Imagen) (w : World)
  : (PgError + Computador) * World :=
  let n := serial w in
  let w1 := setSerial (n + 1)%Z w in
  match Body.equipo_id b, Body.serial_number b, Body.responsable b,
        Body.cargo b, Body.estado b, Body.windows_update b with
  | Some e, Some s, Some r, Some c, Some st, Some wu =>
      if negb (estadoValido st && windowsValido wu) then (inl err23514, w1)
      else if existsb (fun x => equipo_id x =? e) (tabla w)
      then (inl err23505, w1)
      else
        let fila :=
          mkComputador n e s (Body.placa_ml b) (Body.latitud b)
            (Body.longitud b) (Body.direccion_automatica b)
            (Body.ubicacion_manual b) r c st wu (Some imgs)
            (Body.observaciones b) (Body.problemas_detectados b)
            (ahora w) (ahora w) (Body.revisor b) in
        (inr fila, setTabla (tabla w ++ [fila]) w1)
  | _, _, _, _, _, _ => (inl err23502, w1)
  end.

(** [.insert([{ ... }]).select().single()]: a value that does not fit
    its column fails the statement, and no row is written.  The
    sequence is left alone in that case; whether the database has drawn
    a key by then depends on how it plans the statement, and nothing
    below relies on it. *)
Definition db_insert (numeric : nat -> nat -> string -> PgError + string)
  (b : Body.t) (imgs : list Imagen) : M (PgError + Computador) :=
  remote (fun w =>
    match columnas numeric b with
    | inl e => (inl e, w)
    | inr fila => insertar fila imgs w
    end).

(** A property that is [undefined] is left out of the JSON payload, so
    its column keeps the old value. *)
Definition nuevo (v : option string) (old : string) : string :=
  match v with Some x => x | None => old end.

Definition nuevoOpt (v : option string) (old : option string)
  : option string :=
  match v with Some x => Some x | None => old end.

Definition actualizar (b : Body.t) (imgs : list Imagen) (t : N)
  (c : Computador) : Computador :=
  mkComputador (id c)
    (nuevo (Body.equipo_id b) (equipo_id c))
    (nuevo (Body.serial_number b) (serial_number c))
    (nuevoOpt (Body.placa_ml b) (placa_ml c))
    (nuevoOpt (Body.latitud b) (latitud c))
    (nuevoOpt (Body.longitud b) (longitud c))
    (nuevoOpt (Body.direccion_automatica b) (direccion_automatica c))
    (nuevoOpt (Body.ubicacion_manual b) (ubicacion_manual c))
    (nuevo (Body.responsable b) (responsable c))
    (nuevo (Body.cargo b) (cargo c))
    (nuevo (Body.estado b) (estado c))
    (nuevo (Body.windows_update b) (windows_update c))
    (Some imgs)
    (nuevoOpt (Body.observaciones b) (observaciones c))
    (nuevoOpt (Body.problemas_detectados b) (problemas_detectados c))
    (fecha_revision c) t
    (nuevoOpt (Body.revisor b) (revisor c)).

(** The update of converted values: the rows that were updated. *)
Definition modificar (b : Body.t) (imgs : list Imagen) (t : N) (i : Z)
  (w : World) : (PgError + list Computador) * World :=
  match find (hasId i) (tabla w) with
  | None => (inr [], w)
  | Some c =>
      let c' := actualizar b imgs t c in
      if negb (estadoValido (estado c') && windowsValido (windows_update c'))
      then (inl err23514, w)
      else if existsb (fun x => negb (hasId i x) && (equipo_id x =? equipo_id c'))
                      (tabla w)
      then (inl err23505, w)
      else
        (inr [c'],
         setTabla (map (fun x => if hasId i x then actualizar b imgs t x else x)
                       (tabla w)) w)
  end.

(** [.update({ ..., imagenes, fecha_actualizacion }).eq('id', i).select()].
    An id outside the range of INTEGER and a value that does not fit its
    column fail the statement. *)
Definition db_update (numeric : nat -> nat -> string -> PgError + string)
  (b : Body.t) (imgs : list Imagen) (t : N) (i : Z)
  : M (PgError + list Computador) :=
  remote (fun w =>
    if negb (int4 i) then (inl err22003, w)
    else
      match columnas numeric b with
      | inl e => (inl e, w)
      | inr fila => modificar fila imgs t i w
      end).

(** [.select('imagenes').eq('id', i).single()], of which the handler
    keeps [data] only: [None] is [null], also when the id is outside
    the range of INTEGER. *)
Definition db_select_imagenes (i : Z) : M (option (option (list Imagen))) :=
  e <- remoteCall ;;
  match e with
  | Some _ => ret None
  | None =>
      fun w =>
        if negb (int4 i) then (None, w)
        else
          match filter (hasId i) (tabla w) with
          | [c] => (Some (imagenes c), w)
          | _ => (None, w)
          end
  end.

(** [.delete().eq('id', i).select()]: the rows that were deleted. *)
Definition db_delete (i : Z) : M (PgError + list Computador) :=
  remote (fun w =>
    if negb (int4 i) then (inl err22003, w)
    else
      (inr (filter (hasId i) (tabla w)),
       setTabla (filter (fun c => negb (hasId i c)) (tabla w)) w)).

(** ** The list query: [eq], [ilike] and [order] as the database runs them *)

Module Like.

(** PostgREST reads [*] in the operand of [ilike] as [%]. *)
Definition star (c : ascii) : ascii :=
  if Ascii.eqb c "*" then "%"%char else c.

Fixpoint stars (s : string) : string :=
  match s with
  | EmptyString => EmptyString
  | String c s' => String (star c) (stars s')
  end.

(** The bytes 10xxxxxx that continue a UTF-8 character. *)
Definition isContinuation (c : ascii) : bool :=
  let n := nat_of_ascii c in ((128 <=? n) && (n <=? 191))%nat.

Fixpoint dropContinuation (s : string) : string :=
  match s with
  | EmptyString => EmptyString
  | String c s' => if isContinuation c then dropContinuation s' else s
  end.

(** SQL LIKE: [%] is any sequence, [_] any one character, a backslash
    takes the next pattern character literally.  A pattern that ends in
    a lone backslash is an error in Postgres; the handler's patterns all
    end in [%], so that case is never reached and is [false] here. *)
Fixpoint like (p : string) : string -> bool :=
  match p with
  | EmptyString => fun s => s =? EmptyString
  | String c p' =>
      if Ascii.eqb c "%" then
        fix any (s : string) : bool :=
          like p' s ||
          match s with
          | EmptyString => false
          | String _ s' => any s'
          end
      else if Ascii.eqb c "_" then
        fun s =>
          match s with
          | EmptyString => false
          | String _ s' => like p' (dropContinuation s')
          end
      else if Ascii.eqb c "092" then
        match p' with
        | EmptyString => fun _ => false
        | String d p'' =>
            fun s =>
              match s with
              | EmptyString => false
              | String e s' => Ascii.eqb d e && like p'' s'
              end
        end
      else
        fun s =>
          match s with
          | EmptyString => false
          | String e s' => Ascii.eqb c e && like p' s'
          end
  end.

(** ILIKE, as the database runs it on UTF-8 text: both sides go through
    its [lower()], whose folding depends on the locale, and are then
    matched with LIKE. *)
Definition ilike (lower : string -> string) (p s : string) : bool :=
  like (lower (stars p)) (lower s).

End Like.

Inductive Columna :=
| ColEstado | ColResponsable | ColEquipoId | ColSerialNumber | ColRevisor.

Definition valor (col : Columna) (c : Computador) : option string :=
  match col with
  | ColEstado => Some (estado c)
  | ColResponsable => Some (responsable c)
  | ColEquipoId => Some (equipo_id c)
  | ColSerialNumber => Some (serial_number c)
  | ColRevisor => revisor c
  end.

Inductive Filtro :=
| Eq (col : Columna) (v : string)
| Ilike (col : Columna) (patron : string).

(** A comparison with NULL is not true.  [lower] is [lower()] of the
    database. *)
Definition cumple (lower : string -> string) (f : Filtro) (c : Computador)
  : bool :=
  match f with
  | Eq col v =>
      match valor col c with Some x => x =? v | None => false end
  | Ilike col p =>
      match valor col c with
      | Some x => Like.ilike lower p x
      | None => false
      end
  end.

(** [.order('fecha_revision', { ascending: false })], as a stable
    insertion sort. *)
Fixpoint insertarDesc (c : Computador) (l : list Computador)
  : list Computador :=
  match l with
  | [] => [c]
  | x :: l' =>
      if (fecha_revision x <=? fecha_revision c)%N
      then c :: l
      else x :: insertarDesc c l'
  end.

Definition ordenarDesc (l : list Computador) : list Computador :=
  fold_right insertarDesc [] l.

(** The filtered, ordered [select('*')]. *)
Definition db_select (lower : string -> string) (filtros : list Filtro)
  : M (PgError + list Computador) :=
  remote (fun w =>
    (inr (ordenarDesc
            (filter (fun c => forallb (fun f => cumple lower f c) filtros)
                    (tabla w))),
     w)).

(** ** Responses *)

Inductive Cuerpo :=
| BdNoDisponible
| ErrorSupabase (error details code : string)
| CamposFaltantes (required : list string)
| RegistroCreado (id : Z) (equipo_id serial_number : string)
                 (imagenes_guardadas : nat)
| RegistroActualizado (imagenes_guardadas : nat)
| RegistroEliminado
| RegistroNoEncontrado
| UrlsCorregidas (equipos_actualizados total_imagenes_procesadas : nat)
                 (timestamp : string)
| ErrorCorrigiendo (details timestamp : string)
| Listado (computadores : list Computador).

Record Respuesta := mkRespuesta {
  status : nat;
  cuerpo : Cuerpo
}.

(** What [saveImageToSupabase] returns on success. *)
Record Resultado := mkResultado {
  r_filename : string;
  r_url : string;
  r_size : N
}.

Definition checkDatabase (next : M Respuesta) : M Respuesta :=
  fun w =>
    if dbInitialized w then next w
    else (mkRespuesta 500 BdNoDisponible, w).

Definition handleSupabaseError (error : PgError) : Respuesta :=
  let codigo := if code error =? EmptyString then "SUPABASE_ERROR" else code error in
  if code error =? "23505" then
    mkRespuesta 400
      (ErrorSupabase "El ID del equipo ya existe"
         "El identificador del equipo debe ser único" codigo)
  else if code error =? "23514" then
    mkRespuesta 400
      (ErrorSupabase "Valor no válido"
         "El valor proporcionado no cumple con las restricciones" codigo)
  else if code error =? "23502" then
    mkRespuesta 400
      (ErrorSupabase "Campo requerido faltante" (message error) codigo)
  else
    mkRespuesta 500
      (ErrorSupabase "Error interno del servidor" (message error) codigo).

(** A string or [undefined] inside a template literal. *)
Definition template (v : option string) : string :=
  match v with Some s => s | None => "undefined" end.

Definition required : list string :=
  ["equipo_id"; "serial_number"; "responsable"; "cargo"; "estado";
   "windows_update"].


(** ** Stand-ins for the library functions, and sample data

    Used to run the handlers on concrete requests. *)

Module Sample.

Definition base : string :=
  "https://proj.supabase.co/storage/v1/object/public/imagenes-soporte/".

(** The public URL Supabase Storage gives to a key of the bucket. *)
Definition getPublicUrl (key : string) : string := base ++ key.

(** A base64 decoder for the texts of the examples, which hold
    characters of the alphabet and end in padding: six bits a
    character, eight bits a byte, the padding ends the text. *)
Definition sexteto (c : ascii) : option N :=
  let n := N_of_ascii c in
  if ((65 <=? n) && (n <=? 90))%N then Some (n - 65)%N
  else if ((97 <=? n) && (n <=? 122))%N then Some (n - 71)%N
  else if ((48 <=? n) && (n <=? 57))%N then Some (n + 4)%N
  else if ((n =? 43) || (n =? 45))%N then Some 62%N
  else if ((n =? 47) || (n =? 95))%N then Some 63%N
  else None.

Fixpoint sextetos (s : string) : list N :=
  match s with
  | EmptyString => []
  | String c s' =>
      if Ascii.eqb c "=" then []
      else match sexteto c with
           | Some v => v :: sextetos s'
           | None => sextetos s'
           end
  end.

Definition octeto (n : N) : Byte.byte :=
  match Byte.of_N (n mod 256) with
  | Some b => b
  | None => Byte.x00
  end.

Fixpoint octetos (l : list N) : list Byte.byte :=
  match l with
  | a :: b :: c :: d :: r =>
      octeto (a * 4 + b / 16) :: octeto ((b mod 16) * 16 + c / 4)
      :: octeto ((c mod 4) * 64 + d) :: octetos r
  | [a; b; c] =>
      [octeto (a * 4 + b / 16); octeto ((b mod 16) * 16 + c / 4)]
  | [a; b] => [octeto (a * 4 + b / 16)]
  | _ => []
  end%N.

Definition Buffer_from (s : string) : list Byte.byte :=
  octetos (sextetos s).

Definition path_join (dir f : string) : string := dir ++ "/" ++ f.

Definition UPLOADS_DIR : string := "/app/uploads".

Definition toISOString (t : N) : string := "T" ++ JS.decimal t.

(** [lower()] as a Spanish or English locale has it on the texts of the
    examples: A to Z, and the capital letters of the Latin-1 block,
    whose UTF-8 form is the byte 195 and a byte from 128 to 158 other
    than 151. *)
Definition lowerAscii (c : ascii) : ascii :=
  let n := nat_of_ascii c in
  if ((65 <=? n) && (n <=? 90))%nat then ascii_of_nat (n + 32) else c.

Definition lowerLatin (c : ascii) : ascii :=
  let n := nat_of_ascii c in
  if ((128 <=? n) && (n <=? 158) && negb (n =? 151))%nat
  then ascii_of_nat (n + 32) else c.

Fixpoint lowerFrom (latin : bool) (s : string) : string :=
  match s with
  | EmptyString => EmptyString
  | String c s' =>
      String (if latin then lowerLatin c else lowerAscii c)
             (lowerFrom (Ascii.eqb c "195") s')
  end.

Definition lower (s : string) : string := lowerFrom false s.

(** DECIMAL(p, s) on the texts of the examples: a plain decimal number,
    with or without sign and fraction, of at most [p - s] digits before
    the point, is taken as it is written. *)
Fixpoint hastaPunto (v : string) : string * string :=
  match v with
  | EmptyString => (EmptyString, EmptyString)
  | String c v' =>
      if Ascii.eqb c "." then (EmptyString, v')
      else let (a, b) := hastaPunto v' in (String c a, b)
  end.

Definition sinSigno (v : string) : string :=
  match v with
  | String c v' => if Ascii.eqb c "-" then v' else v
  | EmptyString => EmptyString
  end.

Definition numeric (p s : nat) (v : string) : PgError + string :=
  let (a, b) := hastaPunto (sinSigno v) in
  if negb (a =? EmptyString) && JS.allDigits a && JS.allDigits b then
    if (String.length a <=? p - s)%nat then inr v
    else inl (mkPgError "22003" "numeric field overflow")
  else inl (mkPgError "22P02" "invalid input syntax for type numeric").

(** An empty, initialised deployment at some instant; the clock moves
    by a few milliseconds between its first readings. *)
Definition w0 : World :=
  mkWorld true [] 1%Z [] [] 1700000000000%N [3; 4; 5; 6]%N [].

Definition body (equipo : string) (cargo : option string)
  (imgs : Body.Imagenes) : Body.t :=
  Body.mk (Some equipo) (Some "SN001") None None None None None
    (Some "Ana") cargo (Some "operativo") (Some "si")
    None None None imgs.

Definition fila (i : Z) (equipo resp est : string)
  (imgs : option (list Imagen)) (fecha : N) : Computador :=
  mkComputador i equipo "SN001" None None None None None resp "Tech" est
    "si" imgs None None fecha fecha None.

(** An image as a client submits it, with embedded data only. *)
Definition nueva (datos : string) : Imagen :=
  mkImagen None None None None None (Some datos) None None.

Definition png : string := "data:image/png;base64,iVBORw0KGgo=".
Definition svg : string := "data:image/svg+xml;base64,PHN2Zy8+".

Definition remotaUrl : string :=
  base ++ "PC-01/1690000000000-1.png".

(** A stored image that is served from the bucket, with the url [u]. *)
Definition remota (u : string) : Imagen :=
  mkImagen (Some "Frente") (Some remotaUrl) (Some u) (Some 2048%N)
    (Some "2023-07-22T04:26:40.000Z") None None None.

(** A stored image from the time of the local upload directory. *)
Definition local : Imagen :=
  mkImagen (Some "Lateral") (Some "PC01/1690000000000-2.png")
    (Some "/uploads/PC01/1690000000000-2.png") (Some 1024%N)
    (Some "2023-07-22T04:26:40.000Z") None None None.

(** The same, but without its storage key. *)
Definition sinClave : Imagen :=
  mkImagen (Some "Lateral") None
    (Some "/uploads/PC01/1690000000000-2.png") (Some 1024%N)
    (Some "2023-07-22T04:26:40.000Z") None None None.

(** One record with a remote and a local image, and the local file. *)
Definition w1 : World :=
  mkWorld true
    [fila 1 "PC-01" "Ana" "operativo" (Some [remota remotaUrl; local])
       1690000000000%N]
    2%Z [] [("/app/uploads/PC01/1690000000000-2.png", true);
            ("/app/uploads/PC02/1690000000000-1.png", true)]
    1700000000000%N [3; 4; 5; 6]%N [].

(** The same deployment when the second remote call is going to fail. *)
Definition w1Fallo : World :=
  setFallos
    [None;
     Some (mkPgError "57014" "canceling statement due to statement timeout")]
    w1.

(** The same deployment when the local file may not be removed. *)
Definition w1Bloqueado : World :=
  setDisco [("/app/uploads/PC01/1690000000000-2.png", false)] w1.

(** One record whose local image lost its storage key. *)
Definition w2 : World :=
  mkWorld true
    [fila 1 "PC-01" "Ana" "operativo" (Some [sinClave]) 1690000000000%N]
    2%Z [] [] 1700000000000%N [] [].

(** One record with a local image under a directory whose name starts
    with the letters [http]. *)
Definition wHttpd : World :=
  mkWorld true
    [fila 1 "httpd" "Ana" "operativo"
       (Some [mkImagen (Some "Frente") (Some "httpd/1690000000000-1.png")
                (Some "/uploads/httpd/1690000000000-1.png") (Some 1024%N)
                (Some "2023-07-22T04:26:40.000Z") None None None])
       1690000000000%N]
    2%Z [] [("/app/uploads/httpd/1690000000000-1.png", true)]
    1700000000000%N [] [].

(** Four records for the list route. *)
Definition w3 : World :=
  mkWorld true
    [fila 1 "PC-01" "Ana" "mantenimiento" None 100%N;
     fila 2 "PC-02" "Luis" "mantenimiento" None 200%N;
     fila 3 "PC-03" "Mariana" "operativo" None 300%N;
     fila 4 "PC-04" "ANA MARIA" "mantenimiento" None 400%N]
    5%Z [] [] 1700000000000%N [] [].

Definition query (estado responsable : option string) : Query.t :=
  Query.mk estado responsable None None None.

(** Requests. *)
Definition crearSinCargo : Body.t :=
  body "PC-01" None (Body.Array [nueva png]).

Definition crearConFallo : Body.t :=
  body "PC-01" (Some "Tech") (Body.Array [nueva "iVBORw0KGgo="; nueva png]).

Definition crearSoloFallo : Body.t :=
  body "PC-01" (Some "Tech") (Body.Array [nueva "iVBORw0KGgo="]).

Definition crearPng : Body.t :=
  body "PC-01" (Some "Tech") (Body.Array [nueva png]).

Definition crearLab : Body.t :=
  body "lab/uploads" (Some "Tech") (Body.Array [nueva png]).

Definition actualizarSinImagenes : Body.t :=
  body "PC-01" (Some "Tech") Body.Absent.

Definition actualizarRemota (u : string) : Body.t :=
  body "PC-01" (Some "Tech") (Body.Array [remota u]).

End Sample.

(** ** The other routes: data and responses *)

Definition setDbInitialized (b : bool) (w : World) : World :=
  mkWorld b (tabla w) (serial w) (bucket w) (disco w)
          (ahora w) (avances w) (fallos w).

(** [.select('count', { count: 'exact' })], of which only [error] is
    looked at. *)
Definition db_count : M (PgError + unit) :=
  remote (ret (inr tt)).

(** [.select(columns)] without filter or order. *)
Definition db_select_todos : M (PgError + list Computador) :=
  remote (fun w => (inr (tabla w), w)).

(** A DECIMAL column comes back as a JSON number, of which the row holds
    the decimal text.  The number is falsy when it is NULL or zero, that
    is, when its text has no digit from 1 to 9. *)
Definition digitoNoCero (c : ascii) : bool :=
  let n := nat_of_ascii c in ((49 <=? n) && (n <=? 57))%nat.

Fixpoint tieneDigitoNoCero (s : string) : bool :=
  match s with
  | EmptyString => false
  | String c s' => digitoNoCero c || tieneDigitoNoCero s'
  end.

Definition numeroTruthy (v : option string) : bool :=
  match v with
  | Some s => tieneDigitoNoCero s
  | None => false
  end.

(** An element of [imagenes] in the status report: the image with the
    two properties [tipo] and [estado] added. *)
Record ImagenInfo := mkImagenInfo {
  info_imagen : Imagen;
  tipo : string;
  info_estado : string
}.

(** The three counters the status callback increments. *)
Record Conteo := mkConteo {
  imagenesSupabase : nat;
  imagenesLocales : nat;
  imagenesBrotas : nat
}.

(** An element of [analisis_completo]. *)
Record Analisis := mkAnalisis {
  an_id : Z;
  an_equipo_id : string;
  cantidad_imagenes : nat;
  an_imagenes : list ImagenInfo
}.

(** The body of the status report. *)
Module Status.

Record t := mk {
  total_equipos : nat;
  total_imagenes : nat;
  imagenes_supabase : nat;
  imagenes_locales : nat;
  imagenes_rotas : nat;
  necesita_fix : bool;
  analisis_completo : list Analisis
}.

End Status.

(** The body of the statistics route; [danados] is the property the
    source spells with an n-tilde. *)
Module Stats.

Record t := mk {
  total : nat;
  operativos : nat;
  mantenimiento : nat;
  danados : nat;
  windows_si : nat;
  windows_no : nat;
  revisiones_hoy : nat;
  con_problemas : nat;
  con_ubicacion : nat;
  con_imagenes : nat;
  total_imagenes : nat;
  totalEquipos : nat;
  windowsActualizados : nat
}.

End Stats.

(** A row of the export, one field per labelled column, in the order
    of the source. *)
Module Excel.

Record t := mk {
  id_equipo : string;
  serial : string;
  placa_ml : string;
  responsable : string;
  cargo : string;
  estado : string;
  windows_update : string;
  ubicacion : string;
  problemas : string;
  observaciones : string;
  revisor : string;
  fecha_revision : string;
  hora_revision : string;
  cantidad_imagenes : nat;
  descripcion_imagenes : string
}.

End Excel.

(** Responses of the routes below: a response of the routes above, or
    one of the three bodies that only these routes produce. *)
Inductive CuerpoExt :=
| Comun (c : Cuerpo)
| EstadoImagenes (s : Status.t)
| ErrorEstado
| Estadisticas (s : Stats.t)
| Exportacion (filas : list Excel.t).

Record RespuestaExt := mkRespuestaExt {
  statusExt : nat;
  cuerpoExt : CuerpoExt
}.

Definition ext (r : Respuesta) : RespuestaExt :=
  mkRespuestaExt (status r) (Comun (cuerpo r)).

(** [checkDatabase] in front of a route with such a response. *)
Definition checkDatabaseExt (next : M RespuestaExt) : M RespuestaExt :=
  fun w =>
    if dbInitialized w then next w
    else (ext (mkRespuesta 500 BdNoDisponible), w).

(** A request to one of the routes behind [checkDatabase]. *)
Inductive Peticion :=
| PostFixImagenes
| GetImagenesStatus
| GetComputadores (q : Query.t)
| PostComputadores (b : Body.t)
| PutComputadores (i : Z) (b : Body.t)
| DeleteComputadores (i : Z)
| GetEstadisticas
| GetExport.

(** ** More stand-ins and sample data, for the other routes *)

Module SampleExt.

Import Sample.

(** Stand-ins for the string and date functions of the other routes:
    ASCII white space and letters, and the day number and the
    millisecond of the day for the three date formats. *)
Definition esEspacio (c : ascii) : bool :=
  let n := nat_of_ascii c in
  ((n =? 32) || ((9 <=? n) && (n <=? 13)))%nat.

Fixpoint trimStart (s : string) : string :=
  match s with
  | EmptyString => EmptyString
  | String c s' => if esEspacio c then trimStart s' else s
  end.

Fixpoint trimEnd (s : string) : string :=
  match s with
  | EmptyString => EmptyString
  | String c s' =>
      match trimEnd s' with
      | EmptyString => if esEspacio c then EmptyString else String c EmptyString
      | t => String c t
      end
  end.

Definition trim (s : string) : string := trimEnd (trimStart s).

Definition upper (c : ascii) : ascii :=
  let n := nat_of_ascii c in
  if ((97 <=? n) && (n <=? 122))%nat then ascii_of_nat (n - 32) else c.

Fixpoint toUpperCase (s : string) : string :=
  match s with
  | EmptyString => EmptyString
  | String c s' => String (upper c) (toUpperCase s')
  end.

Definition toDateString (t : N) : string :=
  "D" ++ JS.decimal (t / 86400000).

Definition toLocaleDateString (t : N) : string :=
  "D" ++ JS.decimal (t / 86400000).

Definition toLocaleTimeString (t : N) : string :=
  "H" ++ JS.decimal (t mod 86400000).

(** The deployment of [w1] before start-up. *)
Definition wFrio : World := setDbInitialized false w1.

(** The deployment of [w1] when the probe of the table is refused. *)
Definition wSinTabla : World :=
  setFallos [Some (mkPgError "42P01" "relation does not exist")] wFrio.

(** More requests. *)
Definition crearNuevo : Body.t :=
  body "PC-02" (Some "Tech") (Body.Array [nueva png]).

Definition crearEstadoRoto : Body.t :=
  Body.mk (Some "PC-09") (Some "SN009") None None None None None
    (Some "Ana") (Some "Tech") (Some "roto") (Some "si")
    None None None Body.Absent.

Definition actualizarExistentes : Body.t :=
  body "PC-01" (Some "Tech")
    (Body.Array [remota remotaUrl; sinClave; local]).

End SampleExt.
(** ** The handlers *)

Section Server.

(** [supabase.storage.from('imagenes-soporte').getPublicUrl(key).data.publicUrl] *)
Variable getPublicUrl : string -> string.
(** [Buffer.from(text, 'base64')] *)
Variable Buffer_from : string -> list Byte.byte.
(** [path.join] and the directory [UPLOADS_DIR] *)
Variable path_join : string -> string -> string.
Variable UPLOADS_DIR : string.
(** [Date.prototype.toISOString], on an instant in milliseconds *)
Variable toISOString : N -> string.
(** [lower()] of the database, which ILIKE applies to both sides *)
Variable pg_lower : string -> string.
(** The input conversion of DECIMAL(p, s) of the database *)
Variable pg_numeric : nat -> nat -> string -> PgError + string.

(** Lines 26-38 of [saveImageToSupabase]: the declared subtype and the
    decoded bytes, or [None] where the function gives up before any
    upload (it returns [null] at once, or throws into its own [catch]). *)
Definition decodeImage (base64Data : option string)
  : option (string * list Byte.byte) :=
  match base64Data with
  | None => None
  | Some d =>
      if (d =? EmptyString) || negb (JS.includes d ",") then None
      else
        match DataUri.matchPattern d with
        | None => None
        | Some (imageType, imageData) =>
            Some (imageType, Buffer_from imageData)
        end
  end.

Definition saveImageToSupabase (base64Data : option string)
  (equipoId : string) (imageIndex : N) : M (option Resultado) :=
  match decodeImage base64Data with
  | None => ret None
  | Some (imageType, buffer) =>
      t <- Date_now ;;
      let fileName :=
        JS.decimal t ++ "-" ++ JS.decimal imageIndex ++ "." ++ imageType in
      let filePath := equipoId ++ "/" ++ fileName in
      r <- storage_upload filePath buffer ;;
      match r with
      | inl _ => ret None
      | inr _ =>
          ret (Some (mkResultado filePath (getPublicUrl filePath)
                                 (N.of_nat (length buffer))))
      end
  end.

Definition deleteImageLocally (filename : string) : M bool :=
  if JS.startsWith filename "http" then ret true
  else
    let fullPath := path_join UPLOADS_DIR filename in
    fun w =>
      if existsSync fullPath w then unlinkSync fullPath w
      else (false, w).

(** *** POST /api/fix-imagenes *)

(** The callback of [computador.imagenes.map], with the two variables
    it assigns passed along. *)
Definition corregirImagen (imagen : Imagen) (totalImagenes : nat)
  (necesitaActualizacion : bool) : M (Imagen * nat * bool) :=
  let totalImagenes := S totalImagenes in
  if JS.truthy (filename imagen) && JS.truthy (url imagen)
     && JS.includes (template (url imagen)) "/uploads/"
  then
    let nuevaURL := getPublicUrl (template (filename imagen)) in
    t <- Date_now ;;
    ret (mkImagen (title imagen) (filename imagen) (Some nuevaURL)
           (size imagen) (fecha_subida imagen) (base64 imagen)
           (url imagen) (Some (toISOString t)),
         totalImagenes, true)
  else ret (imagen, totalImagenes, necesitaActualizacion).

Fixpoint corregirImagenes (imagenes : list Imagen) (totalImagenes : nat)
  (necesitaActualizacion : bool) : M (list Imagen * nat * bool) :=
  match imagenes with
  | [] => ret ([], totalImagenes, necesitaActualizacion)
  | imagen :: resto =>
      '(imagen', total, necesita) <-
        corregirImagen imagen totalImagenes necesitaActualizacion ;;
      '(resto', total, necesita) <- corregirImagenes resto total necesita ;;
      ret (imagen' :: resto', total, necesita)
  end.

(** The [for] loop over the rows that were loaded. *)
Fixpoint fixLoop (computadores : list Computador)
  (actualizados totalImagenes : nat) : M (nat * nat) :=
  match computadores with
  | [] => ret (actualizados, totalImagenes)
  | computador :: resto =>
      match imagenes computador with
      | Some imgs =>
          '(imagenesCorregidas, total, necesitaActualizacion) <-
            corregirImagenes imgs totalImagenes false ;;
          if necesitaActualizacion then
            r <- db_update_imagenes imagenesCorregidas (id computador) ;;
            match r with
            | inr _ => fixLoop resto (S actualizados) total
            | inl _ => fixLoop resto actualizados total
            end
          else fixLoop resto actualizados total
      | None => fixLoop resto actualizados totalImagenes
      end
  end.

Definition post_fix_imagenes : M Respuesta :=
  checkDatabase (
    r <- db_select_con_imagenes ;;
    match r with
    | inl error =>
        t <- Date_now ;;
        ret (mkRespuesta 500 (ErrorCorrigiendo (message error) (toISOString t)))
    | inr computadores =>
        '(actualizados, totalImagenes) <- fixLoop computadores 0 0 ;;
        t <- Date_now ;;
        ret (mkRespuesta 200
               (UrlsCorregidas actualizados totalImagenes (toISOString t)))
    end).

(** *** GET /api/computadores *)

Definition cuando (v : option string) (f : string -> Filtro) : list Filtro :=
  match v with
  | Some x => if x =? EmptyString then [] else [f x]
  | None => []
  end.

(** The query the handler builds from [req.query]. *)
Definition filtros (q : Query.t) : list Filtro :=
  cuando (Query.estado q) (fun v => Eq ColEstado v)
  ++ cuando (Query.responsable q)
       (fun v => Ilike ColResponsable ("%" ++ v ++ "%"))
  ++ cuando (Query.equipo_id q)
       (fun v => Ilike ColEquipoId ("%" ++ v ++ "%"))
  ++ cuando (Query.serial_number q)
       (fun v => Ilike ColSerialNumber ("%" ++ v ++ "%"))
  ++ cuando (Query.revisor q)
       (fun v => Ilike ColRevisor ("%" ++ v ++ "%")).

(** The callback of [computador.imagenes.map]; [None] is [null], which
    the [filter] that follows removes. *)
Definition procesarImagen (w : World) (imagen : Imagen) : option Imagen :=
  if JS.truthy (url imagen)
     && JS.includes (template (url imagen)) "supabase.co"
  then
    Some (mkImagen (title imagen) (url imagen) (url imagen) (size imagen)
            (fecha_subida imagen) (base64 imagen) (url_anterior imagen)
            (corregida_el imagen))
  else if JS.truthy (filename imagen)
          && negb (JS.startsWith (template (filename imagen)) "http")
  then
    if existsSync (path_join UPLOADS_DIR (template (filename imagen))) w
    then Some imagen
    else None
  else Some imagen.

Fixpoint filterMap {A B} (f : A -> option B) (l : list A) : list B :=
  match l with
  | [] => []
  | x :: l' =>
      match f x with
      | Some y => y :: filterMap f l'
      | None => filterMap f l'
      end
  end.

Definition procesarComputador (w : World) (computador : Computador)
  : Computador :=
  match imagenes computador with
  | Some imgs =>
      conImagenes (Some (filterMap (procesarImagen w) imgs)) computador
  | None => computador
  end.

Definition get_computadores (q : Query.t) : M Respuesta :=
  checkDatabase (
    r <- db_select pg_lower (filtros q) ;;
    match r with
    | inl error => ret (handleSupabaseError error)
    | inr data =>
        fun w => (mkRespuesta 200 (Listado (map (procesarComputador w) data)), w)
    end).

(** *** POST /api/computadores *)

(** The [for] loop over [imagenes]; [i] is the loop variable. *)
Fixpoint createLoop (equipo_id : string) (i : N) (imagenes : list Imagen)
  (imagenesGuardadas : list Imagen) : M (list Imagen) :=
  match imagenes with
  | [] => ret imagenesGuardadas
  | imagen :: resto =>
      if JS.truthy (base64 imagen) then
        resultado <- saveImageToSupabase (base64 imagen) equipo_id (i + 1) ;;
        match resultado with
        | Some r =>
            t <- Date_now ;;
            createLoop equipo_id (i + 1) resto
              (imagenesGuardadas ++
               [mkImagen
                  (Some (JS.orElse (title imagen)
                           ("Imagen " ++ JS.decimal (i + 1))))
                  (Some (r_filename r)) (Some (r_url r)) (Some (r_size r))
                  (Some (toISOString t)) None None None])
        | None => createLoop equipo_id (i + 1) resto imagenesGuardadas
        end
      else createLoop equipo_id (i + 1) resto imagenesGuardadas
  end.

Definition post_computadores (b : Body.t) : M Respuesta :=
  checkDatabase (
    if negb (JS.truthy (Body.equipo_id b))
       || negb (JS.truthy (Body.serial_number b))
       || negb (JS.truthy (Body.responsable b))
       || negb (JS.truthy (Body.cargo b))
       || negb (JS.truthy (Body.estado b))
       || negb (JS.truthy (Body.windows_update b))
    then ret (mkRespuesta 400 (CamposFaltantes required))
    else
      imagenesGuardadas <-
        match Body.asArray (Body.imagenes b) with
        | Some imgs => createLoop (template (Body.equipo_id b)) 0 imgs []
        | None => ret []
        end ;;
      r <- db_insert pg_numeric b imagenesGuardadas ;;
      match r with
      | inl error => ret (handleSupabaseError error)
      | inr data =>
          ret (mkRespuesta 201
                 (RegistroCreado (id data) (equipo_id data)
                    (serial_number data) (length imagenesGuardadas)))
      end).

(** *** PUT /api/computadores/:id *)

(** [imagen.fecha_subida || new Date().toISOString()]: the clock is read
    only when the left side is falsy. *)
Definition fechaSubida (imagen : Imagen) : M string :=
  if JS.truthy (fecha_subida imagen) then ret (template (fecha_subida imagen))
  else t <- Date_now ;; ret (toISOString t).

Fixpoint updateLoop (equipo_id : option string) (i : N)
  (imagenes : list Imagen) (imagenesFinales : list Imagen)
  : M (list Imagen) :=
  match imagenes with
  | [] => ret imagenesFinales
  | imagen :: resto =>
      if JS.truthy (base64 imagen)
         && JS.startsWith (template (base64 imagen)) "data:image"
      then
        resultado <-
          saveImageToSupabase (base64 imagen)
            (template equipo_id ++ "-update") (i + 1) ;;
        match resultado with
        | Some r =>
            t <- Date_now ;;
            updateLoop equipo_id (i + 1) resto
              (imagenesFinales ++
               [mkImagen
                  (Some (JS.orElse (title imagen)
                           ("Imagen " ++ JS.decimal (i + 1))))
                  (Some (r_filename r)) (Some (r_url r)) (Some (r_size r))
                  (Some (toISOString t)) None None None])
        | None => updateLoop equipo_id (i + 1) resto imagenesFinales
        end
      else if JS.truthy (filename imagen) then
        if JS.startsWith (template (filename imagen)) "http" then
          f <- fechaSubida imagen ;;
          updateLoop equipo_id (i + 1) resto
            (imagenesFinales ++
             [mkImagen
                (Some (JS.orElse (title imagen)
                         ("Imagen " ++ JS.decimal (i + 1))))
                (filename imagen) (filename imagen)
                (Some (JS.orZero (size imagen)))
                (Some f) None None None])
        else
          fun w =>
            if existsSync (path_join UPLOADS_DIR (template (filename imagen))) w
            then
              (f <- fechaSubida imagen ;;
               updateLoop equipo_id (i + 1) resto
                 (imagenesFinales ++
                  [mkImagen
                     (Some (JS.orElse (title imagen)
                              ("Imagen " ++ JS.decimal (i + 1))))
                     (filename imagen) (url imagen)
                     (Some (JS.orZero (size imagen)))
                     (Some f) None None None])) w
            else updateLoop equipo_id (i + 1) resto imagenesFinales w
      else updateLoop equipo_id (i + 1) resto imagenesFinales
  end.

Definition put_computadores (i : Z) (b : Body.t) : M Respuesta :=
  checkDatabase (
    imagenesFinales <-
      match Body.asArray (Body.imagenes b) with
      | Some imgs => updateLoop (Body.equipo_id b) 0 imgs []
      | None => ret []
      end ;;
    t <- Date_now ;;
    r <- db_update pg_numeric b imagenesFinales t i ;;
    match r with
    | inl error => ret (handleSupabaseError error)
    | inr [] => ret (mkRespuesta 404 RegistroNoEncontrado)
    | inr (_ :: _) =>
        ret (mkRespuesta 200 (RegistroActualizado (length imagenesFinales)))
    end).

(** *** DELETE /api/computadores/:id *)

Fixpoint deleteLoop (imagenes : list Imagen) : M unit :=
  match imagenes with
  | [] => ret tt
  | imagen :: resto =>
      if JS.truthy (filename imagen) then
        _ <- deleteImageLocally (template (filename imagen)) ;;
        deleteLoop resto
      else deleteLoop resto
  end.

Definition delete_computadores (i : Z) : M Respuesta :=
  checkDatabase (
    computador <- db_select_imagenes i ;;
    r <- db_delete i ;;
    match r with
    | inl error => ret (handleSupabaseError error)
    | inr [] => ret (mkRespuesta 404 RegistroNoEncontrado)
    | inr (_ :: _) =>
        _ <- match computador with
             | Some (Some imgs) => deleteLoop imgs
             | Some None | None => ret tt
             end ;;
        ret (mkRespuesta 200 RegistroEliminado)
    end).

(** ** Notions the specification uses *)

Definition ausente (v : option string) (nombre : string) : list string :=
  match v with
  | None => [nombre]
  | Some _ => []
  end.

(** The required fields that the request does not carry. *)
Definition faltantes (b : Body.t) : list string :=
  ausente (Body.equipo_id b) "equipo_id"
  ++ ausente (Body.serial_number b) "serial_number"
  ++ ausente (Body.responsable b) "responsable"
  ++ ausente (Body.cargo b) "cargo"
  ++ ausente (Body.estado b) "estado"
  ++ ausente (Body.windows_update b) "windows_update".

(** The shape [data:image/<subtype>;base64,<payload>]. *)
Definition dataUri (subtype payload : string) : string :=
  "data:image/" ++ subtype ++ ";base64," ++ payload.

(** Two worlds with the same table, key sequence, local files and
    readiness flag. *)
Definition mismoAlmacen (w w' : World) : Prop :=
  dbInitialized w' = dbInitialized w
  /\ tabla w' = tabla w
  /\ serial w' = serial w
  /\ disco w' = disco w.

(** The submitted images whose embedded data the codec accepts. *)
Definition decodificables (imgs : list Imagen) : nat :=
  length (filter (fun img => isSome (decodeImage (base64 img))) imgs).

(** The storage key [<namespace>/<timestamp>-<index>.<subtype>]. *)
Definition clave (namespace : string) (timestamp index : N)
  (subtype : string) : string :=
  namespace ++ "/" ++ JS.decimal timestamp ++ "-" ++ JS.decimal index
  ++ "." ++ subtype.

(** The descriptor the create loop stores for the image at 1-based
    position [index], uploaded at instant [t] and stamped at [t']. *)
Definition guardada (namespace : string) (index : N) (img : Imagen)
  (subtype : string) (bytes : list Byte.byte) (t t' : N) : Imagen :=
  mkImagen
    (Some (JS.orElse (title img) ("Imagen " ++ JS.decimal index)))
    (Some (clave namespace t index subtype))
    (Some (getPublicUrl (clave namespace t index subtype)))
    (Some (N.of_nat (length bytes)))
    (Some (toISOString t')) None None None.

(** The six required fields are all present and non-empty: the test of
    the create handler passes. *)
Definition camposPresentes (b : Body.t) : bool :=
  JS.truthy (Body.equipo_id b)
  && JS.truthy (Body.serial_number b)
  && JS.truthy (Body.responsable b)
  && JS.truthy (Body.cargo b)
  && JS.truthy (Body.estado b)
  && JS.truthy (Body.windows_update b).

(** Every value of the request fits the type of its column: the texts
    are within the length of their VARCHAR, the two coordinates are
    numbers that DECIMAL takes. *)
Definition cabe (n : nat) (v : option string) : bool :=
  match v with
  | Some s => (caracteres s <=? n)%nat
  | None => true
  end.

Definition numerico (p s : nat) (v : option string) : bool :=
  match v with
  | Some x => match pg_numeric p s x with inr _ => true | inl _ => false end
  | None => true
  end.

Definition tiposValidos (b : Body.t) : bool :=
  cabe 100 (Body.equipo_id b)
  && cabe 100 (Body.serial_number b)
  && cabe 100 (Body.placa_ml b)
  && numerico 10 8 (Body.latitud b)
  && numerico 11 8 (Body.longitud b)
  && cabe 200 (Body.responsable b)
  && cabe 100 (Body.cargo b)
  && cabe 20 (Body.estado b)
  && cabe 5 (Body.windows_update b)
  && cabe 100 (Body.revisor b).

(** A locally-hosted image: it has a storage key and the key does not
    start with [http]. *)
Definition esLocal (img : Imagen) : bool :=
  JS.truthy (filename img)
  && negb (JS.startsWith (template (filename img)) "http").

(** The place of a locally-hosted image in the upload directory. *)
Definition rutaLocal (img : Imagen) : string :=
  path_join UPLOADS_DIR (template (filename img)).

(** [unlink] of the path would not fail: there is nothing at the path,
    or what is there may be removed. *)
Definition removible (p : string) (d : list (string * bool)) : bool :=
  match find (isPath p) d with
  | Some (_, false) => false
  | Some (_, true) | None => true
  end.

(** Case-insensitive substring test: one text holds the other once both
    are folded as the database folds them. *)
Definition contiene (s v : string) : bool :=
  JS.includes (pg_lower s) (pg_lower v).

(** What the specification asks of a row for one optional filter. *)
Definition filtroExacto (v : option string) (x : string) : bool :=
  if JS.truthy v then x =? template v else true.

Definition filtroContiene (v : option string) (x : option string) : bool :=
  if JS.truthy v then
    match x with
    | Some s => contiene s (template v)
    | None => false
    end
  else true.

(** The row satisfies every filter the request supplies. *)
Definition coincide (q : Query.t) (c : Computador) : bool :=
  filtroExacto (Query.estado q) (estado c)
  && filtroContiene (Query.responsable q) (Some (responsable c))
  && filtroContiene (Query.equipo_id q) (Some (equipo_id c))
  && filtroContiene (Query.serial_number q) (Some (serial_number c))
  && filtroContiene (Query.revisor q) (revisor c).

(** The characters that [ilike] does not take literally. *)
Definition esComodin (c : ascii) : bool :=
  Ascii.eqb c "%" || Ascii.eqb c "_" || Ascii.eqb c "092" || Ascii.eqb c "*".

Fixpoint sinComodines (s : string) : bool :=
  match s with
  | EmptyString => true
  | String c s' => negb (esComodin c) && sinComodines s'
  end.

Definition sinComodinesOpt (v : option string) : bool :=
  match v with
  | Some s => sinComodines s
  | None => true
  end.

(** What is asked of the database's [lower()]: around a text without
    such a character it leaves the two [%] of the pattern in place, and
    it makes no such character out of another one. *)
Definition plegadoRegular (lower : string -> string) : Prop :=
  forall v,
    sinComodines v = true ->
    lower ("%" ++ v ++ "%") = "%" ++ lower v ++ "%"
    /\ sinComodines (lower v) = true.

(** The substring filters of the request carry no such character. *)
Definition literal (q : Query.t) : bool :=
  sinComodinesOpt (Query.responsable q)
  && sinComodinesOpt (Query.equipo_id q)
  && sinComodinesOpt (Query.serial_number q)
  && sinComodinesOpt (Query.revisor q).

(** [a] was reviewed no earlier than [b]. *)
Definition masReciente (a b : Computador) : Prop :=
  (fecha_revision b <= fecha_revision a)%N.

(** The test of the reconciliation callback: the image has a storage
    key and its url holds the deprecated marker. *)
Definition necesitaCorreccion (img : Imagen) : bool :=
  JS.truthy (filename img) && JS.truthy (url img)
  && JS.includes (template (url img)) "/uploads/".

(** The image as rewritten at instant [t]. *)
Definition corregida (t : N) (img : Imagen) : Imagen :=
  mkImagen (title img) (filename img)
    (Some (getPublicUrl (template (filename img))))
    (size img) (fecha_subida img) (base64 img)
    (url img) (Some (toISOString t)).

(** An image and what the reconciliation makes of it. *)
Definition reconciliaImagen (img img' : Imagen) : Prop :=
  if necesitaCorreccion img
  then exists t, img' = corregida t img
  else img' = img.

(** The row has an image to rewrite. *)
Definition sucia (c : Computador) : bool :=
  match imagenes c with
  | Some imgs => existsb necesitaCorreccion imgs
  | None => false
  end.

Fixpoint totalImagenes (T : list Computador) : nat :=
  match T with
  | [] => 0
  | c :: T' =>
      match imagenes c with
      | Some imgs => length imgs
      | None => 0
      end + totalImagenes T'
  end.

(** A table before and after one reconciliation, with the number of
    rows that were written back, under the answers [fs] of the remote
    side to the writes.  A row without an image to rewrite is kept and
    costs no call.  A row with one takes the next answer: when it is an
    error the row is kept as it was and not counted; otherwise the row
    is replaced by the row with the rewritten sequence and counted. *)
Inductive Reconciliada
  : list (option PgError) -> list Computador -> list Computador -> nat
    -> Prop :=
| rec_nil (fs : list (option PgError)) : Reconciliada fs [] [] 0
| rec_limpia (fs : list (option PgError)) (c : Computador)
    (T T' : list Computador) (k : nat) :
    sucia c = false ->
    Reconciliada fs T T' k ->
    Reconciliada fs (c :: T) (c :: T') k
| rec_fallida (fs : list (option PgError)) (e : PgError) (c : Computador)
    (T T' : list Computador) (k : nat) :
    sucia c = true ->
    hd None fs = Some e ->
    Reconciliada (tl fs) T T' k ->
    Reconciliada fs (c :: T) (c :: T') k
| rec_corregida (fs : list (option PgError)) (c : Computador)
    (imgs imgs' : list Imagen) (T T' : list Computador) (k : nat) :
    imagenes c = Some imgs ->
    existsb necesitaCorreccion imgs = true ->
    hd None fs = None ->
    Forall2 reconciliaImagen imgs imgs' ->
    Reconciliada (tl fs) T T' k ->
    Reconciliada fs (c :: T) (conImagenes (Some imgs') c :: T') (S k).

(** Two worlds that differ in the clock at most. *)
Definition soloReloj (w w' : World) : Prop :=
  dbInitialized w' = dbInitialized w
  /\ tabla w' = tabla w
  /\ serial w' = serial w
  /\ bucket w' = bucket w
  /\ disco w' = disco w
  /\ fallos w' = fallos w.

(** ** The other routes *)

(** [String.prototype.trim] and [String.prototype.toUpperCase] *)
Variable trim : string -> string.
Variable toUpperCase : string -> string.
(** [toDateString], [toLocaleDateString('es-ES')] and
    [toLocaleTimeString('es-ES')] of the date at an instant *)
Variable toDateString : N -> string.
Variable toLocaleDateString : N -> string.
Variable toLocaleTimeString : N -> string.

(** *** Start-up *)

(** [Some m] is the error thrown with message [m]. *)
Definition initializeSupabase : M (option string) :=
  r <- db_count ;;
  match r with
  | inl error =>
      if code error =? "42P01"
      then ret (Some "Tabla no existe - ejecuta el SQL mostrado arriba")
      else ret (Some (message error))
  | inr _ => fun w => (None, setDbInitialized true w)
  end.

(** [startServer]: the world in which the server listens, or [None] when
    the process exits with code 1. *)
Definition startServer (w : World) : option World :=
  match initializeSupabase w with
  | (None, w') => Some w'
  | (Some _, _) => None
  end.

(** *** GET /api/imagenes-status *)

(** The callback of [imagenes.map], with the counters it increments. *)
Definition clasificarImagen (img : Imagen) (n : Conteo)
  : ImagenInfo * Conteo :=
  if JS.truthy (url img) && JS.includes (template (url img)) "supabase.co"
  then (mkImagenInfo img "supabase" "ok",
        mkConteo (S (imagenesSupabase n)) (imagenesLocales n)
                 (imagenesBrotas n))
  else if JS.truthy (url img) && JS.includes (template (url img)) "/uploads/"
  then (mkImagenInfo img "koyeb_rota" "rota",
        mkConteo (imagenesSupabase n) (imagenesLocales n)
                 (S (imagenesBrotas n)))
  else (mkImagenInfo img "local" "ok",
        mkConteo (imagenesSupabase n) (S (imagenesLocales n))
                 (imagenesBrotas n)).

Fixpoint clasificarImagenes (imgs : list Imagen) (n : Conteo)
  : list ImagenInfo * Conteo :=
  match imgs with
  | [] => ([], n)
  | img :: resto =>
      let (info, n1) := clasificarImagen img n in
      let (infos, n2) := clasificarImagenes resto n1 in
      (info :: infos, n2)
  end.

(** The callback of [computadores.map]. *)
Fixpoint analizar (computadores : list Computador) (totalImagenes : nat)
  (n : Conteo) : list Analisis * nat * Conteo :=
  match computadores with
  | [] => ([], totalImagenes, n)
  | comp :: resto =>
      let imgs := match imagenes comp with Some l => l | None => [] end in
      let totalImagenes := totalImagenes + length imgs in
      let (imagenesInfo, n1) := clasificarImagenes imgs n in
      let '(analisis, total, n2) := analizar resto totalImagenes n1 in
      (mkAnalisis (id comp) (equipo_id comp) (length imgs) imagenesInfo
         :: analisis,
       total, n2)
  end.

Definition get_imagenes_status : M RespuestaExt :=
  checkDatabaseExt (
    r <- db_select_con_imagenes ;;
    match r with
    | inl _ => ret (mkRespuestaExt 500 ErrorEstado)
    | inr computadores =>
        let '(analisis, totalImagenes, n) :=
          analizar computadores 0 (mkConteo 0 0 0) in
        ret (mkRespuestaExt 200
               (EstadoImagenes
                  (Status.mk (length computadores) totalImagenes
                     (imagenesSupabase n) (imagenesLocales n)
                     (imagenesBrotas n) (0 <? imagenesBrotas n)%nat
                     analisis)))
    end).

(** *** GET /api/estadisticas *)

Definition cuenta (f : Computador -> bool) (l : list Computador) : nat :=
  length (filter f l).

Definition cantidadImagenes (c : Computador) : nat :=
  match imagenes c with
  | Some imgs => length imgs
  | None => 0
  end.

(** The statistics of the rows, [hoy] being [new Date().toDateString()]. *)
Definition estadisticas (hoy : string) (computadores : list Computador)
  : Stats.t :=
  let total := length computadores in
  let windowsSi := cuenta (fun c => windows_update c =? "si") computadores in
  Stats.mk total
    (cuenta (fun c => estado c =? "operativo") computadores)
    (cuenta (fun c => estado c =? "mantenimiento") computadores)
    (cuenta (fun c => estado c =? "dañado") computadores)
    windowsSi
    (cuenta (fun c => windows_update c =? "no") computadores)
    (cuenta (fun c => toDateString (fecha_revision c) =? hoy) computadores)
    (cuenta (fun c => JS.truthy (problemas_detectados c)
                      && negb (trim (template (problemas_detectados c))
                               =? EmptyString))
            computadores)
    (cuenta (fun c => numeroTruthy (latitud c) && numeroTruthy (longitud c))
            computadores)
    (cuenta (fun c => (0 <? cantidadImagenes c)%nat) computadores)
    (fold_left (fun sum c => sum + cantidadImagenes c) computadores 0)
    total
    windowsSi.

Definition get_estadisticas : M RespuestaExt :=
  checkDatabaseExt (
    r <- db_select_todos ;;
    match r with
    | inl error => ret (ext (handleSupabaseError error))
    | inr computadores =>
        hoy <- Date_now ;;
        ret (mkRespuestaExt 200
               (Estadisticas (estadisticas (toDateString hoy) computadores)))
    end).

(** *** GET /api/export/excel *)

(** An element of an array inside [join]: [undefined] gives nothing. *)
Definition joinItem (v : option string) : string :=
  match v with Some s => s | None => EmptyString end.

Definition excelRow (row : Computador) : Excel.t :=
  let imagenesInfo :=
    match imagenes row with
    | Some imgs => String.concat "; " (map (fun img => joinItem (title img)) imgs)
    | None => "Sin imágenes"
    end in
  Excel.mk
    (equipo_id row)
    (serial_number row)
    (JS.orElse (placa_ml row) "NO ASIGNADO")
    (responsable row)
    (cargo row)
    (toUpperCase (estado row))
    (if windows_update row =? "si" then "SÍ" else "NO")
    (JS.orElse (direccion_automatica row)
       (JS.orElse (ubicacion_manual row) "NO ESPECIFICADA"))
    (JS.orElse (problemas_detectados row) "NINGUNO")
    (JS.orElse (observaciones row) "SIN OBSERVACIONES")
    (JS.orElse (revisor row) "NO ESPECIFICADO")
    (toLocaleDateString (fecha_revision row))
    (toLocaleTimeString (fecha_revision row))
    (cantidadImagenes row)
    imagenesInfo.

Definition get_export_excel : M RespuestaExt :=
  checkDatabaseExt (
    r <- db_select pg_lower [] ;;
    match r with
    | inl error => ret (ext (handleSupabaseError error))
    | inr computadores =>
        ret (mkRespuestaExt 200 (Exportacion (map excelRow computadores)))
    end).

(** *** The routes behind [checkDatabase], by request *)

Definition atender (p : Peticion) : M RespuestaExt :=
  match p with
  | PostFixImagenes => r <- post_fix_imagenes ;; ret (ext r)
  | GetImagenesStatus => get_imagenes_status
  | GetComputadores q => r <- get_computadores q ;; ret (ext r)
  | PostComputadores b => r <- post_computadores b ;; ret (ext r)
  | PutComputadores i b => r <- put_computadores i b ;; ret (ext r)
  | DeleteComputadores i => r <- delete_computadores i ;; ret (ext r)
  | GetEstadisticas => get_estadisticas
  | GetExport => get_export_excel
  end.

(** The requests of a run, served one after the other. *)
Fixpoint atenderTodas (ps : list Peticion) : M (list RespuestaExt) :=
  match ps with
  | [] => ret []
  | p :: resto =>
      r <- atender p ;;
      rs <- atenderTodas resto ;;
      ret (r :: rs)
  end.

(** ** Notions for the other routes *)

(** Run where the table is ready, [c] gives a result in [Q] and leaves
    the table ready. *)
Definition listo {A} (Q : A -> Prop) (c : M A) : Prop :=
  forall w,
    dbInitialized w = true ->
    Q (fst (c w)) /\ dbInitialized (snd (c w)) = true.

(** The answer of [checkDatabase] when the table is not ready. *)
Definition noDisponible (r : RespuestaExt) : Prop :=
  cuerpoExt r = Comun BdNoDisponible.

(** The images of a row, and of a table. *)
Definition imagenesDe (c : Computador) : list Imagen :=
  match imagenes c with
  | Some imgs => imgs
  | None => []
  end.

Definition todas (T : list Computador) : list Imagen :=
  flat_map imagenesDe T.

(** The three classes of the status report. *)
Definition esSupabase (img : Imagen) : bool :=
  JS.truthy (url img) && JS.includes (template (url img)) "supabase.co".

Definition esRota (img : Imagen) : bool :=
  negb (esSupabase img)
  && (JS.truthy (url img) && JS.includes (template (url img)) "/uploads/").

Definition esOtra (img : Imagen) : bool :=
  negb (esSupabase img) && negb (esRota img).

(** The image array of a request; none when [imagenes] is not an array. *)
Definition imagenesPedidas (b : Body.t) : list Imagen :=
  match Body.asArray (Body.imagenes b) with
  | Some imgs => imgs
  | None => []
  end.

(** The first test of the update loop: the entry carries new data. *)
Definition traeDatos (img : Imagen) : bool :=
  JS.truthy (base64 img) && JS.startsWith (template (base64 img)) "data:image".

(** One turn of the update loop: what it appends for the entry at
    index [i]. *)
Definition updateStep (equipo_id : option string) (i : N) (imagen : Imagen)
  : M (list Imagen) :=
  if traeDatos imagen then
    resultado <-
      saveImageToSupabase (base64 imagen)
        (template equipo_id ++ "-update") (i + 1) ;;
    match resultado with
    | Some r =>
        t <- Date_now ;;
        ret [mkImagen
               (Some (JS.orElse (title imagen)
                        ("Imagen " ++ JS.decimal (i + 1))))
               (Some (r_filename r)) (Some (r_url r)) (Some (r_size r))
               (Some (toISOString t)) None None None]
    | None => ret []
    end
  else if JS.truthy (filename imagen) then
    if JS.startsWith (template (filename imagen)) "http" then
      f <- fechaSubida imagen ;;
      ret [mkImagen
             (Some (JS.orElse (title imagen)
                      ("Imagen " ++ JS.decimal (i + 1))))
             (filename imagen) (filename imagen)
             (Some (JS.orZero (size imagen)))
             (Some f) None None None]
    else
      fun w =>
        if existsSync (path_join UPLOADS_DIR (template (filename imagen))) w
        then
          (f <- fechaSubida imagen ;;
           ret [mkImagen
                  (Some (JS.orElse (title imagen)
                           ("Imagen " ++ JS.decimal (i + 1))))
                  (filename imagen) (url imagen)
                  (Some (JS.orZero (size imagen)))
                  (Some f) None None None]) w
        else ([], w)
  else ret [].

(** An entry without new data is kept by the update: it has a storage
    key that starts with [http] or names a file that exists. *)
Definition conservada (w : World) (img : Imagen) : bool :=
  JS.truthy (filename img)
  && (JS.startsWith (template (filename img)) "http"
      || existsSync (rutaLocal img) w).

(** Where a stored descriptor of an update comes from: an upload of the
    entry at 0-based position [k] under the update namespace of
    [equipo_id], or the entry itself, kept under its own storage key. *)
Definition origen (equipo_id : option string) (img : Imagen) (k : N)
  (x : Imagen) : Prop :=
  (exists subtype payload t,
      base64 img = Some (dataUri subtype payload)
      /\ filename x
         = Some (clave (template equipo_id ++ "-update") t (k + 1) subtype)
      /\ url x
         = Some (getPublicUrl
                   (clave (template equipo_id ++ "-update") t (k + 1) subtype)))
  \/ (traeDatos img = false
      /\ JS.truthy (filename img) = true
      /\ filename x = filename img).

(** What the list route lets through: an image whose url is on
    [supabase.co] (its filename then repeats the url), an image that is
    not locally hosted, or a locally-hosted image whose file exists. *)
Definition servible (w : World) (img : Imagen) : Prop :=
  (esSupabase img = true /\ filename img = url img)
  \/ esLocal img = false
  \/ existsSync (rutaLocal img) w = true.

(** The properties of an image that the reconciliation leaves alone. *)
Definition identidad (img : Imagen)
  : option string * option string * option N * option string * option string :=
  (title img, filename img, size img, fecha_subida img, base64 img).

(** Two rows that differ in the url, [url_anterior] and [corregida_el]
    of their images at most. *)
Definition mismaFila (c c' : Computador) : Prop :=
  conImagenes None c' = conImagenes None c
  /\ isSome (imagenes c') = isSome (imagenes c)
  /\ map identidad (imagenesDe c') = map identidad (imagenesDe c).

(** ** Properties *)

(** *** Strings *)

Lemma startsWith_app (p s : string) : JS.startsWith (p ++ s) p = true.
Proof.
  induction p as [|a p IH]; simpl.
  - destruct s; reflexivity.
  - now rewrite Ascii.eqb_refl, IH.
Qed.

Lemma startsWith_split (s p : string) :
  JS.startsWith s p = true -> exists r, s = p ++ r.
Proof.
  revert s; induction p as [|a p IH]; intros s H.
  - exists s; reflexivity.
  - destruct s as [|b s]; simpl in H; [discriminate|].
    apply andb_true_iff in H as [Hab Hs].
    apply Ascii.eqb_eq in Hab; subst b.
    destruct (IH _ Hs) as [r ->]. now exists r.
Qed.

Lemma includes_here (s p : string) :
  JS.startsWith s p = true -> JS.includes s p = true.
Proof. intros H; destruct s; simpl in *; rewrite H; reflexivity. Qed.

Lemma includes_app (a s p : string) :
  JS.includes s p = true -> JS.includes (a ++ s) p = true.
Proof.
  intros H; induction a as [|c a IH]; simpl; [exact H|].
  rewrite IH. apply orb_true_r.
Qed.

Lemma includes_split (s p : string) :
  JS.includes s p = true <-> exists a r, s = a ++ p ++ r.
Proof.
  split.
  - induction s as [|c s IH]; cbn [JS.includes]; intros H.
    + rewrite orb_false_r in H. destruct p; [|discriminate].
      exists EmptyString, EmptyString; reflexivity.
    + apply orb_true_iff in H as [H|H].
      * destruct (startsWith_split _ _ H) as [r Hr].
        exists EmptyString, r; exact Hr.
      * destruct (IH H) as (a & r & ->). now exists (String c a), r.
  - intros (a & r & ->). apply includes_app, includes_here, startsWith_app.
Qed.

Lemma stripPrefix_app (p s : string) : JS.stripPrefix p (p ++ s) = Some s.
Proof.
  induction p as [|a p IH]; simpl.
  - destruct s; reflexivity.
  - now rewrite Ascii.eqb_refl.
Qed.

Lemma stripPrefix_Some (p s r : string) :
  JS.stripPrefix p s = Some r -> s = p ++ r.
Proof.
  revert s; induction p as [|a p IH]; intros s H.
  - destruct s; simpl in H; now inversion H.
  - destruct s as [|b s]; simpl in H; [discriminate|].
    destruct (Ascii.eqb a b) eqn:E; [|discriminate].
    apply Ascii.eqb_eq in E; subst b. simpl. f_equal. now apply IH.
Qed.

Lemma append_assoc (a b c : string) : (a ++ b) ++ c = a ++ (b ++ c).
Proof. induction a as [|x a IH]; simpl; [reflexivity|now rewrite IH]. Qed.

Lemma decimal_allDigits (n : N) : JS.allDigits (JS.decimal n) = true.
Proof.
  unfold JS.decimal. generalize (N.to_uint n) as d.
  induction d; simpl; auto.
Qed.

(** *** The data-URI pattern *)

Lemma spanLetters_split (s : string) :
  s = fst (DataUri.spanLetters s) ++ snd (DataUri.spanLetters s)
  /\ DataUri.allLetters (fst (DataUri.spanLetters s)) = true.
Proof.
  induction s as [|c s [IH1 IH2]]; simpl; [now split|].
  destruct (DataUri.isLetter c) eqn:E; [|now split].
  destruct (DataUri.spanLetters s) as [l r]; simpl in *.
  rewrite E, IH2. split; [now f_equal | reflexivity].
Qed.

Lemma spanLetters_app (t r : string) :
  DataUri.allLetters t = true ->
  DataUri.spanLetters (t ++ String ";" r) = (t, String ";" r).
Proof.
  induction t as [|c t IH]; simpl; intros H; [reflexivity|].
  apply andb_true_iff in H as [Hc Ht].
  now rewrite Hc, (IH Ht).
Qed.

Lemma matchPattern_complete (imageType imageData : string) :
  DataUri.allLetters imageType = true ->
  DataUri.noLineTerminator imageData = true ->
  DataUri.matchPattern ("data:image/" ++ imageType ++ ";base64," ++ imageData)
  = Some (imageType, imageData).
Proof.
  intros Ht Hd. unfold DataUri.matchPattern.
  rewrite stripPrefix_app.
  change (";base64," ++ imageData) with (String ";" ("base64," ++ imageData)).
  rewrite (spanLetters_app _ _ Ht).
  change (String ";" ("base64," ++ imageData)) with (";base64," ++ imageData).
  now rewrite stripPrefix_app, Hd.
Qed.

Lemma matchPattern_sound (s imageType imageData : string) :
  DataUri.matchPattern s = Some (imageType, imageData) ->
  s = "data:image/" ++ imageType ++ ";base64," ++ imageData
  /\ DataUri.allLetters imageType = true
  /\ DataUri.noLineTerminator imageData = true.
Proof.
  unfold DataUri.matchPattern. intros H.
  destruct (JS.stripPrefix "data:image/" s) as [r|] eqn:E1; [|discriminate].
  apply stripPrefix_Some in E1.
  destruct (spanLetters_split r) as [Hr Hl].
  destruct (DataUri.spanLetters r) as [l r']; simpl in Hr, Hl.
  destruct (JS.stripPrefix ";base64," r') as [d|] eqn:E2; [|discriminate].
  apply stripPrefix_Some in E2.
  destruct (DataUri.noLineTerminator d) eqn:E3; [|discriminate].
  inversion H; subst. auto.
Qed.

Lemma decodeImage_complete (imageType imageData : string) :
  DataUri.allLetters imageType = true ->
  DataUri.noLineTerminator imageData = true ->
  decodeImage
    (Some ("data:image/" ++ imageType ++ ";base64," ++ imageData))
  = Some (imageType, Buffer_from imageData).
Proof.
  intros Ht Hd. unfold decodeImage.
  assert (Hc : JS.includes
                 ("data:image/" ++ imageType ++ ";base64," ++ imageData) ","
               = true).
  { apply includes_split.
    exists ("data:image/" ++ imageType ++ ";base64"), imageData.
    rewrite !append_assoc. reflexivity. }
  rewrite Hc, (matchPattern_complete _ _ Ht Hd). reflexivity.
Qed.

Lemma decodeImage_sound (v : option string) (imageType : string)
  (buffer : list Byte.byte) :
  decodeImage v = Some (imageType, buffer) ->
  exists imageData,
    v = Some ("data:image/" ++ imageType ++ ";base64," ++ imageData)
    /\ DataUri.allLetters imageType = true
    /\ DataUri.noLineTerminator imageData = true
    /\ buffer = Buffer_from imageData.
Proof.
  unfold decodeImage. destruct v as [d|]; [|discriminate].
  destruct ((d =? EmptyString) || negb (JS.includes d ",")); [discriminate|].
  destruct (DataUri.matchPattern d) as [[t x]|] eqn:E; [|discriminate].
  intros H; inversion H; subst.
  apply matchPattern_sound in E as (-> & Ht & Hx).
  exists x; auto.
Qed.

(** *** The image codec *)

(** C5 (amended).  The codec accepts exactly the strings
    [data:image/<subtype>;base64,<payload>] whose subtype is a run of
    ASCII letters (possibly empty) and whose payload holds no line
    terminator.  For those it returns the declared subtype and the bytes
    decoded from the payload; for every other input it yields nothing,
    and [saveImageToSupabase] then returns [null] without touching the
    clock, the bucket or the table, so the image is dropped and the
    request goes on. *)
Theorem decodeImage_accepts_exactly :
  (forall subtype payload,
      DataUri.allLetters subtype = true ->
      DataUri.noLineTerminator payload = true ->
      decodeImage (Some (dataUri subtype payload))
      = Some (subtype, Buffer_from payload))
  /\
  (forall v,
      (forall subtype payload,
          DataUri.allLetters subtype = true ->
          DataUri.noLineTerminator payload = true ->
          v <> Some (dataUri subtype payload)) ->
      decodeImage v = None
      /\ forall equipoId imageIndex w,
           saveImageToSupabase v equipoId imageIndex w = (None, w)).
Proof.
  split.
  - intros t d Ht Hd. now apply decodeImage_complete.
  - intros v H.
    assert (E : decodeImage v = None).
    { destruct (decodeImage v) as [[t b]|] eqn:E; [|reflexivity].
      apply decodeImage_sound in E as (d & -> & Ht & Hd & _).
      exfalso. now apply (H t d). }
    split; [exact E|].
    intros e i w. unfold saveImageToSupabase. now rewrite E.
Qed.

(** *** Error responses *)

Lemma handleSupabaseError_status (e : PgError) :
  status (handleSupabaseError e) = 400 \/ status (handleSupabaseError e) = 500.
Proof.
  unfold handleSupabaseError.
  destruct (code e =? "23505"); [now left|].
  destruct (code e =? "23514"); [now left|].
  destruct (code e =? "23502"); [now left | now right].
Qed.

Lemma truthy_None_false (v : option string) :
  v = None -> JS.truthy v = false.
Proof. now intros ->. Qed.

Lemma faltantes_falsy (b : Body.t) :
  faltantes b <> [] ->
  negb (JS.truthy (Body.equipo_id b))
  || negb (JS.truthy (Body.serial_number b))
  || negb (JS.truthy (Body.responsable b))
  || negb (JS.truthy (Body.cargo b))
  || negb (JS.truthy (Body.estado b))
  || negb (JS.truthy (Body.windows_update b)) = true.
Proof.
  unfold faltantes. intros H.
  destruct (Body.equipo_id b); [|reflexivity].
  destruct (Body.serial_number b); [|simpl; now rewrite orb_true_r].
  destruct (Body.responsable b); [|simpl; now rewrite !orb_true_r].
  destruct (Body.cargo b); [|simpl; now rewrite !orb_true_r].
  destruct (Body.estado b); [|simpl; now rewrite !orb_true_r].
  destruct (Body.windows_update b); [|simpl; now rewrite !orb_true_r].
  now contradiction H.
Qed.

(** C6 (amended).  When a required field is absent, create answers 400
    with the fixed list of the six required field names, and the world
    is left as it was: nothing is uploaded and no row is inserted. *)
Theorem create_missing_field_rejected (b : Body.t) (w : World) :
  dbInitialized w = true ->
  faltantes b <> [] ->
  post_computadores b w = (mkRespuesta 400 (CamposFaltantes required), w).
Proof.
  intros Hdb H. unfold post_computadores, checkDatabase.
  now rewrite Hdb, (faltantes_falsy b H).
Qed.

(** *** The full-row update of the table *)

Lemma modificar_rows (b : Body.t) (imgs : list Imagen) (t : N) (i : Z)
  (w w' : World) (c : Computador) (l : list Computador) :
  modificar b imgs t i w = (inr (c :: l), w') ->
  (exists c0, In c0 (tabla w) /\ id c0 = i)
  /\ tabla w' =
     map (fun x => if hasId i x then actualizar b imgs t x else x) (tabla w).
Proof.
  unfold modificar.
  destruct (find (hasId i) (tabla w)) as [c0|] eqn:F; [|discriminate].
  cbv zeta. destruct (negb _); [discriminate|].
  destruct (existsb _ _); [discriminate|].
  intros H; inversion H; subst; simpl. split; [|reflexivity].
  apply find_some in F as [Hin Hid]. exists c0. split; [exact Hin|].
  now apply Z.eqb_eq.
Qed.

Lemma db_update_rows (b : Body.t) (imgs : list Imagen) (t : N) (i : Z)
  (w w' : World) (c : Computador) (l : list Computador) :
  db_update pg_numeric b imgs t i w = (inr (c :: l), w') ->
  exists fila,
    columnas pg_numeric b = inr fila
    /\ int4 i = true
    /\ (exists c0, In c0 (tabla w) /\ id c0 = i)
    /\ tabla w' =
       map (fun x => if hasId i x then actualizar fila imgs t x else x)
           (tabla w).
Proof.
  unfold db_update, remote, bind, remoteCall, ret.
  destruct (hd None (fallos w)) as [e|]; [discriminate|].
  destruct (int4 i); [|discriminate]. cbn [negb].
  destruct (columnas pg_numeric b) as [e|fila]; [discriminate|].
  intros H. apply modificar_rows in H. exists fila. simpl in H.
  destruct H as [H1 H2]. auto.
Qed.

Lemma actualizar_stored (b : Body.t) (imgs : list Imagen) (t : N) (i : Z)
  (T : list Computador) :
  (exists c0, In c0 T /\ id c0 = i) ->
  let T' := map (fun x => if hasId i x then actualizar b imgs t x else x) T in
  (exists c, In c T' /\ id c = i)
  /\ forall c, In c T' -> id c = i -> imagenes c = Some imgs.
Proof.
  intros (c0 & Hin & Hid) T'. split.
  - exists (actualizar b imgs t c0). split; [|exact Hid].
    apply in_map_iff. exists c0. split; [|exact Hin].
    unfold hasId. now rewrite Hid, Z.eqb_refl.
  - intros c Hc Hi. apply in_map_iff in Hc as (x & Hx & _).
    unfold hasId in Hx. destruct (id x =? i)%Z eqn:E.
    + now subst c.
    + subst c. apply Z.eqb_neq in E. contradiction.
Qed.

(** What a 200 answer of the update route entails. *)
Lemma put_200 (i : Z) (b : Body.t) (w : World) :
  status (fst (put_computadores i b w)) = 200 ->
  exists imagenesFinales w1,
    match Body.asArray (Body.imagenes b) with
    | Some imgs => updateLoop (Body.equipo_id b) 0 imgs [] w
    | None => ([], w)
    end = (imagenesFinales, w1)
    /\ (exists c, In c (tabla (snd (put_computadores i b w))) /\ id c = i)
    /\ (forall c, In c (tabla (snd (put_computadores i b w))) ->
                  id c = i -> imagenes c = Some imagenesFinales)
    /\ cuerpo (fst (put_computadores i b w))
       = RegistroActualizado (length imagenesFinales).
Proof.
  remember (put_computadores i b w) as R eqn:HR.
  unfold put_computadores, checkDatabase in HR.
  destruct (dbInitialized w); [|subst R; discriminate].
  unfold bind in HR.
  assert (E : (match Body.asArray (Body.imagenes b) with
               | Some imgs => updateLoop (Body.equipo_id b) 0 imgs []
               | None => ret []
               end) w
              = match Body.asArray (Body.imagenes b) with
                | Some imgs => updateLoop (Body.equipo_id b) 0 imgs [] w
                | None => ([], w)
                end).
  { destruct (Body.asArray (Body.imagenes b)); reflexivity. }
  rewrite E in HR; clear E.
  destruct (match Body.asArray (Body.imagenes b) with
            | Some imgs => updateLoop (Body.equipo_id b) 0 imgs [] w
            | None => ([], w)
            end) as [finales w1].
  unfold Date_now in HR.
  destruct (db_update pg_numeric b finales (ahora w1) i _) as [[e|[|c l]] w2] eqn:U;
    subst R; simpl; intros H.
  - destruct (handleSupabaseError_status e) as [S|S]; rewrite S in H;
      discriminate.
  - discriminate.
  - exists finales, w1. split; [reflexivity|].
    apply db_update_rows in U as (fila & _ & _ & Hex & Ht). rewrite Ht.
    destruct (actualizar_stored fila finales (ahora w1) i _ Hex) as [H1 H2].
    repeat split; auto.
Qed.

(** C10.  An update whose body carries no image array ([imagenes]
    omitted, or not an array) and that is answered 200 leaves the record
    with the empty image sequence: whatever was stored before is gone. *)
Theorem update_without_images_clears (i : Z) (b : Body.t) (w : World) :
  Body.asArray (Body.imagenes b) = None ->
  status (fst (put_computadores i b w)) = 200 ->
  (exists c, In c (tabla (snd (put_computadores i b w))) /\ id c = i)
  /\ (forall c, In c (tabla (snd (put_computadores i b w))) ->
                id c = i -> imagenes c = Some [])
  /\ cuerpo (fst (put_computadores i b w)) = RegistroActualizado 0.
Proof.
  intros Ha H200.
  destruct (put_200 i b w H200) as (finales & w1 & E & Hex & Hall & Hc).
  rewrite Ha in E. inversion E; subst finales w1. auto.
Qed.

(** *** Uploads *)

Lemma mismoAlmacen_refl (w : World) : mismoAlmacen w w.
Proof. repeat split. Qed.

Lemma mismoAlmacen_trans (w1 w2 w3 : World) :
  mismoAlmacen w1 w2 -> mismoAlmacen w2 w3 -> mismoAlmacen w1 w3.
Proof.
  unfold mismoAlmacen. intros (A & B & C & D) (A' & B' & C' & D').
  repeat split; congruence.
Qed.

Lemma decode_truthy (v : option string) (x : string * list Byte.byte) :
  decodeImage v = Some x -> JS.truthy v = true.
Proof.
  unfold decodeImage, JS.truthy. destruct v as [d|]; [|discriminate].
  destruct (d =? EmptyString); [discriminate | reflexivity].
Qed.

(** One call of [saveImageToSupabase]: nothing happens when the codec
    refuses the data; otherwise the clock is read, one answer of the
    remote side is used up, and either the object is added under the
    cleaned key, which was free, or the bucket is as before. *)
Lemma saveImageToSupabase_spec (v : option string) (e : string) (idx : N)
  (w : World) :
  let r := saveImageToSupabase v e idx w in
  match decodeImage v with
  | None => r = (None, w)
  | Some (sub, bytes) =>
      let path := clave e (ahora w) idx sub in
      mismoAlmacen w (snd r)
      /\ fallos (snd r) = tl (fallos w)
      /\ ((fst r = None /\ bucket (snd r) = bucket w)
          \/ (fst r = Some (mkResultado path (getPublicUrl path)
                                        (N.of_nat (length bytes)))
              /\ hasKey (removeEmptyFolders path) (bucket w) = false
              /\ bucket (snd r)
                 = (bucket w ++ [(removeEmptyFolders path, bytes)])%list))
  end.
Proof.
  unfold saveImageToSupabase.
  destruct (decodeImage v) as [[sub bytes]|]; [|reflexivity].
  unfold bind, Date_now, storage_upload, remote, bind, remoteCall, ret, clave.
  simpl.
  destruct (hd None (fallos w)) as [err|]; simpl.
  - (split; [repeat split|]); (split; [reflexivity|]).
    left. split; reflexivity.
  - destruct (hasKey _ (bucket w)) eqn:K; simpl;
      (split; [repeat split|]); (split; [reflexivity|]).
    + left. split; reflexivity.
    + right. repeat split; reflexivity.
Qed.

Lemma hasKey_app (k : string) (b1 b2 : list (string * list Byte.byte)) :
  hasKey k (b1 ++ b2) = hasKey k b1 || hasKey k b2.
Proof. unfold hasKey. apply existsb_app. Qed.

Lemma skipn_S_tl {A} (n : nat) (l : list A) :
  skipn (S n) l = skipn n (tl l).
Proof. destruct l; simpl; [now rewrite skipn_nil | reflexivity]. Qed.

Lemma hd_skipn_nth {A} (n : nat) (l : list A) (d : A) :
  hd d (skipn n l) = nth n l d.
Proof.
  revert l; induction n as [|n IH]; intros [|x l]; simpl; auto.
Qed.

(** *** The create loop *)

Lemma createLoop_acc (e : string) (imgs : list Imagen) :
  forall i acc w,
    createLoop e i imgs acc w
    = ((acc ++ fst (createLoop e i imgs [] w))%list,
       snd (createLoop e i imgs [] w)).
Proof.
  induction imgs as [|img rest IH]; intros i acc w; simpl.
  - now rewrite app_nil_r.
  - destruct (JS.truthy (base64 img)); [|apply IH].
    unfold bind.
    destruct (saveImageToSupabase (base64 img) e (i + 1) w) as [[r|] w1];
      [|apply IH].
    simpl.
    match goal with
    | |- context [createLoop _ _ _ [?x] _] =>
        rewrite (IH (i + 1)%N (acc ++ [x])%list), (IH (i + 1)%N [x])
    end.
    simpl. now rewrite <- app_assoc.
Qed.

Lemma createLoop_cons (e : string) (i : N) (img : Imagen)
  (rest : list Imagen) (w : World) :
  createLoop e i (img :: rest) [] w =
  match decodeImage (base64 img) with
  | None => createLoop e (i + 1) rest [] w
  | Some (sub, bytes) =>
      let r := saveImageToSupabase (base64 img) e (i + 1) w in
      match fst r with
      | None => createLoop e (i + 1) rest [] (snd r)
      | Some res =>
          let w2 := snd (Date_now (snd r)) in
          let x :=
            mkImagen
              (Some (JS.orElse (title img) ("Imagen " ++ JS.decimal (i + 1))))
              (Some (r_filename res)) (Some (r_url res)) (Some (r_size res))
              (Some (toISOString (ahora (snd r)))) None None None in
          (x :: fst (createLoop e (i + 1) rest [] w2),
           snd (createLoop e (i + 1) rest [] w2))
      end
  end.
Proof.
  simpl. destruct (decodeImage (base64 img)) as [[sub bytes]|] eqn:D.
  - rewrite (decode_truthy _ _ D). unfold bind.
    destruct (saveImageToSupabase (base64 img) e (i + 1) w) as [[r|] w1];
      simpl; [|reflexivity].
    now rewrite createLoop_acc.
  - destruct (JS.truthy (base64 img)); [|reflexivity].
    unfold bind, saveImageToSupabase. now rewrite D.
Qed.

Lemma decodificables_cons (img : Imagen) (rest : list Imagen) :
  decodificables (img :: rest)
  = (if isSome (decodeImage (base64 img)) then 1 else 0)
    + decodificables rest.
Proof.
  unfold decodificables. simpl.
  destruct (isSome (decodeImage (base64 img))); reflexivity.
Qed.

(** The effect of the loop: table, key sequence and local files are not
    touched; one remote answer is used per decodable image; the bucket
    only grows, by objects stored under keys that were free; and every
    descriptor kept comes from a decodable image and carries the key
    built from the namespace, an instant, its 1-based position and its
    declared subtype. *)
Lemma createLoop_spec (e : string) (imgs : list Imagen) :
  forall i w,
    let R := createLoop e i imgs [] w in
    mismoAlmacen w (snd R)
    /\ fallos (snd R) = skipn (decodificables imgs) (fallos w)
    /\ (exists objs,
           bucket (snd R) = (bucket w ++ objs)%list
           /\ map fst objs
              = map (fun x => removeEmptyFolders (template (filename x)))
                  (fst R)
           /\ Forall (fun o => hasKey (fst o) (bucket w) = false) objs)
    /\ length (fst R) <= decodificables imgs
    /\ Forall
         (fun x =>
            exists k img sub bytes t t',
              nth_error imgs k = Some img
              /\ decodeImage (base64 img) = Some (sub, bytes)
              /\ x = guardada e (i + N.of_nat k + 1) img sub bytes t t')
         (fst R).
Proof.
  induction imgs as [|img rest IH]; intros i w R.
  - subst R; simpl. split; [apply mismoAlmacen_refl|].
    split; [reflexivity|]. split.
    + exists []. now rewrite app_nil_r.
    + split; [unfold decodificables; simpl; lia | constructor].
  - assert (Shift :
      forall l : list Imagen,
        Forall
          (fun x =>
             exists k img0 sub bytes t t',
               nth_error rest k = Some img0
               /\ decodeImage (base64 img0) = Some (sub, bytes)
               /\ x = guardada e (i + 1 + N.of_nat k + 1) img0 sub bytes t t')
          l ->
        Forall
          (fun x =>
             exists k img0 sub bytes t t',
               nth_error (img :: rest) k = Some img0
               /\ decodeImage (base64 img0) = Some (sub, bytes)
               /\ x = guardada e (i + N.of_nat k + 1) img0 sub bytes t t')
          l).
    { intros l. apply Forall_impl.
      intros x (k & img0 & sub & bytes & t & t' & Hk & Hd & ->).
      exists (S k), img0, sub, bytes, t, t'. repeat split; auto.
      f_equal. lia. }
    subst R. rewrite createLoop_cons, decodificables_cons.
    pose proof (saveImageToSupabase_spec (base64 img) e (i + 1) w) as S.
    destruct (decodeImage (base64 img)) as [[sub bytes]|] eqn:D; simpl isSome.
    + simpl in S. destruct S as (Fr & Ff & S). cbv zeta.
      set (r := saveImageToSupabase (base64 img) e (i + 1) w) in *.
      destruct S as [[Hn Hb] | (Hs & Hk & Hb)].
      * rewrite Hn; simpl.
        destruct (IH (i + 1)%N (snd r)) as (F1 & F2 & (objs & B1 & B2 & B3) & L & Sh).
        split; [eapply mismoAlmacen_trans; eassumption|].
        split; [rewrite F2, Ff; symmetry;
                apply (skipn_S_tl (decodificables rest))|].
        split.
        { exists objs. rewrite B1, Hb. repeat split; auto.
          now rewrite Hb in B3. }
        split; [lia | now apply Shift].
      * rewrite Hs; simpl.
        set (w2 := setReloj _ _ (snd r)).
        destruct (IH (i + 1)%N w2) as (F1 & F2 & (objs & B1 & B2 & B3) & L & Sh).
        split.
        { eapply mismoAlmacen_trans; [exact Fr|].
          eapply mismoAlmacen_trans; [|exact F1]. repeat split. }
        split.
        { rewrite F2. unfold w2; simpl. rewrite Ff. symmetry.
          apply (skipn_S_tl (decodificables rest)). }
        split.
        { exists ((removeEmptyFolders (clave e (ahora w) (i + 1) sub), bytes)
                  :: objs).
          rewrite B1. unfold w2 in B3 |- *; simpl in B3 |- *.
          rewrite Hb, <- app_assoc.
          split; [reflexivity|]. split; [now rewrite B2|].
          constructor; [exact Hk|].
          rewrite Hb in B3.
          revert B3. apply Forall_impl.
          intros o Ho. rewrite hasKey_app in Ho.
          now apply orb_false_iff in Ho. }
        split; [simpl; lia|].
        constructor; [|now apply Shift].
        exists 0, img, sub, bytes, (ahora w), (ahora (snd r)).
        repeat split; auto.
        unfold guardada. now replace (i + N.of_nat 0 + 1)%N with (i + 1)%N by lia.
    + simpl in S.
      destruct (IH (i + 1)%N w) as (F1 & F2 & B & L & Sh).
      split; [exact F1|]. split; [exact F2|]. split; [exact B|].
      split; [simpl; lia | now apply Shift].
Qed.

(** One call whose data the codec accepts, whose upload is answered and
    whose cleaned key is free: the result is there. *)
Lemma saveImageToSupabase_ok (v : option string) (e : string) (idx : N)
  (w : World) (sub : string) (bytes : list Byte.byte) :
  decodeImage v = Some (sub, bytes) ->
  hd None (fallos w) = None ->
  hasKey (removeEmptyFolders (clave e (ahora w) idx sub)) (bucket w) = false ->
  fst (saveImageToSupabase v e idx w)
  = Some (mkResultado (clave e (ahora w) idx sub)
            (getPublicUrl (clave e (ahora w) idx sub))
            (N.of_nat (length bytes))).
Proof.
  intros D F K. unfold saveImageToSupabase. rewrite D.
  unfold bind, Date_now, storage_upload, remote, bind, remoteCall, ret.
  unfold clave in *. simpl in K |- *. rewrite F. simpl. rewrite K.
  reflexivity.
Qed.

(** The image at position [k], reached in the world the loop has made of
    the images before it: when the codec accepts its data, the upload is
    answered and the cleaned key is free, its descriptor is kept and its
    object is in the bucket at the end. *)
Lemma createLoop_at (e : string) (imgs : list Imagen) :
  forall i w k img sub bytes,
    nth_error imgs k = Some img ->
    decodeImage (base64 img) = Some (sub, bytes) ->
    let wk := snd (createLoop e i (firstn k imgs) [] w) in
    let key := clave e (ahora wk) (i + N.of_nat k + 1) sub in
    hd None (fallos wk) = None ->
    hasKey (removeEmptyFolders key) (bucket wk) = false ->
    (exists t',
        In (guardada e (i + N.of_nat k + 1) img sub bytes (ahora wk) t')
           (fst (createLoop e i imgs [] w)))
    /\ In (removeEmptyFolders key, bytes)
          (bucket (snd (createLoop e i imgs [] w))).
Proof.
  induction imgs as [|x rest IH]; intros i w k img sub bytes Hk D;
    [destruct k; discriminate|].
  destruct k as [|k]; simpl in Hk.
  - inversion Hk; subst x; clear Hk. cbv zeta. simpl firstn.
    change (snd (createLoop e i [] [] w)) with w.
    replace (i + N.of_nat 0 + 1)%N with (i + 1)%N by lia.
    intros F K. rewrite createLoop_cons, D. cbv zeta.
    rewrite (saveImageToSupabase_ok _ e (i + 1) w sub bytes D F K).
    pose proof (saveImageToSupabase_spec (base64 img) e (i + 1) w) as S.
    rewrite D in S. cbv zeta in S. destruct S as (_ & _ & S).
    rewrite (saveImageToSupabase_ok _ e (i + 1) w sub bytes D F K) in S.
    destruct S as [[Hn _] | (_ & _ & Hb)]; [discriminate|].
    set (r := saveImageToSupabase (base64 img) e (i + 1) w) in *.
    split.
    + exists (ahora (snd r)). left. reflexivity.
    + destruct (createLoop_spec e rest (i + 1)%N (snd (Date_now (snd r))))
        as (_ & _ & (objs & B1 & _) & _).
      cbn [snd]. rewrite B1. apply in_or_app; left.
      unfold Date_now; simpl. rewrite Hb. apply in_or_app; right. now left.
  - cbv zeta. simpl firstn. rewrite !createLoop_cons.
    replace (i + N.of_nat (S k) + 1)%N with (i + 1 + N.of_nat k + 1)%N
      by lia.
    destruct (decodeImage (base64 x)) as [[sub0 bytes0]|].
    + cbv zeta. destruct (fst (saveImageToSupabase (base64 x) e (i + 1) w)).
      * cbn [fst snd]. intros F K.
        destruct (IH (i + 1)%N _ k img sub bytes Hk D F K) as [[t' H] B].
        split; [exists t'; now right | exact B].
      * intros F K. exact (IH (i + 1)%N _ k img sub bytes Hk D F K).
    + intros F K. exact (IH (i + 1)%N _ k img sub bytes Hk D F K).
Qed.

(** *** POST /api/computadores *)

Lemma truthy_Some (v : option string) :
  JS.truthy v = true -> exists s, v = Some s.
Proof. destruct v as [s|]; [now exists s | discriminate]. Qed.

(** A text within the length of its column is taken as it is. *)
Lemma cortar_cabe (s : string) :
  forall n, caracteres s <= n -> cortar n s = (s, EmptyString).
Proof.
  induction s as [|c s IH]; intros n H; [reflexivity|].
  simpl in *. destruct (continua c).
  - now rewrite (IH n H).
  - destruct n as [|n]; [lia|]. now rewrite (IH n) by lia.
Qed.

Lemma opcional_varchar (n : nat) (v : option string) :
  cabe n v = true -> opcional (varchar n) v = inr v.
Proof.
  destruct v as [s|]; [|reflexivity]. simpl. intros H.
  apply Nat.leb_le in H. unfold varchar. now rewrite (cortar_cabe s n H).
Qed.

Lemma opcional_numeric (p s : nat) (v : option string) :
  numerico p s v = true -> exists x, opcional (pg_numeric p s) v = inr x.
Proof.
  destruct v as [t|]; [|now exists None]. simpl.
  destruct (pg_numeric p s t) as [e|x]; [discriminate|]. now exists (Some x).
Qed.

(** Values that fit are converted to themselves, up to the form of the
    two numbers. *)
Lemma columnas_ok (b : Body.t) :
  tiposValidos b = true ->
  exists la lo,
    columnas pg_numeric b
    = inr (Body.mk (Body.equipo_id b) (Body.serial_number b)
             (Body.placa_ml b) la lo (Body.direccion_automatica b)
             (Body.ubicacion_manual b) (Body.responsable b) (Body.cargo b)
             (Body.estado b) (Body.windows_update b)
             (Body.observaciones b) (Body.problemas_detectados b)
             (Body.revisor b) (Body.imagenes b)).
Proof.
  unfold tiposValidos. intros H.
  repeat (apply andb_true_iff in H as [H ?]).
  destruct (opcional_numeric 10 8 (Body.latitud b)) as [la Hla]; [assumption|].
  destruct (opcional_numeric 11 8 (Body.longitud b)) as [lo Hlo];
    [assumption|].
  exists la, lo. unfold columnas.
  rewrite !opcional_varchar, Hla, Hlo by assumption. reflexivity.
Qed.

Lemma insertar_inr (b : Body.t) (imgs : list Imagen) (w : World)
  (fila : Computador) :
  fst (insertar b imgs w) = inr fila ->
  tabla (snd (insertar b imgs w)) = (tabla w ++ [fila])%list
  /\ imagenes fila = Some imgs
  /\ id fila = serial w.
Proof.
  unfold insertar.
  destruct (Body.equipo_id b), (Body.serial_number b),
    (Body.responsable b), (Body.cargo b), (Body.estado b),
    (Body.windows_update b); simpl; try discriminate;
    destruct (negb _); try discriminate;
    destruct (existsb _ _); try discriminate;
    simpl; intros H; inversion H; subst; simpl; auto.
Qed.

Lemma insertar_frame (b : Body.t) (imgs : list Imagen) (w : World) :
  let w' := snd (insertar b imgs w) in
  dbInitialized w' = dbInitialized w
  /\ bucket w' = bucket w
  /\ disco w' = disco w
  /\ fallos w' = fallos w.
Proof.
  unfold insertar.
  destruct (Body.equipo_id b), (Body.serial_number b),
    (Body.responsable b), (Body.cargo b), (Body.estado b),
    (Body.windows_update b); simpl; auto;
    destruct (negb _); auto;
    destruct (existsb _ _); auto.
Qed.

Lemma db_insert_inr (b : Body.t) (imgs : list Imagen) (w : World)
  (fila : Computador) :
  fst (db_insert pg_numeric b imgs w) = inr fila ->
  tabla (snd (db_insert pg_numeric b imgs w)) = (tabla w ++ [fila])%list
  /\ imagenes fila = Some imgs.
Proof.
  unfold db_insert, remote, bind, remoteCall, ret.
  destruct (hd None (fallos w)) as [err|]; [discriminate|].
  destruct (columnas pg_numeric b) as [e|b']; [discriminate|].
  intros H. apply insertar_inr in H as (T & I & _). auto.
Qed.

Lemma db_insert_frame (b : Body.t) (imgs : list Imagen) (w : World) :
  let w' := snd (db_insert pg_numeric b imgs w) in
  dbInitialized w' = dbInitialized w
  /\ disco w' = disco w
  /\ fallos w' = tl (fallos w).
Proof.
  unfold db_insert, remote, bind, remoteCall, ret.
  destruct (hd None (fallos w)) as [err|]; [simpl; auto|].
  destruct (columnas pg_numeric b) as [e|b']; [simpl; auto|].
  destruct (insertar_frame b' imgs (setFallos (tl (fallos w)) w))
    as (D & _ & K & F).
  cbv zeta. rewrite D, K, F. auto.
Qed.

Lemma db_insert_bucket (b : Body.t) (imgs : list Imagen) (w : World) :
  bucket (snd (db_insert pg_numeric b imgs w)) = bucket w.
Proof.
  unfold db_insert, remote, bind, remoteCall, ret.
  destruct (hd None (fallos w)) as [err|]; [reflexivity|].
  destruct (columnas pg_numeric b) as [e|b']; [reflexivity|].
  destruct (insertar_frame b' imgs (setFallos (tl (fallos w)) w))
    as (_ & B & _).
  exact B.
Qed.

Lemma db_insert_id (b : Body.t) (imgs : list Imagen) (w : World)
  (fila : Computador) :
  fst (db_insert pg_numeric b imgs w) = inr fila -> id fila = serial w.
Proof.
  unfold db_insert, remote, bind, remoteCall, ret.
  destruct (hd None (fallos w)) as [err|]; [discriminate|].
  destruct (columnas pg_numeric b) as [e|b']; [discriminate|].
  intros H. apply insertar_inr in H as (_ & _ & I). exact I.
Qed.

Lemma db_insert_ok (b : Body.t) (imgs : list Imagen) (w : World) :
  hd None (fallos w) = None ->
  camposPresentes b = true ->
  tiposValidos b = true ->
  estadoValido (template (Body.estado b)) = true ->
  windowsValido (template (Body.windows_update b)) = true ->
  existsb (fun x => equipo_id x =? template (Body.equipo_id b)) (tabla w)
  = false ->
  exists fila,
    fst (db_insert pg_numeric b imgs w) = inr fila
    /\ equipo_id fila = template (Body.equipo_id b)
    /\ serial_number fila = template (Body.serial_number b).
Proof.
  unfold camposPresentes. intros Hf Hc Ht He Hw Hu.
  destruct (columnas_ok b Ht) as (la & lo & Hcol).
  repeat (apply andb_true_iff in Hc as [Hc ?]).
  repeat match goal with
         | H : JS.truthy _ = true |- _ =>
             apply truthy_Some in H; destruct H as [? H]
         end.
  unfold db_insert, remote, bind, remoteCall, ret.
  rewrite Hf, Hcol. unfold insertar. cbn [Body.equipo_id Body.serial_number
    Body.responsable Body.cargo Body.estado Body.windows_update].
  repeat match goal with H : _ = Some _ |- _ => rewrite H in * end.
  simpl in He, Hw, Hu. simpl. rewrite He, Hw, Hu. simpl. eauto.
Qed.

Lemma db_insert_refused (b : Body.t) (imgs : list Imagen) (w : World) :
  hd None (fallos w) = None ->
  camposPresentes b = true ->
  tiposValidos b = true ->
  let ok := estadoValido (template (Body.estado b))
            && windowsValido (template (Body.windows_update b)) in
  let dup := existsb (fun x => equipo_id x =? template (Body.equipo_id b))
               (tabla w) in
  (ok = false ->
   fst (db_insert pg_numeric b imgs w) = inl err23514
   /\ tabla (snd (db_insert pg_numeric b imgs w)) = tabla w)
  /\ (ok = true -> dup = true ->
      fst (db_insert pg_numeric b imgs w) = inl err23505
      /\ tabla (snd (db_insert pg_numeric b imgs w)) = tabla w).
Proof.
  unfold camposPresentes. intros Hf Hc Ht.
  destruct (columnas_ok b Ht) as (la & lo & Hcol).
  repeat (apply andb_true_iff in Hc as [Hc ?]).
  repeat match goal with
         | H : JS.truthy _ = true |- _ =>
             apply truthy_Some in H; destruct H as [? H]
         end.
  unfold db_insert, remote, bind, remoteCall, ret.
  rewrite Hf, Hcol. unfold insertar. cbn [Body.equipo_id Body.serial_number
    Body.responsable Body.cargo Body.estado Body.windows_update].
  repeat match goal with H : _ = Some _ |- _ => rewrite H in * end.
  simpl.
  destruct (estadoValido _ && windowsValido _); simpl.
  - split; [discriminate|]. intros _.
    destruct (existsb _ (tabla w)); simpl; [now split | discriminate].
  - split; [now split | discriminate].
Qed.

Lemma post_computadores_run (b : Body.t) (imgs : list Imagen) (w : World) :
  dbInitialized w = true ->
  camposPresentes b = true ->
  Body.imagenes b = Body.Array imgs ->
  let R := createLoop (template (Body.equipo_id b)) 0 imgs [] w in
  let I := db_insert pg_numeric b (fst R) (snd R) in
  post_computadores b w
  = (match fst I with
     | inl error => handleSupabaseError error
     | inr data =>
         mkRespuesta 201
           (RegistroCreado (id data) (equipo_id data) (serial_number data)
              (length (fst R)))
     end, snd I).
Proof.
  intros Hdb Hc Hi R I. unfold post_computadores, checkDatabase.
  rewrite Hdb, Hi.
  replace (negb (JS.truthy (Body.equipo_id b))
           || negb (JS.truthy (Body.serial_number b))
           || negb (JS.truthy (Body.responsable b))
           || negb (JS.truthy (Body.cargo b))
           || negb (JS.truthy (Body.estado b))
           || negb (JS.truthy (Body.windows_update b))) with false.
  - unfold bind. subst I R.
    change (Body.asArray (Body.Array imgs)) with (Some imgs).
    cbn beta iota.
    destruct (createLoop _ 0 imgs [] w) as [g w1]. simpl.
    destruct (db_insert pg_numeric b g w1) as [[err|data] w2]; reflexivity.
  - unfold camposPresentes in Hc.
    repeat (apply andb_true_iff in Hc as [Hc ?]).
    repeat match goal with
           | H : JS.truthy _ = true |- _ => rewrite H
           end.
    reflexivity.
Qed.

(** C4.  A create request whose required fields are present, and whose
    row the table accepts (its values fit the types of their columns
    and satisfy the constraints), is answered 201 whatever happens to
    its images.  The row is inserted with the descriptors that were kept;
    [imagenes_guardadas] is their number; each of them is an object of
    the bucket, and the bucket grew by exactly that many objects.  An
    image the codec refuses or whose upload fails is simply not among
    them, so there are at most as many as decodable images, and none
    when no image decodes. *)
Theorem create_tolerates_image_failures (b : Body.t) (imgs : list Imagen)
  (w : World) :
  dbInitialized w = true ->
  camposPresentes b = true ->
  Body.imagenes b = Body.Array imgs ->
  tiposValidos b = true ->
  estadoValido (template (Body.estado b)) = true ->
  windowsValido (template (Body.windows_update b)) = true ->
  existsb (fun x => equipo_id x =? template (Body.equipo_id b)) (tabla w)
  = false ->
  nth (decodificables imgs) (fallos w) None = None ->
  exists data guardadas,
    fst (post_computadores b w)
    = mkRespuesta 201
        (RegistroCreado (id data) (equipo_id data) (serial_number data)
           (length guardadas))
    /\ tabla (snd (post_computadores b w)) = (tabla w ++ [data])%list
    /\ imagenes data = Some guardadas
    /\ length guardadas <= decodificables imgs
    /\ (decodificables imgs = 0 -> guardadas = [])
    /\ length (bucket (snd (post_computadores b w)))
       = length (bucket w) + length guardadas
    /\ Forall (fun x => hasKey (removeEmptyFolders (template (filename x)))
                          (bucket (snd (post_computadores b w))) = true)
              guardadas.
Proof.
  intros Hdb Hc Hi Hty He Hw Hu Hf.
  rewrite (post_computadores_run b imgs w Hdb Hc Hi). cbv zeta.
  destruct (createLoop_spec (template (Body.equipo_id b)) imgs 0%N w)
    as ((_ & Ht & _ & _) & F & (objs & B1 & B2 & _) & L & _).
  set (R := createLoop (template (Body.equipo_id b)) 0 imgs [] w) in *.
  destruct (db_insert_ok b (fst R) (snd R)) as (data & Hd & _); auto.
  { now rewrite F, hd_skipn_nth. }
  { now rewrite Ht. }
  destruct (db_insert_inr b (fst R) (snd R) data Hd) as [T I].
  exists data, (fst R). simpl. rewrite Hd, T, Ht, db_insert_bucket, B1.
  repeat split; auto.
  - intros Z. destruct (fst R); [reflexivity | simpl in L; lia].
  - rewrite length_app. f_equal.
    now rewrite <- (length_map fst), B2, length_map.
  - apply Forall_forall. intros x Hx. rewrite hasKey_app.
    apply orb_true_iff; right. unfold hasKey. apply existsb_exists.
    assert (Hin : In (removeEmptyFolders (template (filename x)))
                    (map fst objs)).
    { rewrite B2.
      exact (in_map (fun y => removeEmptyFolders (template (filename y)))
               _ _ Hx). }
    apply in_map_iff in Hin as (o & Ho & Hoin).
    exists o. split; [exact Hoin | now apply String.eqb_eq].
Qed.

(** C8.  Every descriptor the create handler keeps belongs to one
    submitted image with data [data:image/<subtype>;base64,...], at
    0-based position [k] of the array, and its filename is
    [<equipo_id>/<timestamp>-<k+1>.<subtype>] with the timestamp in
    decimal digits.  Each of them was stored under a key the bucket did
    not hold: the objects that were there are all still there, the new
    ones are appended.  When the answer is 201 these descriptors are the
    image sequence of the inserted row.  And the descriptor is there
    whenever the upload can go through: for the image at position [k],
    reached in the world [wk] the loop has made of the images before it,
    if the codec accepts its data, the upload call is answered and the
    key is free, then a kept descriptor has the filename
    [<equipo_id>/<clock of wk>-<k+1>.<subtype>] and the public URL of
    it, and the decoded bytes are in the bucket. *)
Theorem create_filename_shape (b : Body.t) (imgs : list Imagen) (w : World) :
  dbInitialized w = true ->
  camposPresentes b = true ->
  Body.imagenes b = Body.Array imgs ->
  exists guardadas objs,
    bucket (snd (post_computadores b w)) = (bucket w ++ objs)%list
    /\ map fst objs
       = map (fun x => removeEmptyFolders (template (filename x))) guardadas
    /\ Forall (fun o => hasKey (fst o) (bucket w) = false) objs
    /\ Forall
         (fun x =>
            exists k img subtype payload t,
              nth_error imgs k = Some img
              /\ base64 img = Some (dataUri subtype payload)
              /\ filename x
                 = Some (template (Body.equipo_id b) ++ "/" ++ JS.decimal t
                         ++ "-" ++ JS.decimal (N.of_nat k + 1) ++ "."
                         ++ subtype)
              /\ JS.allDigits (JS.decimal t) = true)
         guardadas
    /\ (status (fst (post_computadores b w)) = 201 ->
        exists data,
          tabla (snd (post_computadores b w)) = (tabla w ++ [data])%list
          /\ imagenes data = Some guardadas)
    /\ (forall k img subtype bytes,
          nth_error imgs k = Some img ->
          decodeImage (base64 img) = Some (subtype, bytes) ->
          let wk := snd (createLoop (template (Body.equipo_id b)) 0
                           (firstn k imgs) [] w) in
          let key := template (Body.equipo_id b) ++ "/"
                     ++ JS.decimal (ahora wk) ++ "-"
                     ++ JS.decimal (N.of_nat k + 1) ++ "." ++ subtype in
          hd None (fallos wk) = None ->
          hasKey (removeEmptyFolders key) (bucket wk) = false ->
          (exists x, In x guardadas
                     /\ filename x = Some key
                     /\ url x = Some (getPublicUrl key))
          /\ In (removeEmptyFolders key, bytes)
                (bucket (snd (post_computadores b w)))).
Proof.
  intros Hdb Hc Hi.
  rewrite (post_computadores_run b imgs w Hdb Hc Hi). cbv zeta.
  destruct (createLoop_spec (template (Body.equipo_id b)) imgs 0%N w)
    as ((_ & Ht & _ & _) & _ & (objs & B1 & B2 & B3) & _ & Sh).
  pose proof (createLoop_at (template (Body.equipo_id b)) imgs 0%N w) as At.
  set (R := createLoop (template (Body.equipo_id b)) 0 imgs [] w) in *.
  exists (fst R), objs. cbn [fst snd]. rewrite db_insert_bucket.
  split; [exact B1|]. split; [exact B2|]. split; [exact B3|].
  split; [|split].
  - revert Sh. apply Forall_impl.
    intros x (k & img & sub & bytes & t & t' & Hk & Hd & ->).
    apply decodeImage_sound in Hd as (payload & Hb & _).
    exists k, img, sub, payload, t. repeat split; auto.
    apply decimal_allDigits.
  - destruct (fst (db_insert pg_numeric b (fst R) (snd R))) as [err|data] eqn:E.
    + intros H. destruct (handleSupabaseError_status err) as [S|S];
        rewrite S in H; discriminate.
    + intros _. exists data.
      destruct (db_insert_inr b (fst R) (snd R) data E) as [T I].
      now rewrite T, Ht.
  - intros k img sub bytes Hk D F K.
    destruct (At k img sub bytes Hk D F K) as [[t' H] B].
    split; [|exact B].
    eexists. split; [exact H | split; reflexivity].
Qed.

(** *** PUT /api/computadores/:id *)

Lemma fechaSubida_given (img : Imagen) (w : World) :
  JS.truthy (fecha_subida img) = true ->
  Some (fst (fechaSubida img w)) = fecha_subida img.
Proof.
  unfold fechaSubida. intros H. rewrite H.
  destruct (fecha_subida img); [reflexivity | discriminate].
Qed.

Lemma updateLoop_acc (e : option string) (imgs : list Imagen) (x : Imagen) :
  forall i acc w,
    In x acc -> In x (fst (updateLoop e i imgs acc w)).
Proof.
  induction imgs as [|img rest IH]; intros i acc w Hin; simpl; [exact Hin|].
  destruct (JS.truthy (base64 img) && _).
  - unfold bind.
    destruct (saveImageToSupabase _ _ _ w) as [[r|] w1]; [|now apply IH].
    simpl. apply IH, in_or_app. now left.
  - destruct (JS.truthy (filename img)); [|now apply IH].
    destruct (JS.startsWith _ "http").
    + unfold bind. destruct (fechaSubida img w) as [f w1].
      apply IH, in_or_app. now left.
    + destruct (existsSync _ w); [|now apply IH].
      unfold bind. destruct (fechaSubida img w) as [f w1].
      apply IH, in_or_app. now left.
Qed.

Lemma fechaSubida_now (img : Imagen) (w : World) :
  JS.truthy (fecha_subida img) = false ->
  fst (fechaSubida img w) = toISOString (ahora w).
Proof. unfold fechaSubida. now intros ->. Qed.

(** The world the loop leaves does not depend on what it started to
    collect. *)
Lemma updateLoop_snd (e : option string) (imgs : list Imagen) :
  forall i acc w,
    snd (updateLoop e i imgs acc w) = snd (updateLoop e i imgs [] w).
Proof.
  induction imgs as [|img rest IH]; intros i acc w; simpl; [reflexivity|].
  destruct (JS.truthy (base64 img) && _).
  - unfold bind.
    destruct (saveImageToSupabase _ _ _ w) as [[r|] w1]; simpl;
      (etransitivity; [apply IH | symmetry; apply IH]).
  - destruct (JS.truthy (filename img)); [|apply IH].
    destruct (JS.startsWith _ "http").
    + unfold bind. destruct (fechaSubida img w) as [f w1].
      etransitivity; [apply IH | symmetry; apply IH].
    + destruct (existsSync _ w); [|apply IH].
      unfold bind. destruct (fechaSubida img w) as [f w1].
      etransitivity; [apply IH | symmetry; apply IH].
Qed.

(** What the loop keeps for a remote-hosted entry without new data;
    the entry at position [k] is reached in the world the loop has made
    of the entries before it. *)
Lemma updateLoop_http (e : option string) (imgs : list Imagen) :
  forall i acc w k img,
    nth_error imgs k = Some img ->
    JS.truthy (base64 img) = false ->
    JS.truthy (filename img) = true ->
    JS.startsWith (template (filename img)) "http" = true ->
    exists f,
      In (mkImagen
            (Some (JS.orElse (title img)
                     ("Imagen " ++ JS.decimal (i + N.of_nat k + 1))))
            (filename img) (filename img) (Some (JS.orZero (size img)))
            (Some f) None None None)
         (fst (updateLoop e i imgs acc w))
      /\ (JS.truthy (fecha_subida img) = true -> Some f = fecha_subida img)
      /\ (JS.truthy (fecha_subida img) = false ->
          f = toISOString
                (ahora (snd (updateLoop e i (firstn k imgs) [] w)))).
Proof.
  induction imgs as [|im rest IH]; intros i acc w k img Hk Hb Hf Hh.
  - destruct k; discriminate.
  - destruct k as [|k]; simpl in Hk.
    + inversion Hk; subst im.
      change (N.of_nat 0) with 0%N. rewrite N.add_0_r.
      simpl. rewrite Hb, Hf, Hh. simpl.
      unfold bind. pose proof (fechaSubida_given img w) as G.
      pose proof (fechaSubida_now img w) as G'.
      destruct (fechaSubida img w) as [f w1]. exists f.
      split; [|split; [exact G | exact G']].
      apply updateLoop_acc, in_or_app. right. now left.
    + replace (i + N.of_nat (S k) + 1)%N with (i + 1 + N.of_nat k + 1)%N
        by lia.
      simpl.
      destruct (JS.truthy (base64 im) && _).
      * unfold bind.
        destruct (saveImageToSupabase _ _ _ w) as [[r|] w1]; simpl;
          rewrite ?updateLoop_snd; now apply IH.
      * destruct (JS.truthy (filename im)); [|now apply IH].
        destruct (JS.startsWith (template (filename im)) "http").
        -- unfold bind. destruct (fechaSubida im w) as [f w1].
           rewrite ?updateLoop_snd. now apply IH.
        -- destruct (existsSync _ w); [|now apply IH].
           unfold bind. destruct (fechaSubida im w) as [f w1].
           rewrite ?updateLoop_snd. now apply IH.
Qed.

(** C3 (amended).  In an update that is answered 200, an entry of the
    replacement sequence that carries no embedded data and whose
    filename starts with [http] is kept in the stored sequence with the
    caller's filename, and with its url set to that filename: the url
    the caller supplied is not used.  The title is the caller's or,
    when absent or empty, [Imagen <position>]; the size is the caller's
    or 0; the upload timestamp is the caller's when one is given and
    otherwise the time the clock shows when the entry is reached, after
    the entries before it have been dealt with; no other property is
    stored. *)
Theorem update_remote_image_kept (i : Z) (b : Body.t) (imgs : list Imagen)
  (w : World) (k : nat) (img : Imagen) :
  Body.imagenes b = Body.Array imgs ->
  status (fst (put_computadores i b w)) = 200 ->
  nth_error imgs k = Some img ->
  JS.truthy (base64 img) = false ->
  JS.truthy (filename img) = true ->
  JS.startsWith (template (filename img)) "http" = true ->
  exists c finales img',
    In c (tabla (snd (put_computadores i b w)))
    /\ id c = i
    /\ imagenes c = Some finales
    /\ In img' finales
    /\ filename img' = filename img
    /\ url img' = filename img
    /\ title img'
       = Some (JS.orElse (title img)
                 ("Imagen " ++ JS.decimal (N.of_nat k + 1)))
    /\ size img' = Some (JS.orZero (size img))
    /\ (JS.truthy (fecha_subida img) = true ->
        fecha_subida img' = fecha_subida img)
    /\ (JS.truthy (fecha_subida img) = false ->
        fecha_subida img'
        = Some (toISOString
                  (ahora (snd (updateLoop (Body.equipo_id b) 0
                                 (firstn k imgs) [] w)))))
    /\ base64 img' = None
    /\ url_anterior img' = None
    /\ corregida_el img' = None.
Proof.
  intros Hi H200 Hk Hb Hf Hh.
  destruct (put_200 i b w H200) as (finales & w1 & E & (c & Hc & Hid) & Hall & _).
  rewrite Hi in E. simpl in E.
  destruct (updateLoop_http (Body.equipo_id b) imgs 0%N [] w k img Hk Hb Hf Hh)
    as (f & Hin & Hfecha & Hnow).
  rewrite E in Hin. simpl in Hin.
  eexists c, finales, _. split; [exact Hc|]. split; [exact Hid|].
  split; [now apply Hall|]. split; [exact Hin|].
  simpl. repeat split; auto.
  intros Hn. now rewrite (Hnow Hn).
Qed.

(** *** DELETE /api/computadores/:id *)

Lemma isPath_eq (p : string) (f : string * bool) :
  isPath p f = true <-> fst f = p.
Proof. unfold isPath. apply String.eqb_eq. Qed.

Lemma find_filter_other (p q : string) (d : list (string * bool)) :
  p <> q ->
  find (isPath p) (filter (fun f => negb (isPath q f)) d) = find (isPath p) d.
Proof.
  intros Hpq. induction d as [|f d IH]; simpl; [reflexivity|].
  destruct (isPath q f) eqn:Q; simpl.
  - destruct (isPath p f) eqn:P; [|exact IH].
    apply isPath_eq in Q, P. congruence.
  - now rewrite IH.
Qed.

Lemma existsb_filter_same (p : string) (d : list (string * bool)) :
  existsb (isPath p) (filter (fun f => negb (isPath p f)) d) = false.
Proof.
  induction d as [|f d IH]; simpl; [reflexivity|].
  destruct (isPath p f) eqn:P; simpl; [exact IH|]. now rewrite P.
Qed.

Lemma find_none_existsb (p : string) (d : list (string * bool)) :
  find (isPath p) d = None -> existsb (isPath p) d = false.
Proof.
  induction d as [|f d IH]; simpl; [reflexivity|].
  destruct (isPath p f); [discriminate | exact IH].
Qed.

Lemma existsb_incl (p : string) (d d' : list (string * bool)) :
  (forall f, In f d' -> In f d) ->
  existsb (isPath p) d = false -> existsb (isPath p) d' = false.
Proof.
  intros Hin H. destruct (existsb (isPath p) d') eqn:E; [|reflexivity].
  apply existsb_exists in E as (f & Hf & Hp).
  assert (existsb (isPath p) d = true) by
    (apply existsb_exists; exists f; auto).
  congruence.
Qed.

(** One call of [deleteImageLocally]: only the local files can change,
    and of those only the entries at the path of the key. *)
Lemma deleteImageLocally_spec (f : string) (w : World) :
  let w' := snd (deleteImageLocally f w) in
  let p := path_join UPLOADS_DIR f in
  tabla w' = tabla w /\ bucket w' = bucket w
  /\ (disco w' = disco w
      \/ (JS.startsWith f "http" = false
          /\ disco w' = filter (fun x => negb (isPath p x)) (disco w)))
  /\ (JS.startsWith f "http" = false -> removible p (disco w) = true ->
      existsSync p w' = false).
Proof.
  unfold deleteImageLocally, removible.
  destruct (JS.startsWith f "http") eqn:H; simpl.
  - repeat split; auto. discriminate.
  - unfold existsSync, unlinkSync.
    destruct (existsb (isPath (path_join UPLOADS_DIR f)) (disco w)) eqn:E;
      simpl.
    + destruct (find (isPath (path_join UPLOADS_DIR f)) (disco w))
        as [[q [|]]|] eqn:F; simpl.
      * split; [reflexivity|]. split; [reflexivity|].
        split; [right; split; reflexivity|].
        intros _ _. apply existsb_filter_same.
      * split; [reflexivity|]. split; [reflexivity|].
        split; [now left|]. intros _ D. discriminate D.
      * apply find_none_existsb in F. congruence.
    + split; [reflexivity|]. split; [reflexivity|].
      split; [now left|]. intros _ _. exact E.
Qed.

Lemma removible_step (p q : string) (d : list (string * bool)) :
  removible p d = true ->
  removible p (filter (fun f => negb (isPath q f)) d) = true.
Proof.
  unfold removible. destruct (String.eqb_spec p q) as [->|Hpq].
  - intros _.
    assert (E : find (isPath q) (filter (fun f => negb (isPath q f)) d) = None).
    { destruct (find (isPath q) _) as [x|] eqn:F; [|reflexivity].
      apply find_some in F as [Hin Hq].
      apply filter_In in Hin as [_ Hn]. rewrite Hq in Hn. discriminate. }
    now rewrite E.
  - now rewrite find_filter_other.
Qed.

(** The cleanup loop: table and bucket are not touched; a file that is
    not at the place of a locally-hosted image of the list stays; and
    the place of every locally-hosted image of the list is empty
    afterwards, unless its removal is refused. *)
Lemma deleteLoop_spec (imgs : list Imagen) :
  forall w,
    let w' := snd (deleteLoop imgs w) in
    tabla w' = tabla w /\ bucket w' = bucket w
    /\ (forall f, In f (disco w') -> In f (disco w))
    /\ (forall f, In f (disco w) ->
          (forall img, In img imgs -> esLocal img = true ->
                       rutaLocal img <> fst f) ->
          In f (disco w'))
    /\ (forall img, In img imgs -> esLocal img = true ->
          removible (rutaLocal img) (disco w) = true ->
          existsSync (rutaLocal img) w' = false).
Proof.
  induction imgs as [|img rest IH]; intros w; simpl.
  - repeat split; auto. intros img [].
  - destruct (JS.truthy (filename img)) eqn:Tf.
    + unfold bind.
      pose proof (deleteImageLocally_spec (template (filename img)) w) as S.
      destruct (deleteImageLocally (template (filename img)) w) as [ok w1].
      simpl in S. destruct S as (T1 & B1 & D1 & E1).
      specialize (IH w1). simpl in IH.
      destruct IH as (T2 & B2 & Sub & Keep & Gone).
      assert (Sub1 : forall f, In f (disco w1) -> In f (disco w)).
      { destruct D1 as [-> | [_ ->]]; [auto|].
        intros f Hf. now apply filter_In in Hf. }
      split; [congruence|]. split; [congruence|].
      split; [auto|]. split.
      * intros f Hf Hn. apply Keep.
        -- destruct D1 as [-> | [Hh ->]]; [exact Hf|].
           apply filter_In. split; [exact Hf|].
           destruct (isPath _ f) eqn:P; [|reflexivity].
           apply isPath_eq in P. exfalso.
           apply (Hn img); [now left| |now rewrite P].
           unfold esLocal. now rewrite Tf, Hh.
        -- intros x Hx. apply Hn. now right.
      * intros x [<-|Hx] Hl Hr.
        -- unfold esLocal in Hl. rewrite Tf in Hl. simpl in Hl.
           apply negb_true_iff in Hl.
           apply (existsb_incl _ (disco w1)); [exact Sub|].
           now apply E1.
        -- apply Gone; auto.
           destruct D1 as [-> | [_ ->]]; [exact Hr|].
           now apply removible_step.
    + specialize (IH w). simpl in IH.
      destruct IH as (T2 & B2 & Sub & Keep & Gone).
      split; [exact T2|]. split; [exact B2|]. split; [exact Sub|]. split.
      * intros f Hf Hn. apply Keep; [exact Hf|].
        intros x Hx. apply Hn. now right.
      * intros x [<-|Hx] Hl Hr; [|now apply Gone].
        unfold esLocal in Hl. rewrite Tf in Hl. discriminate.
Qed.

Lemma filter_hasId_none (i : Z) (T : list Computador) :
  (forall c, In c T -> id c <> i) -> filter (hasId i) T = [].
Proof.
  induction T as [|x T IH]; intros H; simpl; [reflexivity|].
  unfold hasId at 1. destruct (Z.eqb_spec (id x) i) as [E|E].
  - exfalso. apply (H x); [now left | exact E].
  - apply IH. intros c Hc. apply H. now right.
Qed.

Lemma filter_hasId_unique (i : Z) (T : list Computador) (c : Computador) :
  NoDup (map id T) -> In c T -> id c = i -> filter (hasId i) T = [c].
Proof.
  induction T as [|x T IH]; intros Hnd Hin Hid; [contradiction|].
  simpl in Hnd. inversion Hnd as [|? ? Hx Hnd']; subst.
  simpl. unfold hasId at 1. destruct Hin as [->|Hin].
  - rewrite Z.eqb_refl. f_equal. apply filter_hasId_none.
    intros y Hy E. apply Hx. rewrite <- E. now apply in_map.
  - destruct (Z.eqb_spec (id x) (id c)) as [E|E].
    + exfalso. apply Hx. rewrite E. now apply in_map.
    + now apply IH.
Qed.

(** C7 (amended).  With the delete call answered and ids unique: an id
    outside the range of the column is answered 500 and an id in range
    that no row has is answered 404, both without any change.  When a
    row has the id, the answer is 200 whatever the cleanup does, the row
    is gone and the bucket is as before.  The cleanup depends on the
    select that precedes the delete, whose error is not looked at: when
    it is answered, for every image of the row that has a filename not
    starting with [http] the file at its place is removed unless the
    removal is refused, and no other file is touched; when it fails, no
    file is removed at all.  A filename that starts with [http], URL or
    not, makes [deleteImageLocally] return [true] without any effect. *)
Theorem delete_cleans_local_images (i : Z) (w : World) :
  dbInitialized w = true ->
  nth 1 (fallos w) None = None ->
  NoDup (map id (tabla w)) ->
  let R := delete_computadores i w in
  (int4 i = false ->
   status (fst R) = 500
   /\ tabla (snd R) = tabla w
   /\ disco (snd R) = disco w
   /\ bucket (snd R) = bucket w)
  /\ (int4 i = true ->
      (forall c, In c (tabla w) -> id c <> i) ->
      fst R = mkRespuesta 404 RegistroNoEncontrado
      /\ tabla (snd R) = tabla w
      /\ disco (snd R) = disco w
      /\ bucket (snd R) = bucket w)
  /\ (int4 i = true ->
      forall c, In c (tabla w) -> id c = i ->
      fst R = mkRespuesta 200 RegistroEliminado
      /\ (forall x, In x (tabla (snd R)) <-> In x (tabla w) /\ id x <> i)
      /\ bucket (snd R) = bucket w
      /\ (nth 0 (fallos w) None <> None -> disco (snd R) = disco w)
      /\ (nth 0 (fallos w) None = None ->
          forall imgs, imagenes c = Some imgs ->
            (forall img, In img imgs -> esLocal img = true ->
               removible (rutaLocal img) (disco w) = true ->
               existsSync (rutaLocal img) (snd R) = false)
            /\ (forall f, In f (disco w) ->
                  (forall img, In img imgs -> esLocal img = true ->
                               rutaLocal img <> fst f) ->
                  In f (disco (snd R)))))
  /\ (forall f w0, JS.startsWith f "http" = true ->
                   deleteImageLocally f w0 = (true, w0)).
Proof.
  intros Hdb H1 Hnd R.
  assert (Hfilter : forall T x,
             In x (filter (fun c => negb (hasId i c)) T)
             <-> In x T /\ id x <> i).
  { intros T x. rewrite filter_In. unfold hasId.
    destruct (Z.eqb_spec (id x) i) as [E|E]; simpl; split.
    - intros [_ H]; discriminate H.
    - intros [_ H]; contradiction.
    - intros [H _]; split; [exact H | exact E].
    - intros [H _]; split; [exact H | reflexivity]. }
  assert (H0' : nth 0 (fallos w) None = hd None (fallos w))
    by (now destruct (fallos w)).
  assert (H1' : hd None (tl (fallos w)) = None)
    by (now destruct (fallos w) as [|? [|? ?]]).
  rewrite H0'.
  split; [|split; [|split]].
  - intros Hi. subst R.
    unfold delete_computadores, checkDatabase. rewrite Hdb.
    unfold bind, db_select_imagenes, db_delete, remote, bind, remoteCall, ret.
    destruct (hd None (fallos w)); simpl; rewrite ?Hi; simpl;
      rewrite H1'; simpl; rewrite ?Hi; simpl; repeat split; reflexivity.
  - intros Hi Hno. subst R.
    unfold delete_computadores, checkDatabase. rewrite Hdb.
    unfold bind, db_select_imagenes, db_delete, remote, bind, remoteCall, ret.
    destruct (hd None (fallos w)); simpl; rewrite ?Hi; simpl;
      rewrite ?(filter_hasId_none i (tabla w) Hno); simpl;
      rewrite H1'; simpl; rewrite ?Hi; simpl;
      rewrite ?(filter_hasId_none i (tabla w) Hno); simpl;
      (repeat split; auto);
      apply forallb_filter_id, forallb_forall; intros x Hx;
      unfold hasId; apply negb_true_iff, Z.eqb_neq; now apply Hno.
  - intros Hi c Hc Hid. subst R.
    unfold delete_computadores, checkDatabase. rewrite Hdb.
    unfold bind, db_select_imagenes, db_delete, remote, bind, remoteCall, ret.
    destruct (hd None (fallos w)) as [e|]; simpl; rewrite ?Hi; simpl.
    + rewrite H1'. simpl. rewrite ?Hi. simpl.
      rewrite !(filter_hasId_unique i (tabla w) c Hnd Hc Hid). simpl.
      split; [reflexivity|]. split; [apply Hfilter|].
      split; [reflexivity|]. split; [reflexivity|].
      intros H; discriminate H.
    + rewrite !(filter_hasId_unique i (tabla w) c Hnd Hc Hid). simpl.
      rewrite H1'. simpl. rewrite ?Hi. simpl.
      rewrite ?(filter_hasId_unique i (tabla w) c Hnd Hc Hid). simpl.
      destruct (imagenes c) as [imgs0|] eqn:I; simpl.
      * match goal with
        | |- context [deleteLoop imgs0 ?w1] =>
            destruct (deleteLoop_spec imgs0 w1) as (T & B & _ & K & G);
            simpl in T, B, K, G;
            destruct (deleteLoop imgs0 w1) as [u w2]; simpl in *
        end.
        split; [reflexivity|]. split; [rewrite T; apply Hfilter|].
        split; [exact B|]. split; [intros H; now contradiction H|].
        intros _ imgs E; inversion E; subst imgs0. split; assumption.
      * split; [reflexivity|]. split; [apply Hfilter|].
        split; [reflexivity|]. split; [reflexivity|].
        intros _ imgs E; discriminate E.
  - intros f w0 H. unfold deleteImageLocally. now rewrite H.
Qed.

(** *** GET /api/computadores *)

Lemma stars_app (a b : string) :
  Like.stars (a ++ b) = Like.stars a ++ Like.stars b.
Proof. induction a as [|c a IH]; simpl; [reflexivity | now rewrite IH]. Qed.

Lemma sinComodines_stars (v : string) :
  sinComodines v = true -> Like.stars v = v.
Proof.
  induction v as [|c v IH]; simpl; [auto|].
  intros H. apply andb_true_iff in H as [Hc Hv].
  apply negb_true_iff in Hc. rewrite (IH Hv). f_equal.
  unfold Like.star. unfold esComodin in Hc.
  apply orb_false_iff in Hc as [_ Hc]. now rewrite Hc.
Qed.

Lemma like_percent_unfold (q s : string) :
  Like.like (String "%" q) s
  = Like.like q s
    || match s with
       | EmptyString => false
       | String _ s' => Like.like (String "%" q) s'
       end.
Proof. destruct s; reflexivity. Qed.

Lemma like_percent_any (s : string) : Like.like "%" s = true.
Proof.
  induction s as [|c s IH]; [reflexivity|].
  rewrite like_percent_unfold. rewrite IH. apply orb_true_r.
Qed.

Lemma like_literal (c : ascii) (p s : string) :
  esComodin c = false ->
  Like.like (String c p) s
  = match s with
    | EmptyString => false
    | String e s' => Ascii.eqb c e && Like.like p s'
    end.
Proof.
  unfold esComodin. intros H.
  apply orb_false_iff in H as [H _].
  apply orb_false_iff in H as [H H3].
  apply orb_false_iff in H as [H1 H2].
  simpl. rewrite H1, H2, H3. reflexivity.
Qed.

Lemma like_prefix (p : string) :
  sinComodines p = true ->
  forall s, Like.like (p ++ "%") s = JS.startsWith s p.
Proof.
  induction p as [|c p IH]; intros H s.
  - simpl append. rewrite like_percent_any. now destruct s.
  - simpl in H. apply andb_true_iff in H as [Hc Hp].
    apply negb_true_iff in Hc.
    change (String c p ++ "%") with (String c (p ++ "%")).
    rewrite (like_literal c _ s Hc).
    destruct s as [|e s]; [reflexivity|]. simpl. now rewrite IH.
Qed.

Lemma like_substring (p : string) :
  sinComodines p = true ->
  forall s, Like.like ("%" ++ p ++ "%") s = JS.includes s p.
Proof.
  intros H s. change ("%" ++ p ++ "%") with (String "%" (p ++ "%")).
  induction s as [|c s IH]; rewrite like_percent_unfold, (like_prefix p H).
  - simpl. now rewrite orb_false_r.
  - rewrite IH. reflexivity.
Qed.

(** On a value without wildcard characters the handler's pattern is a
    case-insensitive substring test. *)
Lemma ilike_substring (v s : string) :
  plegadoRegular pg_lower ->
  sinComodines v = true ->
  Like.ilike pg_lower ("%" ++ v ++ "%") s = contiene s v.
Proof.
  intros R H. unfold Like.ilike, contiene.
  destruct (R v H) as [R1 R2].
  rewrite !stars_app, (sinComodines_stars v H).
  change (Like.stars "%") with "%". rewrite R1.
  now apply like_substring.
Qed.

Lemma forallb_cuando (v : option string) (f : string -> Filtro)
  (c : Computador) :
  forallb (fun x => cumple pg_lower x c) (cuando v f)
  = if JS.truthy v then cumple pg_lower (f (template v)) c else true.
Proof.
  unfold cuando, JS.truthy. destruct v as [x|]; [|reflexivity].
  destruct (x =? EmptyString); simpl; [reflexivity | now rewrite andb_true_r].
Qed.

Lemma cumple_ilike (col : Columna) (v : option string) (c : Computador) :
  plegadoRegular pg_lower ->
  sinComodinesOpt v = true ->
  (if JS.truthy v
   then cumple pg_lower (Ilike col ("%" ++ template v ++ "%")) c
   else true)
  = filtroContiene v (valor col c).
Proof.
  unfold filtroContiene. intros R H.
  destruct (JS.truthy v) eqn:T; [|reflexivity].
  destruct v as [x|]; [|discriminate]. simpl in *.
  destruct (valor col c) as [s|]; [|reflexivity].
  now apply ilike_substring.
Qed.

(** With literal filter values, the query the handler builds selects
    the rows that satisfy every supplied filter. *)
Lemma filtros_coincide (q : Query.t) (c : Computador) :
  plegadoRegular pg_lower ->
  literal q = true ->
  forallb (fun f => cumple pg_lower f c) (filtros q) = coincide q c.
Proof.
  unfold literal, filtros, coincide. intros R H.
  repeat (apply andb_true_iff in H as [H ?]).
  rewrite !forallb_app, !forallb_cuando.
  rewrite (cumple_ilike ColResponsable), (cumple_ilike ColEquipoId),
    (cumple_ilike ColSerialNumber), (cumple_ilike ColRevisor) by assumption.
  simpl valor. rewrite !andb_assoc. reflexivity.
Qed.

Lemma insertarDesc_perm (c : Computador) (l : list Computador) :
  Permutation (c :: l) (insertarDesc c l).
Proof.
  induction l as [|x l IH]; simpl; [reflexivity|].
  destruct (fecha_revision x <=? fecha_revision c)%N; [reflexivity|].
  rewrite perm_swap. now constructor.
Qed.

Lemma ordenarDesc_perm (l : list Computador) :
  Permutation l (ordenarDesc l).
Proof.
  induction l as [|c l IH]; simpl; [reflexivity|].
  rewrite <- insertarDesc_perm. now constructor.
Qed.

Lemma insertarDesc_sorted (c : Computador) (l : list Computador) :
  StronglySorted masReciente l ->
  StronglySorted masReciente (insertarDesc c l).
Proof.
  induction l as [|x l IH]; intros H; simpl.
  - repeat constructor.
  - inversion H as [|? ? Hs Hf]; subst.
    destruct (fecha_revision x <=? fecha_revision c)%N eqn:E.
    + apply N.leb_le in E. constructor; [exact H|].
      constructor; [exact E|].
      revert Hf. apply Forall_impl. unfold masReciente. intros y Hy. lia.
    + apply N.leb_gt in E. constructor; [now apply IH|].
      apply (Permutation_Forall (insertarDesc_perm c l)).
      constructor; [unfold masReciente; lia | exact Hf].
Qed.

Lemma ordenarDesc_sorted (l : list Computador) :
  StronglySorted masReciente (ordenarDesc l).
Proof.
  induction l as [|c l IH]; simpl; [constructor|].
  now apply insertarDesc_sorted.
Qed.

Lemma procesarComputador_row (w : World) (c : Computador) :
  conImagenes (imagenes c) (procesarComputador w c) = c.
Proof.
  unfold procesarComputador. destruct c as [? ? ? ? ? ? ? ? ? ? ? ? im ? ? ? ? ?].
  simpl. destruct im; reflexivity.
Qed.

(** C9 (amended).  With the table reachable, the list route returns the
    rows selected by the conjunction of the supplied filters, most
    recently reviewed first; each returned record is its row up to the
    image list.  [estado] is compared for equality; the other four
    values are sent as the ILIKE pattern [%value%], which is the
    substring test on the two texts as the database's [lower()] folds
    them (whatever letters its locale folds, beyond A to Z), as long as
    the value holds none of the characters [%], [_], [*] and
    backslash. *)
Theorem list_filters_conjunctive (q : Query.t) (w : World) :
  dbInitialized w = true ->
  hd None (fallos w) = None ->
  plegadoRegular pg_lower ->
  literal q = true ->
  exists data,
    fst (get_computadores q w)
    = mkRespuesta 200
        (Listado (map (procesarComputador (snd (get_computadores q w))) data))
    /\ Permutation (filter (coincide q) (tabla w)) data
    /\ StronglySorted masReciente data
    /\ forall w0 c, conImagenes (imagenes c) (procesarComputador w0 c) = c.
Proof.
  intros Hdb Hf Hr Hl.
  unfold get_computadores, checkDatabase. rewrite Hdb.
  unfold bind, db_select, remote, bind, remoteCall, ret. rewrite Hf. simpl.
  eexists. split; [reflexivity|].
  rewrite (filter_ext
             (fun c => forallb (fun f => cumple pg_lower f c) (filtros q))
             (coincide q))
    by (intros c; now apply filtros_coincide).
  split; [apply ordenarDesc_perm|].
  split; [apply ordenarDesc_sorted | intros; apply procesarComputador_row].
Qed.

(** *** POST /api/fix-imagenes *)

Lemma soloReloj_refl (w : World) : soloReloj w w.
Proof. repeat split. Qed.

Lemma soloReloj_trans (w1 w2 w3 : World) :
  soloReloj w1 w2 -> soloReloj w2 w3 -> soloReloj w1 w3.
Proof.
  unfold soloReloj.
  intros (A & B & C & D & E & F) (A' & B' & C' & D' & E' & F').
  repeat split; congruence.
Qed.

Lemma corregirImagen_spec (img : Imagen) (total : nat) (nec : bool)
  (w : World) :
  let R := corregirImagen img total nec w in
  exists img',
    fst R = (img', S total, nec || necesitaCorreccion img)
    /\ reconciliaImagen img img'
    /\ soloReloj w (snd R)
    /\ (necesitaCorreccion img = false -> snd R = w).
Proof.
  unfold corregirImagen, reconciliaImagen, necesitaCorreccion.
  destruct (JS.truthy (filename img) && JS.truthy (url img)
            && JS.includes (template (url img)) "/uploads/"); simpl.
  - eexists. split; [now rewrite orb_true_r|].
    split; [now exists (ahora w)|]. split; [repeat split | discriminate].
  - eexists. split; [now rewrite orb_false_r|].
    split; [reflexivity|]. split; [apply soloReloj_refl | reflexivity].
Qed.

Lemma corregirImagenes_spec (imgs : list Imagen) :
  forall total nec w,
    let R := corregirImagenes imgs total nec w in
    exists imgs',
      fst R = (imgs', total + length imgs,
               nec || existsb necesitaCorreccion imgs)
      /\ Forall2 reconciliaImagen imgs imgs'
      /\ soloReloj w (snd R)
      /\ (existsb necesitaCorreccion imgs = false ->
          snd R = w /\ imgs' = imgs).
Proof.
  induction imgs as [|img rest IH]; intros total nec w; simpl.
  - exists []. rewrite orb_false_r, Nat.add_0_r.
    repeat split; auto.
  - unfold bind.
    destruct (corregirImagen_spec img total nec w) as (img' & E & Ri & F & U).
    destruct (corregirImagen img total nec w) as [[[i1 t1] n1] w1].
    simpl in E, F, U. inversion E; subst i1 t1 n1; clear E.
    destruct (IH (S total) (nec || necesitaCorreccion img) w1)
      as (rest' & E & Rr & F' & U').
    destruct (corregirImagenes rest (S total) _ w1) as [[[i2 t2] n2] w2].
    simpl in E, F', U'. inversion E; subst i2 t2 n2; clear E.
    simpl. exists (img' :: rest'). split.
    + f_equal; [f_equal; lia | now rewrite orb_assoc].
    + split; [now constructor|]. split; [eapply soloReloj_trans; eauto|].
      intros H. apply orb_false_iff in H as [H1 H2].
      destruct (U' H2) as [-> ->]. rewrite (U H1). split; [reflexivity|].
      f_equal. unfold reconciliaImagen in Ri. now rewrite H1 in Ri.
Qed.

Lemma fixLoop_filter (T : list Computador) :
  forall a n w,
    fixLoop (filter (fun c => isSome (imagenes c)) T) a n w
    = fixLoop T a n w.
Proof.
  induction T as [|c T IH]; intros a n w; simpl; [reflexivity|].
  destruct (imagenes c) as [imgs|] eqn:I; simpl; [|apply IH].
  rewrite I. unfold bind.
  destruct (corregirImagenes imgs n false w) as [[[i t] [|]] w1]; [|apply IH].
  destruct (db_update_imagenes i (id c) w1) as [[e|u] w2]; apply IH.
Qed.

(** A row without an image to rewrite costs nothing. *)
Lemma fixLoop_limpio (T : list Computador) :
  Forall (fun c => sucia c = false) T ->
  forall a n w, fixLoop T a n w = ((a, n + totalImagenes T), w).
Proof.
  induction 1 as [|c T Hc _ IH]; intros a n w; simpl.
  - now rewrite Nat.add_0_r.
  - unfold sucia in Hc. destruct (imagenes c) as [imgs|]; [|now rewrite IH].
    unfold bind.
    destruct (corregirImagenes_spec imgs n false w) as (imgs' & E & _ & _ & U).
    destruct (corregirImagenes imgs n false w) as [[[i t] d] w1].
    simpl in E, U. inversion E; subst i t d; clear E.
    destruct (U Hc) as [-> _]. simpl. rewrite Hc, IH.
    now rewrite Nat.add_assoc.
Qed.

Lemma map_update_unique (f : Computador -> Computador)
  (P T : list Computador) (c : Computador) :
  NoDup (map id (P ++ c :: T)) ->
  map (fun x => if hasId (id c) x then f x else x) (P ++ c :: T)
  = (P ++ f c :: T)%list.
Proof.
  intros H.
  assert (K : forall l, (forall x, In x l -> id x <> id c) ->
              map (fun x => if hasId (id c) x then f x else x) l = l).
  { induction l as [|x l IHl]; intros Hl; simpl; [reflexivity|].
    unfold hasId at 1. destruct (Z.eqb_spec (id x) (id c)) as [E|E].
    - exfalso. apply (Hl x); [now left | exact E].
    - f_equal. apply IHl. intros y Hy. apply Hl. now right. }
  rewrite map_app in H. simpl in H.
  apply NoDup_remove_2 in H.
  rewrite map_app. simpl. unfold hasId at 2. rewrite Z.eqb_refl.
  rewrite !K; [reflexivity| |].
  - intros x Hx E. apply H, in_or_app. right. rewrite <- E. now apply in_map.
  - intros x Hx E. apply H, in_or_app. left. rewrite <- E. now apply in_map.
Qed.

Lemma existsb_tl {A} (f : A -> bool) (l : list A) :
  existsb f (tl l) = true -> existsb f l = true.
Proof. destruct l; simpl; [auto|]. intros ->. apply orb_true_r. Qed.

Lemma existsb_hd (l : list (option PgError)) (e : PgError) :
  hd None l = Some e -> existsb isSome l = true.
Proof. destruct l as [|[x|] l]; simpl; intros H; now inversion H. Qed.

(** The loop over the rows, started on a table whose rows [T] are still
    to be visited: the rows already visited are not touched again. *)
Lemma fixLoop_spec (T : list Computador) :
  forall P a n w,
    tabla w = (P ++ T)%list ->
    NoDup (map id (P ++ T)) ->
    let R := fixLoop T a n w in
    exists k T',
      fst R = (a + k, n + totalImagenes T)
      /\ tabla (snd R) = (P ++ T')%list
      /\ Reconciliada (fallos w) T T' k
      /\ dbInitialized (snd R) = dbInitialized w
      /\ bucket (snd R) = bucket w
      /\ disco (snd R) = disco w
      /\ (fallos w = [] -> fallos (snd R) = []).
Proof.
  induction T as [|c T IH]; intros P a n w Ht Hnd; simpl.
  - exists 0, []. rewrite !Nat.add_0_r. repeat split; auto. constructor.
  - assert (Hassoc : forall x (l : list Computador),
               ((P ++ [x]) ++ l = P ++ x :: l)%list)
      by (intros x l; now rewrite <- app_assoc).
    destruct (imagenes c) as [imgs|] eqn:I.
    + unfold bind.
      destruct (corregirImagenes_spec imgs n false w)
        as (imgs' & E & Rr & (F1 & F2 & F3 & F4 & F5 & F6) & U).
      destruct (corregirImagenes imgs n false w) as [[[i t] d] w1].
      simpl in E, F1, F2, F3, F4, F5, F6, U. inversion E; subst i t d; clear E.
      simpl. destruct (existsb necesitaCorreccion imgs) eqn:D.
      * unfold db_update_imagenes, remote, bind, remoteCall, ret.
        destruct (hd None (fallos w1)) as [err|] eqn:H; simpl.
        -- destruct (IH (P ++ [c])%list a (n + length imgs)
                      (setFallos (tl (fallos w1)) w1))
             as (k & T' & E & Tb & Rc & Db & Bk & Dk & Fl).
           { simpl. now rewrite Hassoc, F2. }
           { now rewrite Hassoc. }
           exists k, (c :: T'). rewrite E, Tb, Hassoc, Db, Bk, Dk.
           simpl. split; [f_equal; lia|]. split; [reflexivity|].
           split.
           { simpl in Rc. rewrite F6 in Rc, H.
             apply (rec_fallida _ err); auto.
             unfold sucia. now rewrite I. }
           repeat split; auto.
           intros X. rewrite X in F6. rewrite F6 in H. discriminate.
        -- set (c' := conImagenes (Some imgs') c).
           destruct (IH (P ++ [c'])%list (S a) (n + length imgs)
                      (setTabla
                         (map (fun x => if hasId (id c) x
                                        then conImagenes (Some imgs') x
                                        else x) (tabla w1))
                         (setFallos (tl (fallos w1)) w1)))
             as (k & T' & E & Tb & Rc & Db & Bk & Dk & Fl).
           { simpl. rewrite Hassoc, F2, Ht. now apply map_update_unique. }
           { rewrite Hassoc. rewrite map_app in Hnd |- *. exact Hnd. }
           exists (S k), (c' :: T'). rewrite E, Tb, Hassoc, Db, Bk, Dk.
           simpl. split; [f_equal; lia|]. split; [reflexivity|].
           split.
           { simpl in Rc. rewrite F6 in Rc, H.
             now apply (rec_corregida _ c imgs imgs'). }
           repeat split; auto.
           intros X. apply Fl. simpl. rewrite F6, X. reflexivity.
      * destruct (U eq_refl) as [-> _].
        destruct (IH (P ++ [c])%list a (n + length imgs) w)
          as (k & T' & E & Tb & Rc & Db & Bk & Dk & Fl);
          [now rewrite Hassoc | now rewrite Hassoc |].
        exists k, (c :: T'). rewrite E, Tb, Hassoc.
        split; [f_equal; lia|]. split; [reflexivity|].
        split; [|auto].
        apply rec_limpia; [|exact Rc]. unfold sucia. now rewrite I.
    + destruct (IH (P ++ [c])%list a n w)
        as (k & T' & E & Tb & Rc & Db & Bk & Dk & Fl);
        [now rewrite Hassoc | now rewrite Hassoc |].
      exists k, (c :: T'). rewrite E, Tb, Hassoc.
      split; [reflexivity|]. split; [reflexivity|].
      split; [|auto].
      apply rec_limpia; [|exact Rc]. unfold sucia. now rewrite I.
Qed.

(** The handler, when the rows can be loaded. *)
Lemma post_fix_imagenes_run (w : World) :
  dbInitialized w = true ->
  hd None (fallos w) = None ->
  let w1 := setFallos (tl (fallos w)) w in
  let L := fixLoop (tabla w) 0 0 w1 in
  post_fix_imagenes w
  = (mkRespuesta 200
       (UrlsCorregidas (fst (fst L)) (snd (fst L))
          (toISOString (ahora (snd L)))),
     snd (Date_now (snd L))).
Proof.
  intros Hdb Hf. unfold post_fix_imagenes, checkDatabase. rewrite Hdb.
  unfold bind, db_select_con_imagenes, remote, bind, remoteCall, ret.
  rewrite Hf. simpl. rewrite fixLoop_filter.
  destruct (fixLoop (tabla w) 0 0 _) as [[a n] w2]. reflexivity.
Qed.

(** C1 (amended).  With the rows loaded, the reconciliation answers 200
    and its two counts are the number of rows whose rewritten sequence
    was written back and the number of images of all rows with an image
    sequence.  An image is rewritten exactly when it has a non-empty
    filename and its url holds [/uploads/]: its url becomes the public
    URL of its filename, [url_anterior] the old url and [corregida_el]
    the time of the rewrite; every other image is kept as it is.  The
    rows with an image to rewrite are written back one call each, in
    the order of the rows, after the call that loads them: exactly the
    rows whose call is answered with an error keep their old sequence
    and are not counted, every other such row is written and counted. *)
Theorem fix_imagenes_rewrites (w : World) :
  dbInitialized w = true ->
  hd None (fallos w) = None ->
  NoDup (map id (tabla w)) ->
  exists actualizados timestamp,
    fst (post_fix_imagenes w)
    = mkRespuesta 200
        (UrlsCorregidas actualizados (totalImagenes (tabla w)) timestamp)
    /\ Reconciliada (tl (fallos w))
         (tabla w) (tabla (snd (post_fix_imagenes w))) actualizados.
Proof.
  intros Hdb Hf Hnd.
  rewrite (post_fix_imagenes_run w Hdb Hf). cbv zeta.
  destruct (fixLoop_spec (tabla w) [] 0 0 (setFallos (tl (fallos w)) w))
    as (k & T' & E & Tb & Rc & _); auto.
  set (L := fixLoop (tabla w) 0 0 _) in *.
  exists k, (toISOString (ahora (snd L))). simpl. rewrite E. simpl.
  split; [reflexivity|]. now rewrite Tb.
Qed.

Lemma Reconciliada_limpia (T T' : list Computador) (k : nat) :
  (forall c imgs img,
      In c T -> imagenes c = Some imgs -> In img imgs ->
      necesitaCorreccion img = true ->
      JS.includes (getPublicUrl (template (filename img))) "/uploads/"
      = false) ->
  Reconciliada [] T T' k ->
  Forall (fun c => sucia c = false) T'.
Proof.
  intros Hu R. remember [] as fs eqn:Hfs in R.
  induction R as [fs|fs c T T' k Hc R IH|fs e c T T' k Hc He R IH|
                  fs c imgs imgs' T T' k I D He F R IH]; subst fs.
  - constructor.
  - constructor; [exact Hc|]. apply IH; [|reflexivity].
    intros x xs img Hx. apply Hu. now right.
  - discriminate He.
  - constructor.
    + assert (Himgs : forall img, In img imgs ->
                necesitaCorreccion img = true ->
                JS.includes (getPublicUrl (template (filename img)))
                  "/uploads/" = false).
      { intros img Hin. apply (Hu c imgs img); [now left | exact I | exact Hin]. }
      unfold sucia, conImagenes. simpl.
      clear - F Himgs.
      induction F as [|img img' l l' Hr F IHF]; simpl; [reflexivity|].
      rewrite IHF by (intros y Hy; apply Himgs; now right).
      rewrite orb_false_r. unfold reconciliaImagen in Hr.
      destruct (necesitaCorreccion img) eqn:N.
      * destruct Hr as [t ->]. unfold necesitaCorreccion, corregida. simpl.
        rewrite (Himgs img (or_introl eq_refl) N). apply andb_false_r.
      * now subst img'.
    + apply IH; [|reflexivity]. intros x xs img Hx. apply Hu. now right.
Qed.

(** C2 (amended).  When the remote calls succeed and the public URL of
    no image to rewrite holds [/uploads/] itself, a second
    reconciliation on the state the first one leaves finds no row with
    an image to rewrite, reports zero rows updated, and leaves the
    table, hence every image url, as the first run left it. *)
Theorem fix_imagenes_idempotent (w : World) :
  dbInitialized w = true ->
  fallos w = [] ->
  NoDup (map id (tabla w)) ->
  (forall c imgs img,
      In c (tabla w) -> imagenes c = Some imgs -> In img imgs ->
      necesitaCorreccion img = true ->
      JS.includes (getPublicUrl (template (filename img))) "/uploads/"
      = false) ->
  let w1 := snd (post_fix_imagenes w) in
  Forall (fun c => sucia c = false) (tabla w1)
  /\ (exists timestamp,
         fst (post_fix_imagenes w1)
         = mkRespuesta 200
             (UrlsCorregidas 0 (totalImagenes (tabla w1)) timestamp))
  /\ tabla (snd (post_fix_imagenes w1)) = tabla w1.
Proof.
  intros Hdb Hf Hnd Hu w1.
  assert (Hf0 : hd None (fallos w) = None) by now rewrite Hf.
  assert (Clean : Forall (fun c => sucia c = false) (tabla w1)
                  /\ dbInitialized w1 = true /\ fallos w1 = []).
  { subst w1. rewrite (post_fix_imagenes_run w Hdb Hf0). cbv zeta.
    destruct (fixLoop_spec (tabla w) [] 0 0
                (setFallos (tl (fallos w)) w))
      as (k & T' & E & Tb & Rc & Db & _ & _ & Fl); auto.
    simpl in Rc. rewrite Hf in Rc. simpl in Rc.
    set (L := fixLoop (tabla w) 0 0 _) in *. simpl.
    rewrite Tb, Db. simpl. split; [|split; [exact Hdb|]].
    - now apply (Reconciliada_limpia (tabla w) T' k).
    - apply Fl. simpl. now rewrite Hf. }
  destruct Clean as (Cl & Db1 & Fl1).
  split; [exact Cl|].
  assert (Hf1 : hd None (fallos w1) = None) by now rewrite Fl1.
  rewrite (post_fix_imagenes_run w1 Db1 Hf1). cbv zeta.
  rewrite (fixLoop_limpio _ Cl). simpl.
  split; [eexists; reflexivity | reflexivity].
Qed.

(** *** Readiness *)

Lemma listo_ret {A} (Q : A -> Prop) (a : A) : Q a -> listo Q (ret a).
Proof. intros H w Hw. now split. Qed.

Lemma listo_bind {A B} (P : A -> Prop) (Q : B -> Prop) (c : M A)
  (k : A -> M B) :
  listo P c -> (forall a, P a -> listo Q (k a)) -> listo Q (bind c k).
Proof.
  intros Hc Hk w Hw. unfold bind.
  destruct (Hc w Hw) as [Ha Hw1].
  destruct (c w) as [a w1]. simpl in *. now apply Hk.
Qed.

Lemma listo_weaken {A} (P Q : A -> Prop) (c : M A) :
  (forall a, P a -> Q a) -> listo P c -> listo Q c.
Proof. intros H Hc w Hw. destruct (Hc w Hw). split; auto. Qed.

Lemma listo_any {A} (P : A -> Prop) (c : M A) :
  listo P c -> listo (fun _ => True) c.
Proof. apply listo_weaken. auto. Qed.

Lemma listo_state {A} (f : World -> A * World) :
  (forall w, dbInitialized (snd (f w)) = dbInitialized w) ->
  listo (fun _ => True) f.
Proof. intros H w Hw. split; [exact I | now rewrite H]. Qed.

Lemma listo_if {A} (Q : A -> Prop) (b : World -> bool) (c1 c2 : M A) :
  listo Q c1 -> listo Q c2 ->
  listo Q (fun w => if b w then c1 w else c2 w).
Proof. intros H1 H2 w Hw. destruct (b w); auto. Qed.

Lemma listo_Date_now : listo (fun _ => True) Date_now.
Proof. now apply listo_state. Qed.

Lemma listo_remoteCall : listo (fun _ => True) remoteCall.
Proof. now apply listo_state. Qed.

Lemma listo_remote {A} (k : M (PgError + A)) :
  listo (fun _ => True) k -> listo (fun _ => True) (remote k).
Proof.
  intros Hk. unfold remote.
  apply (listo_bind (fun _ => True)); [apply listo_remoteCall|].
  intros [e|] _; [now apply listo_ret | exact Hk].
Qed.

Lemma listo_storage_upload (p : string) (b : list Byte.byte) :
  listo (fun _ => True) (storage_upload p b).
Proof.
  apply listo_remote, listo_state. intros w.
  cbv zeta. destruct (hasKey _ (bucket w)); reflexivity.
Qed.

Lemma listo_saveImageToSupabase (v : option string) (e : string) (i : N) :
  listo (fun _ => True) (saveImageToSupabase v e i).
Proof.
  unfold saveImageToSupabase.
  destruct (decodeImage v) as [[t b]|]; [|now apply listo_ret].
  apply (listo_bind (fun _ => True)); [apply listo_Date_now|]. intros n _.
  apply (listo_bind (fun _ => True)); [apply listo_storage_upload|].
  intros [err|u] _; now apply listo_ret.
Qed.

Lemma listo_createLoop (e : string) (imgs : list Imagen) :
  forall i acc, listo (fun _ => True) (createLoop e i imgs acc).
Proof.
  induction imgs as [|img rest IH]; intros i acc; simpl.
  - now apply listo_ret.
  - destruct (JS.truthy (base64 img)); [|apply IH].
    apply (listo_bind (fun _ => True)); [apply listo_saveImageToSupabase|].
    intros [r|] _; [|apply IH].
    apply (listo_bind (fun _ => True)); [apply listo_Date_now|].
    intros t _. apply IH.
Qed.

Lemma listo_fechaSubida (img : Imagen) :
  listo (fun _ => True) (fechaSubida img).
Proof.
  unfold fechaSubida. destruct (JS.truthy (fecha_subida img)).
  - now apply listo_ret.
  - apply (listo_bind (fun _ => True)); [apply listo_Date_now|].
    intros t _. now apply listo_ret.
Qed.

Lemma listo_updateLoop (e : option string) (imgs : list Imagen) :
  forall i acc, listo (fun _ => True) (updateLoop e i imgs acc).
Proof.
  induction imgs as [|img rest IH]; intros i acc; simpl.
  - now apply listo_ret.
  - destruct (JS.truthy (base64 img) && _).
    + apply (listo_bind (fun _ => True)); [apply listo_saveImageToSupabase|].
      intros [r|] _; [|apply IH].
      apply (listo_bind (fun _ => True)); [apply listo_Date_now|].
      intros t _. apply IH.
    + destruct (JS.truthy (filename img)); [|apply IH].
      destruct (JS.startsWith _ "http").
      * apply (listo_bind (fun _ => True)); [apply listo_fechaSubida|].
        intros f _. apply IH.
      * apply (listo_if (fun _ => True)); [|apply IH].
        apply (listo_bind (fun _ => True)); [apply listo_fechaSubida|].
        intros f _. apply IH.
Qed.

Lemma listo_deleteImageLocally (f : string) :
  listo (fun _ => True) (deleteImageLocally f).
Proof.
  apply listo_state. intros w. unfold deleteImageLocally.
  destruct (JS.startsWith f "http"); [reflexivity|].
  destruct (existsSync _ w); [|reflexivity].
  unfold unlinkSync. destruct (find _ (disco w)) as [[q [|]]|]; reflexivity.
Qed.

Lemma listo_deleteLoop (imgs : list Imagen) :
  listo (fun _ => True) (deleteLoop imgs).
Proof.
  induction imgs as [|img rest IH]; simpl; [now apply listo_ret|].
  destruct (JS.truthy (filename img)); [|exact IH].
  apply (listo_bind (fun _ => True)); [apply listo_deleteImageLocally|].
  intros _ _. exact IH.
Qed.

Lemma listo_corregirImagenes (imgs : list Imagen) :
  forall n d, listo (fun _ => True) (corregirImagenes imgs n d).
Proof.
  induction imgs as [|img rest IH]; intros n d; simpl.
  - now apply listo_ret.
  - apply (listo_bind (fun _ => True)).
    + unfold corregirImagen. destruct (_ && _).
      * apply (listo_bind (fun _ => True)); [apply listo_Date_now|].
        intros t _. now apply listo_ret.
      * now apply listo_ret.
    + intros [[i t] d'] _.
      apply (listo_bind (fun _ => True)); [apply IH|].
      intros [[r t'] d''] _. now apply listo_ret.
Qed.

Lemma listo_fixLoop (cs : list Computador) :
  forall a n, listo (fun _ => True) (fixLoop cs a n).
Proof.
  induction cs as [|c rest IH]; intros a n; simpl.
  - now apply listo_ret.
  - destruct (imagenes c) as [imgs|]; [|apply IH].
    apply (listo_bind (fun _ => True)); [apply listo_corregirImagenes|].
    intros [[i t] [|]] _; [|apply IH].
    apply (listo_bind (fun _ => True)).
    + apply listo_remote, listo_state. reflexivity.
    + intros [err|u] _; apply IH.
Qed.

Lemma listo_checkDatabase (Q : Respuesta -> Prop) (next : M Respuesta) :
  listo Q next -> listo Q (checkDatabase next).
Proof. intros H w Hw. unfold checkDatabase. rewrite Hw. now apply H. Qed.

Lemma listo_checkDatabaseExt (Q : RespuestaExt -> Prop)
  (next : M RespuestaExt) :
  listo Q next -> listo Q (checkDatabaseExt next).
Proof. intros H w Hw. unfold checkDatabaseExt. rewrite Hw. now apply H. Qed.

Lemma handleSupabaseError_cuerpo (e : PgError) :
  cuerpo (handleSupabaseError e) <> BdNoDisponible.
Proof.
  unfold handleSupabaseError.
  destruct (code e =? "23505"); [discriminate|].
  destruct (code e =? "23514"); [discriminate|].
  destruct (code e =? "23502"); discriminate.
Qed.

Lemma listo_db (A : Type) (f : World -> (PgError + A) * World) :
  (forall w, dbInitialized (snd (f w)) = dbInitialized w) ->
  listo (fun _ => True) (remote f).
Proof. intros H. now apply listo_remote, listo_state. Qed.

Lemma listo_db_insert (b : Body.t) (imgs : list Imagen) :
  listo (fun _ => True) (db_insert pg_numeric b imgs).
Proof.
  apply listo_db. intros w.
  destruct (columnas pg_numeric b) as [e|fila]; [reflexivity|].
  now destruct (insertar_frame fila imgs w) as (D & _).
Qed.

Lemma listo_db_update (b : Body.t) (imgs : list Imagen) (t : N) (i : Z) :
  listo (fun _ => True) (db_update pg_numeric b imgs t i).
Proof.
  apply listo_db. intros w.
  destruct (negb (int4 i)); [reflexivity|].
  destruct (columnas pg_numeric b) as [e|fila]; [reflexivity|].
  unfold modificar.
  destruct (find (hasId i) (tabla w)); [|reflexivity].
  cbv zeta. destruct (negb _); [reflexivity|].
  destruct (existsb _ _); reflexivity.
Qed.

Lemma listo_post_fix_imagenes :
  listo (fun r => cuerpo r <> BdNoDisponible) post_fix_imagenes.
Proof.
  apply listo_checkDatabase.
  apply (listo_bind (fun _ => True)); [now apply listo_db|].
  intros [e|cs] _.
  - apply (listo_bind (fun _ => True)); [apply listo_Date_now|].
    intros t _. apply listo_ret. discriminate.
  - apply (listo_bind (fun _ => True)); [apply listo_fixLoop|].
    intros [a n] _.
    apply (listo_bind (fun _ => True)); [apply listo_Date_now|].
    intros t _. apply listo_ret. discriminate.
Qed.

Lemma listo_get_computadores (q : Query.t) :
  listo (fun r => cuerpo r <> BdNoDisponible) (get_computadores q).
Proof.
  apply listo_checkDatabase.
  apply (listo_bind (fun _ => True)); [now apply listo_db|].
  intros [e|data] _.
  - apply listo_ret, handleSupabaseError_cuerpo.
  - intros w Hw. split; [discriminate | exact Hw].
Qed.

Lemma listo_post_computadores (b : Body.t) :
  listo (fun r => cuerpo r <> BdNoDisponible) (post_computadores b).
Proof.
  apply listo_checkDatabase.
  destruct (negb _ || _ || _ || _ || _ || _).
  - apply listo_ret. discriminate.
  - apply (listo_bind (fun _ => True)).
    + destruct (Body.asArray (Body.imagenes b));
        [apply listo_createLoop | now apply listo_ret].
    + intros g _.
      apply (listo_bind (fun _ => True)); [apply listo_db_insert|].
      intros [e|data] _; apply listo_ret;
        [apply handleSupabaseError_cuerpo | discriminate].
Qed.

Lemma listo_put_computadores (i : Z) (b : Body.t) :
  listo (fun r => cuerpo r <> BdNoDisponible) (put_computadores i b).
Proof.
  apply listo_checkDatabase.
  apply (listo_bind (fun _ => True)).
  - destruct (Body.asArray (Body.imagenes b));
      [apply listo_updateLoop | now apply listo_ret].
  - intros g _.
    apply (listo_bind (fun _ => True)); [apply listo_Date_now|].
    intros t _.
    apply (listo_bind (fun _ => True)); [apply listo_db_update|].
    intros [e|[|c l]] _; apply listo_ret;
      [apply handleSupabaseError_cuerpo | discriminate | discriminate].
Qed.

Lemma listo_delete_computadores (i : Z) :
  listo (fun r => cuerpo r <> BdNoDisponible) (delete_computadores i).
Proof.
  apply listo_checkDatabase.
  apply (listo_bind (fun _ => True)).
  - unfold db_select_imagenes.
    apply (listo_bind (fun _ => True)); [apply listo_remoteCall|].
    intros [e|] _; [now apply listo_ret|].
    apply listo_state. intros w.
    destruct (negb (int4 i)); [reflexivity|].
    destruct (filter (hasId i) (tabla w)) as [|c [|c' l]]; reflexivity.
  - intros computador _.
    apply (listo_bind (fun _ => True)).
    { apply listo_db. intros w. now destruct (negb (int4 i)). }
    intros [e|[|c l]] _.
    + apply listo_ret, handleSupabaseError_cuerpo.
    + apply listo_ret. discriminate.
    + apply (listo_bind (fun _ => True)).
      * destruct computador as [[imgs|]|];
          [apply listo_deleteLoop | now apply listo_ret | now apply listo_ret].
      * intros _ _. apply listo_ret. discriminate.
Qed.

Lemma ext_disponible (r : Respuesta) :
  cuerpo r <> BdNoDisponible -> ~ noDisponible (ext r).
Proof. unfold noDisponible. simpl. intros H E. inversion E. contradiction. Qed.

Lemma listo_ext (c : M Respuesta) :
  listo (fun r => cuerpo r <> BdNoDisponible) c ->
  listo (fun r => ~ noDisponible r) (r <- c ;; ret (ext r)).
Proof.
  intros H. apply (listo_bind _ _ _ _ H).
  intros r Hr. now apply listo_ret, ext_disponible.
Qed.

Lemma listo_atender (p : Peticion) :
  listo (fun r => ~ noDisponible r) (atender p).
Proof.
  destruct p; simpl.
  - apply listo_ext, listo_post_fix_imagenes.
  - apply listo_checkDatabaseExt.
    apply (listo_bind (fun _ => True)); [now apply listo_db|].
    intros [e|cs] _.
    + apply listo_ret. discriminate.
    + destruct (analizar cs 0 (mkConteo 0 0 0)) as [[an t] n].
      apply listo_ret. discriminate.
  - apply listo_ext, listo_get_computadores.
  - apply listo_ext, listo_post_computadores.
  - apply listo_ext, listo_put_computadores.
  - apply listo_ext, listo_delete_computadores.
  - apply listo_checkDatabaseExt.
    apply (listo_bind (fun _ => True)); [now apply listo_db|].
    intros [e|cs] _.
    + apply listo_ret, ext_disponible, handleSupabaseError_cuerpo.
    + apply (listo_bind (fun _ => True)); [apply listo_Date_now|].
      intros t _. apply listo_ret. discriminate.
  - apply listo_checkDatabaseExt.
    apply (listo_bind (fun _ => True)); [now apply listo_db|].
    intros [e|cs] _.
    + apply listo_ret, ext_disponible, handleSupabaseError_cuerpo.
    + apply listo_ret. discriminate.
Qed.

Lemma listo_atenderTodas (ps : list Peticion) :
  listo (Forall (fun r => ~ noDisponible r)) (atenderTodas ps).
Proof.
  induction ps as [|p rest IH]; simpl.
  - apply listo_ret. constructor.
  - apply (listo_bind _ _ _ _ (listo_atender p)). intros r Hr.
    apply (listo_bind _ _ _ _ IH). intros rs Hrs.
    apply listo_ret. now constructor.
Qed.

(** X1.  [startServer] leaves the server listening exactly when the
    probe of the table is answered without error, and then the table is
    marked ready.  From there on, whatever requests are served one after
    the other, none is answered with the 500 of [checkDatabase]: no route
    resets the flag. *)
Theorem server_listens_ready (w : World) :
  (startServer w = None <-> hd None (fallos w) <> None)
  /\ forall w',
       startServer w = Some w' ->
       dbInitialized w' = true
       /\ forall ps,
            Forall (fun r => ~ noDisponible r) (fst (atenderTodas ps w')).
Proof.
  unfold startServer, initializeSupabase, db_count, remote, bind, remoteCall,
    ret.
  destruct (hd None (fallos w)) as [e|]; simpl.
  - split.
    + split; [discriminate|]. destruct (code e =? "42P01"); reflexivity.
    + intros w'. destruct (code e =? "42P01"); discriminate.
  - split.
    + split; [discriminate | intros H; now contradiction H].
    + intros w' E. inversion E; subst w'. split; [reflexivity|].
      intros ps. now apply (listo_atenderTodas ps).
Qed.


(** *** GET /api/imagenes-status *)

Lemma clases_partition (l : list Imagen) :
  length (filter esSupabase l) + length (filter esOtra l)
  + length (filter esRota l) = length l.
Proof.
  induction l as [|img l IH]; simpl; [reflexivity|].
  assert (O : esOtra img = negb (esSupabase img) && negb (esRota img))
    by reflexivity.
  assert (R : esSupabase img = true -> esRota img = false)
    by (intros S; unfold esRota; now rewrite S).
  rewrite O. destruct (esSupabase img); simpl.
  - rewrite (R eq_refl). simpl. lia.
  - destruct (esRota img); simpl; lia.
Qed.

Lemma filter_cons_length {A} (f : A -> bool) (x : A) (l : list A) :
  length (filter f (x :: l)) = length (filter f [x]) + length (filter f l).
Proof. simpl. destruct (f x); reflexivity. Qed.

Lemma clasificarImagen_spec (img : Imagen) (n : Conteo) :
  info_imagen (fst (clasificarImagen img n)) = img
  /\ imagenesSupabase (snd (clasificarImagen img n))
     = imagenesSupabase n + length (filter esSupabase [img])
  /\ imagenesLocales (snd (clasificarImagen img n))
     = imagenesLocales n + length (filter esOtra [img])
  /\ imagenesBrotas (snd (clasificarImagen img n))
     = imagenesBrotas n + length (filter esRota [img]).
Proof.
  unfold clasificarImagen, esOtra, esRota, esSupabase. simpl.
  destruct (JS.truthy (url img)
            && JS.includes (template (url img)) "supabase.co"); simpl.
  - repeat split; lia.
  - destruct (JS.truthy (url img)
              && JS.includes (template (url img)) "/uploads/"); simpl;
      repeat split; lia.
Qed.

Lemma clasificarImagenes_spec (imgs : list Imagen) :
  forall n,
    map info_imagen (fst (clasificarImagenes imgs n)) = imgs
    /\ imagenesSupabase (snd (clasificarImagenes imgs n))
       = imagenesSupabase n + length (filter esSupabase imgs)
    /\ imagenesLocales (snd (clasificarImagenes imgs n))
       = imagenesLocales n + length (filter esOtra imgs)
    /\ imagenesBrotas (snd (clasificarImagenes imgs n))
       = imagenesBrotas n + length (filter esRota imgs).
Proof.
  induction imgs as [|img rest IH]; intros n.
  - simpl. repeat split; lia.
  - rewrite !(filter_cons_length _ img rest).
    cbn [clasificarImagenes].
    destruct (clasificarImagen_spec img n) as (A & B & C & D).
    destruct (clasificarImagen img n) as [info n1]. simpl in A, B, C, D.
    destruct (IH n1) as (A' & B' & C' & D').
    destruct (clasificarImagenes rest n1) as [infos n2].
    simpl in A', B', C', D' |- *. rewrite A, A', B', C', D', B, C, D.
    repeat split; lia.
Qed.

Lemma analizar_spec (cs : list Computador) :
  forall t n,
    let R := analizar cs t n in
    map an_id (fst (fst R)) = map id cs
    /\ map cantidad_imagenes (fst (fst R))
       = map (fun c => length (imagenesDe c)) cs
    /\ snd (fst R) = t + length (todas cs)
    /\ imagenesSupabase (snd R)
       = imagenesSupabase n + length (filter esSupabase (todas cs))
    /\ imagenesLocales (snd R)
       = imagenesLocales n + length (filter esOtra (todas cs))
    /\ imagenesBrotas (snd R)
       = imagenesBrotas n + length (filter esRota (todas cs)).
Proof.
  induction cs as [|c rest IH]; intros t n; simpl.
  - repeat split; lia.
  - fold (imagenesDe c).
    destruct (clasificarImagenes_spec (imagenesDe c) n) as (_ & B & C & D).
    destruct (clasificarImagenes (imagenesDe c) n) as [infos n1].
    simpl in B, C, D.
    destruct (IH (t + length (imagenesDe c)) n1) as (I1 & I2 & I3 & I4 & I5 & I6).
    destruct (analizar rest (t + length (imagenesDe c)) n1) as [[an t'] n2].
    simpl in *. rewrite I1, I2, I3, I4, I5, I6, B, C, D.
    rewrite !filter_app, !length_app. repeat split; lia.
Qed.

Lemma todas_filter (T : list Computador) :
  todas (filter (fun c => isSome (imagenes c)) T) = todas T.
Proof.
  induction T as [|c T IH]; simpl; [reflexivity|].
  destruct (imagenes c) eqn:E; simpl.
  - now rewrite IH.
  - unfold imagenesDe at 1. rewrite E. exact IH.
Qed.

Lemma totalImagenes_todas (T : list Computador) :
  totalImagenes T = length (todas T).
Proof.
  induction T as [|c T IH]; simpl; [reflexivity|].
  rewrite length_app, IH. unfold imagenesDe. now destruct (imagenes c).
Qed.

Lemma filter_nonempty {A} (f : A -> bool) (l : list A) :
  (0 <? length (filter f l))%nat = true <-> exists x, In x l /\ f x = true.
Proof.
  split.
  - intros H. apply Nat.ltb_lt in H.
    destruct (filter f l) as [|x r] eqn:E; [simpl in H; lia|].
    exists x. apply filter_In. rewrite E. now left.
  - intros (x & Hx & Hf). apply Nat.ltb_lt.
    assert (Hin : In x (filter f l)) by (apply filter_In; auto).
    destruct (filter f l); [contradiction | simpl; lia].
Qed.

(** X3.  With the rows loaded, the status report classifies every image
    of every row with an image sequence into exactly one of supabase,
    local and broken: the three counts are the sizes of the three classes
    and add up to [total_imagenes], which is the total the reconciliation
    reports as scanned.  [necesita_fix] holds exactly when some image is
    broken, that is, its url holds [/uploads/] and not [supabase.co].
    The report changes neither the table nor the stored files. *)
Theorem imagenes_status_partition (w : World) :
  dbInitialized w = true ->
  hd None (fallos w) = None ->
  exists s,
    fst (get_imagenes_status w) = mkRespuestaExt 200 (EstadoImagenes s)
    /\ Status.total_equipos s
       = length (filter (fun c => isSome (imagenes c)) (tabla w))
    /\ Status.total_imagenes s = totalImagenes (tabla w)
    /\ Status.imagenes_supabase s
       = length (filter esSupabase (todas (tabla w)))
    /\ Status.imagenes_locales s = length (filter esOtra (todas (tabla w)))
    /\ Status.imagenes_rotas s = length (filter esRota (todas (tabla w)))
    /\ Status.imagenes_supabase s + Status.imagenes_locales s
       + Status.imagenes_rotas s = Status.total_imagenes s
    /\ (Status.necesita_fix s = true <->
        exists img, In img (todas (tabla w)) /\ esRota img = true)
    /\ tabla (snd (get_imagenes_status w)) = tabla w
    /\ bucket (snd (get_imagenes_status w)) = bucket w
    /\ disco (snd (get_imagenes_status w)) = disco w.
Proof.
  intros Hdb Hf.
  unfold get_imagenes_status, checkDatabaseExt. rewrite Hdb.
  unfold bind, db_select_con_imagenes, remote, bind, remoteCall, ret.
  rewrite Hf. simpl.
  set (cs := filter (fun c => isSome (imagenes c)) (tabla w)).
  destruct (analizar_spec cs 0 (mkConteo 0 0 0)) as (_ & _ & T & S & L & R).
  destruct (analizar cs 0 (mkConteo 0 0 0)) as [[an t] n].
  simpl in T, S, L, R. unfold cs in T, S, L, R.
  rewrite todas_filter in T, S, L, R.
  eexists. split; [reflexivity|]. simpl.
  rewrite T, S, L, R, totalImagenes_todas.
  repeat split; auto.
  - apply clases_partition.
  - apply filter_nonempty.
  - apply filter_nonempty.
Qed.

(** *** GET /api/estadisticas *)

Lemma cuenta_le (f : Computador -> bool) (l : list Computador) :
  cuenta f l <= length l.
Proof. apply filter_length_le. Qed.

Lemma estados_partition (l : list Computador) :
  Forall (fun c => estadoValido (estado c) = true) l ->
  cuenta (fun c => estado c =? "operativo") l
  + cuenta (fun c => estado c =? "mantenimiento") l
  + cuenta (fun c => estado c =? "dañado") l = length l.
Proof.
  unfold cuenta. induction 1 as [|c l Hc _ IH]; simpl; [reflexivity|].
  unfold estadoValido in Hc.
  destruct (String.eqb_spec (estado c) "operativo") as [E|_].
  - rewrite E. simpl. lia.
  - destruct (String.eqb_spec (estado c) "mantenimiento") as [E|_].
    + rewrite E. simpl. lia.
    + simpl in Hc. rewrite Hc. simpl. lia.
Qed.

Lemma windows_partition (l : list Computador) :
  Forall (fun c => windowsValido (windows_update c) = true) l ->
  cuenta (fun c => windows_update c =? "si") l
  + cuenta (fun c => windows_update c =? "no") l = length l.
Proof.
  unfold cuenta. induction 1 as [|c l Hc _ IH]; simpl; [reflexivity|].
  unfold windowsValido in Hc.
  destruct (String.eqb_spec (windows_update c) "si") as [E|_].
  - rewrite E. simpl. lia.
  - simpl in Hc. rewrite Hc. simpl. lia.
Qed.

Lemma suma_imagenes (l : list Computador) :
  forall acc,
    fold_left (fun sum c => sum + cantidadImagenes c) l acc
    = acc + totalImagenes l.
Proof.
  induction l as [|c l IH]; intros acc; simpl; [lia|].
  rewrite IH. unfold cantidadImagenes. destruct (imagenes c); lia.
Qed.

Lemma con_imagenes_le (l : list Computador) :
  cuenta (fun c => (0 <? cantidadImagenes c)%nat) l <= totalImagenes l.
Proof.
  unfold cuenta. induction l as [|c l IH]; simpl; [lia|].
  unfold cantidadImagenes at 1.
  destruct (imagenes c) as [imgs|]; simpl.
  - destruct imgs; simpl; lia.
  - lia.
Qed.

(** X4.  With the rows loaded, the statistics are consistent: [total]
    is the number of rows; when every row satisfies the CHECK on
    [estado] the three state counts add up to [total], and likewise the
    two Windows Update counts; each of the other row counts is at most
    [total]; [total_imagenes] is the number of images of all rows and is
    at least the number of rows that have an image.  The two duplicated
    properties repeat [total] and [windows_si].  The table is not
    changed. *)
Theorem estadisticas_consistent (w : World) :
  dbInitialized w = true ->
  hd None (fallos w) = None ->
  exists s,
    fst (get_estadisticas w) = mkRespuestaExt 200 (Estadisticas s)
    /\ Stats.total s = length (tabla w)
    /\ Stats.totalEquipos s = Stats.total s
    /\ Stats.windowsActualizados s = Stats.windows_si s
    /\ (Forall (fun c => estadoValido (estado c) = true) (tabla w) ->
        Stats.operativos s + Stats.mantenimiento s + Stats.danados s
        = Stats.total s)
    /\ (Forall (fun c => windowsValido (windows_update c) = true) (tabla w) ->
        Stats.windows_si s + Stats.windows_no s = Stats.total s)
    /\ Stats.revisiones_hoy s <= Stats.total s
    /\ Stats.con_problemas s <= Stats.total s
    /\ Stats.con_ubicacion s <= Stats.total s
    /\ Stats.con_imagenes s <= Stats.total s
    /\ Stats.con_imagenes s <= Stats.total_imagenes s
    /\ Stats.total_imagenes s = totalImagenes (tabla w)
    /\ tabla (snd (get_estadisticas w)) = tabla w.
Proof.
  intros Hdb Hf.
  unfold get_estadisticas, checkDatabaseExt. rewrite Hdb.
  unfold bind, db_select_todos, remote, bind, remoteCall, ret, Date_now.
  rewrite Hf. simpl.
  eexists. split; [reflexivity|]. simpl. rewrite suma_imagenes.
  repeat split; auto using cuenta_le, estados_partition, windows_partition,
    con_imagenes_le.
Qed.

(** *** GET /api/export/excel *)

Lemma orElse_nonempty (v : option string) (d : string) :
  d <> EmptyString -> JS.orElse v d <> EmptyString.
Proof.
  intros Hd. unfold JS.orElse. destruct v as [s|]; [|exact Hd].
  destruct (String.eqb_spec s EmptyString); assumption.
Qed.

(** X5.  With the rows loaded, the export has one row per record, in
    the order of the list route without filters: most recently reviewed
    first.  In every export row the five optional text columns are
    filled, with the placeholder when the record has no value, and the
    image count is the length of the record's image sequence (0 when it
    has none).  The table is not changed. *)
Theorem export_follows_list (w : World) :
  dbInitialized w = true ->
  hd None (fallos w) = None ->
  exists data,
    fst (get_export_excel w)
    = mkRespuestaExt 200 (Exportacion (map excelRow data))
    /\ cuerpo (fst (get_computadores (Query.mk None None None None None) w))
       = Listado
           (map (procesarComputador
                   (snd (get_computadores
                           (Query.mk None None None None None) w)))
                data)
    /\ Permutation (tabla w) data
    /\ StronglySorted masReciente data
    /\ Forall
         (fun c =>
            Excel.id_equipo (excelRow c) = equipo_id c
            /\ Excel.cantidad_imagenes (excelRow c) = length (imagenesDe c)
            /\ Excel.placa_ml (excelRow c) <> EmptyString
            /\ Excel.ubicacion (excelRow c) <> EmptyString
            /\ Excel.problemas (excelRow c) <> EmptyString
            /\ Excel.observaciones (excelRow c) <> EmptyString
            /\ Excel.revisor (excelRow c) <> EmptyString)
         data
    /\ tabla (snd (get_export_excel w)) = tabla w.
Proof.
  intros Hdb Hf.
  unfold get_export_excel, get_computadores, checkDatabaseExt, checkDatabase.
  rewrite Hdb.
  unfold bind, db_select, remote, bind, remoteCall, ret. rewrite Hf. simpl.
  assert (E : filter (fun _ : Computador => true) (tabla w) = tabla w).
  { apply forallb_filter_id. now apply forallb_forall. }
  rewrite E.
  exists (ordenarDesc (tabla w)).
  split; [reflexivity|]. split; [reflexivity|].
  split; [apply ordenarDesc_perm|]. split; [apply ordenarDesc_sorted|].
  split; [|reflexivity].
  apply Forall_forall. intros c _. simpl.
  split; [reflexivity|].
  split; [unfold cantidadImagenes, imagenesDe; now destruct (imagenes c)|].
  repeat split; repeat apply orElse_nonempty; discriminate.
Qed.

(** *** PUT /api/computadores/:id, as a whole *)

Lemma updateLoop_cons (e : option string) (i : N) (img : Imagen)
  (rest acc : list Imagen) (w : World) :
  updateLoop e i (img :: rest) acc w
  = updateLoop e (i + 1) rest (acc ++ fst (updateStep e i img w))
      (snd (updateStep e i img w)).
Proof.
  simpl. unfold updateStep, traeDatos.
  destruct (JS.truthy (base64 img) && _).
  - unfold bind.
    destruct (saveImageToSupabase _ _ _ w) as [[r|] w1]; simpl;
      [reflexivity | now rewrite app_nil_r].
  - destruct (JS.truthy (filename img)); [|simpl; now rewrite app_nil_r].
    destruct (JS.startsWith _ "http").
    + unfold bind. destruct (fechaSubida img w) as [f w1]. reflexivity.
    + destruct (existsSync _ w); [|simpl; now rewrite app_nil_r].
      unfold bind. destruct (fechaSubida img w) as [f w1]. reflexivity.
Qed.

Lemma updateLoop_acc_eq (e : option string) (imgs : list Imagen) :
  forall i acc w,
    updateLoop e i imgs acc w
    = ((acc ++ fst (updateLoop e i imgs [] w))%list,
       snd (updateLoop e i imgs [] w)).
Proof.
  induction imgs as [|img rest IH]; intros i acc w.
  - simpl. now rewrite app_nil_r.
  - rewrite !updateLoop_cons.
    rewrite (IH _ (acc ++ _)%list), (IH _ ([] ++ _)%list). simpl.
    now rewrite <- app_assoc.
Qed.

Lemma decode_traeDatos (v : option string) (img : Imagen)
  (x : string * list Byte.byte) :
  decodeImage (base64 img) = Some x -> traeDatos img = true.
Proof.
  intros H. unfold traeDatos. rewrite (decode_truthy _ _ H).
  destruct x as [t b].
  apply decodeImage_sound in H as (d & -> & _). reflexivity.
Qed.

Lemma fechaSubida_soloReloj (img : Imagen) (w : World) :
  soloReloj w (snd (fechaSubida img w)).
Proof.
  unfold fechaSubida. destruct (JS.truthy (fecha_subida img)); repeat split.
Qed.

(** One turn: table, key sequence and local files stay; one remote
    answer is used when the entry decodes; the bucket grows by at most
    one object, under a key that was free; at most one descriptor is
    appended, and it comes from the entry. *)
Lemma updateStep_spec (e : option string) (i : N) (img : Imagen) (w : World) :
  let R := updateStep e i img w in
  mismoAlmacen w (snd R)
  /\ fallos (snd R)
     = skipn (if isSome (decodeImage (base64 img)) then 1 else 0) (fallos w)
  /\ (exists objs,
         bucket (snd R) = (bucket w ++ objs)%list
         /\ Forall (fun o => hasKey (fst o) (bucket w) = false) objs)
  /\ length (fst R) <= 1
  /\ Forall (origen e img i) (fst R).
Proof.
  unfold updateStep.
  pose proof (saveImageToSupabase_spec (base64 img)
                (template e ++ "-update") (i + 1) w) as S.
  destruct (decodeImage (base64 img)) as [[sub bytes]|] eqn:D.
  - rewrite (decode_traeDatos (base64 img) img _ D).
    simpl in S. destruct S as (Fr & Ff & S). unfold bind.
    destruct (saveImageToSupabase _ _ _ w) as [[r|] w1]; simpl in *.
    + destruct S as [[Hn _] | (Hs & Hk & Hb)]; [discriminate|].
      inversion Hs; subst r; clear Hs. simpl.
      split; [destruct Fr as (A & B & C & E'); repeat split; assumption|].
      split; [now rewrite Ff; destruct (fallos w)|].
      split.
      { eexists. split; [exact Hb|]. repeat constructor. exact Hk. }
      split; [lia|]. constructor; [|constructor].
      left. apply decodeImage_sound in D as (payload & Hp & _).
      exists sub, payload, (ahora w). repeat split; assumption.
    + destruct S as [[_ Hb] | (Hs & _)]; [|discriminate].
      split; [exact Fr|]. split; [now rewrite Ff; destruct (fallos w)|].
      split; [exists []; rewrite app_nil_r; split; [exact Hb | constructor]|].
      split; [lia | constructor].
  - assert (Nada : forall w0 : World,
              mismoAlmacen w w0 -> fallos w0 = fallos w ->
              bucket w0 = bucket w ->
              mismoAlmacen w w0
              /\ fallos w0 = skipn 0 (fallos w)
              /\ (exists objs,
                     bucket w0 = (bucket w ++ objs)%list
                     /\ Forall (fun o => hasKey (fst o) (bucket w) = false)
                          objs)).
    { intros w0 A B C. split; [exact A|]. split; [exact B|].
      exists []. rewrite app_nil_r. split; [exact C | constructor]. }
    destruct (traeDatos img) eqn:Tr.
    + unfold bind. rewrite S. simpl.
      destruct (Nada w) as (A & B & C); try reflexivity;
        [apply mismoAlmacen_refl|].
      split; [exact A|]. split; [exact B|]. split; [exact C|].
      split; [simpl; lia | constructor].
    + destruct (JS.truthy (filename img)) eqn:Tf.
      * assert (Reloj : forall x : string -> Imagen,
                  (forall f, filename (x f) = filename img) ->
                  let R := (f <- fechaSubida img ;; ret [x f]) w in
                  mismoAlmacen w (snd R)
                  /\ fallos (snd R) = skipn 0 (fallos w)
                  /\ (exists objs,
                         bucket (snd R) = (bucket w ++ objs)%list
                         /\ Forall (fun o => hasKey (fst o) (bucket w) = false)
                              objs)
                  /\ length (fst R) <= 1
                  /\ Forall (origen e img i) (fst R)).
        { intros x Hx. unfold bind.
          destruct (fechaSubida_soloReloj img w) as (A & B & C & E' & F & G).
          destruct (fechaSubida img w) as [f w1]. simpl in *.
          destruct (Nada w1) as (N1 & N2 & N3); auto; [repeat split; auto|].
          split; [exact N1|]. split; [exact N2|]. split; [exact N3|].
          split; [lia|]. constructor; [|constructor].
          right. repeat split; auto. }
        destruct (JS.startsWith _ "http").
        -- apply (Reloj (fun f => mkImagen _ _ _ _ (Some f) None None None)).
           reflexivity.
        -- destruct (existsSync _ w).
           ++ apply (Reloj (fun f => mkImagen _ _ _ _ (Some f) None None None)).
              reflexivity.
           ++ simpl. destruct (Nada w) as (A & B & C); try reflexivity;
                [apply mismoAlmacen_refl|].
              split; [exact A|]. split; [exact B|]. split; [exact C|].
              split; [lia | constructor].
      * simpl. destruct (Nada w) as (A & B & C); try reflexivity;
          [apply mismoAlmacen_refl|].
        split; [exact A|]. split; [exact B|]. split; [exact C|].
        split; [lia | constructor].
Qed.

Lemma updateLoop_effect (e : option string) (imgs : list Imagen) :
  forall i w,
    let R := updateLoop e i imgs [] w in
    mismoAlmacen w (snd R)
    /\ fallos (snd R) = skipn (decodificables imgs) (fallos w)
    /\ (exists objs,
           bucket (snd R) = (bucket w ++ objs)%list
           /\ Forall (fun o => hasKey (fst o) (bucket w) = false) objs)
    /\ length (fst R) <= length imgs
    /\ Forall
         (fun x =>
            exists k img,
              nth_error imgs k = Some img
              /\ origen e img (i + N.of_nat k) x)
         (fst R).
Proof.
  induction imgs as [|img rest IH]; intros i w R; subst R.
  - simpl. split; [apply mismoAlmacen_refl|]. split; [reflexivity|].
    split; [exists []; now rewrite app_nil_r|]. split; [lia | constructor].
  - rewrite updateLoop_cons, updateLoop_acc_eq, decodificables_cons.
    destruct (updateStep_spec e i img w)
      as (F1 & S1 & (o1 & B1 & K1) & L1 & O1).
    destruct (updateStep e i img w) as [xs w1]. simpl in *.
    destruct (IH (i + 1)%N w1) as (F2 & S2 & (o2 & B2 & K2) & L2 & O2).
    split; [eapply mismoAlmacen_trans; eassumption|].
    split; [rewrite S2, S1, skipn_skipn; f_equal; lia|].
    split.
    { exists (o1 ++ o2)%list. rewrite B2, B1, app_assoc.
      split; [reflexivity|]. apply Forall_app. split; [exact K1|].
      revert K2. apply Forall_impl. intros o Ho. rewrite B1, hasKey_app in Ho.
      now apply orb_false_iff in Ho. }
    split; [rewrite length_app; lia|].
    apply Forall_app. split.
    + revert O1. apply Forall_impl. intros x Hx.
      exists 0, img. split; [reflexivity|].
      now replace (i + N.of_nat 0)%N with i by lia.
    + revert O2. apply Forall_impl. intros x (k & im & Hk & Ho).
      exists (S k), im. split; [exact Hk|].
      now replace (i + N.of_nat (S k))%N with (i + 1 + N.of_nat k)%N by lia.
Qed.

Lemma modificar_frame (b : Body.t) (imgs : list Imagen) (t : N) (i : Z)
  (w : World) :
  let R := modificar b imgs t i w in
  bucket (snd R) = bucket w
  /\ disco (snd R) = disco w
  /\ (forall c, In c (tabla w) -> id c <> i -> In c (tabla (snd R)))
  /\ ((forall c, In c (tabla w) -> id c <> i) ->
      fst R = inr [] /\ tabla (snd R) = tabla w).
Proof.
  unfold modificar.
  destruct (find (hasId i) (tabla w)) as [c0|] eqn:F.
  - cbv zeta. destruct (negb _); simpl.
    + split; [reflexivity|]. split; [reflexivity|]. split; [auto|].
      intros Hno. apply find_some in F as [Hin Hid].
      apply Z.eqb_eq in Hid. now elim (Hno c0 Hin).
    + destruct (existsb _ _); simpl.
      * split; [reflexivity|]. split; [reflexivity|]. split; [auto|].
        intros Hno. apply find_some in F as [Hin Hid].
        apply Z.eqb_eq in Hid. now elim (Hno c0 Hin).
      * split; [reflexivity|]. split; [reflexivity|]. split.
        -- intros c Hc Hi. apply in_map_iff. exists c. split; [|exact Hc].
           unfold hasId. apply Z.eqb_neq in Hi. now rewrite Hi.
        -- intros Hno. apply find_some in F as [Hin Hid].
           apply Z.eqb_eq in Hid. now elim (Hno c0 Hin).
  - simpl. repeat split; auto.
Qed.

Lemma db_update_frame (b : Body.t) (imgs : list Imagen) (t : N) (i : Z)
  (w : World) :
  let R := db_update pg_numeric b imgs t i w in
  bucket (snd R) = bucket w
  /\ disco (snd R) = disco w
  /\ (forall c, In c (tabla w) -> id c <> i -> In c (tabla (snd R)))
  /\ ((forall c, In c (tabla w) -> id c <> i) ->
      hd None (fallos w) = None ->
      int4 i = true ->
      tiposValidos b = true ->
      fst R = inr [] /\ tabla (snd R) = tabla w).
Proof.
  unfold db_update, remote, bind, remoteCall, ret.
  destruct (hd None (fallos w)) as [err|] eqn:H.
  { simpl. split; [reflexivity|]. split; [reflexivity|]. split; [auto|].
    intros _ D. discriminate D. }
  destruct (int4 i) eqn:Hi; cbn [negb].
  2:{ simpl. split; [reflexivity|]. split; [reflexivity|]. split; [auto|].
      intros _ _ D. discriminate D. }
  destruct (columnas pg_numeric b) as [e|fila] eqn:Hcol.
  { simpl. split; [reflexivity|]. split; [reflexivity|]. split; [auto|].
    intros _ _ _ Ht. destruct (columnas_ok b Ht) as (la & lo & E).
    rewrite E in Hcol. discriminate Hcol. }
  destruct (modificar_frame fila imgs t i (setFallos (tl (fallos w)) w))
    as (B & D & T & N).
  cbv zeta in *. simpl in B, D, T, N.
  split; [exact B|]. split; [exact D|]. split; [exact T|].
  intros Hno _ _ _. exact (N Hno).
Qed.

Lemma put_computadores_run (i : Z) (b : Body.t) (w : World) :
  dbInitialized w = true ->
  let L := updateLoop (Body.equipo_id b) 0 (imagenesPedidas b) [] w in
  let U := db_update pg_numeric b (fst L) (ahora (snd L)) i (snd (Date_now (snd L))) in
  put_computadores i b w
  = (match fst U with
     | inl error => handleSupabaseError error
     | inr [] => mkRespuesta 404 RegistroNoEncontrado
     | inr (_ :: _) =>
         mkRespuesta 200 (RegistroActualizado (length (fst L)))
     end, snd U).
Proof.
  intros Hdb L U. subst U L.
  unfold put_computadores, checkDatabase, imagenesPedidas. rewrite Hdb.
  unfold bind.
  destruct (Body.asArray (Body.imagenes b)) as [imgs|].
  - destruct (updateLoop (Body.equipo_id b) 0 imgs [] w) as [g w1]. simpl.
    destruct (db_update pg_numeric b g (ahora w1) i _) as [[err|[|c l]] w2]; reflexivity.
  - simpl.
    destruct (db_update pg_numeric b [] (ahora w) i _) as [[err|[|c l]] w2]; reflexivity.
Qed.

(** X6.  An update never removes anything from storage and never
    touches another record: whatever the request and the outcome, the
    local files are as before, every object of the bucket is still
    there (new ones are added under keys that were free), and every row
    with another id is still in the table. *)
Theorem update_never_deletes (i : Z) (b : Body.t) (w : World) :
  disco (snd (put_computadores i b w)) = disco w
  /\ (exists objs,
         bucket (snd (put_computadores i b w)) = (bucket w ++ objs)%list
         /\ Forall (fun o => hasKey (fst o) (bucket w) = false) objs)
  /\ forall c, In c (tabla w) -> id c <> i ->
               In c (tabla (snd (put_computadores i b w))).
Proof.
  destruct (dbInitialized w) eqn:Hdb.
  - rewrite (put_computadores_run i b w Hdb). cbv zeta.
    destruct (updateLoop_effect (Body.equipo_id b) (imagenesPedidas b) 0%N w)
      as ((_ & Ht & _ & Hd) & _ & (objs & B & K) & _).
    set (L := updateLoop (Body.equipo_id b) 0 (imagenesPedidas b) [] w) in *.
    destruct (db_update_frame b (fst L) (ahora (snd L)) i
                (snd (Date_now (snd L)))) as (B' & D' & T' & _).
    simpl in B', D', T' |- *. rewrite B', D', Hd, B.
    split; [reflexivity|]. split; [now exists objs|].
    intros c Hc Hi. apply T'; [now rewrite Ht | exact Hi].
  - unfold put_computadores, checkDatabase. rewrite Hdb. simpl.
    split; [reflexivity|]. split; [|auto].
    exists []. now rewrite app_nil_r.
Qed.

(** The first entry of an update, when it carries data the codec
    accepts, its upload is answered and its cleaned key is free: its
    bytes are in the bucket when the loop ends. *)
Lemma updateLoop_first (e : option string) (img : Imagen)
  (rest : list Imagen) (w : World) (sub : string) (bytes : list Byte.byte) :
  decodeImage (base64 img) = Some (sub, bytes) ->
  hd None (fallos w) = None ->
  let key := clave (template e ++ "-update") (ahora w) 1 sub in
  hasKey (removeEmptyFolders key) (bucket w) = false ->
  In (removeEmptyFolders key, bytes)
     (bucket (snd (updateLoop e 0 (img :: rest) [] w))).
Proof.
  intros D F key K. rewrite updateLoop_cons.
  rewrite (updateLoop_acc_eq e rest (0 + 1)%N _ _).
  destruct (updateLoop_effect e rest (0 + 1)%N (snd (updateStep e 0 img w)))
    as (_ & _ & (objs & B & _) & _).
  cbn [snd]. rewrite B. apply in_or_app; left. clear B objs.
  unfold updateStep. rewrite (decode_traeDatos (base64 img) img _ D).
  unfold bind.
  pose proof (saveImageToSupabase_ok (base64 img) (template e ++ "-update")
                (0 + 1)%N w sub bytes D F K) as Ok.
  pose proof (saveImageToSupabase_spec (base64 img)
                (template e ++ "-update") (0 + 1)%N w) as S.
  rewrite D in S. cbv zeta in S. destruct S as (_ & _ & S).
  destruct S as [[Hn _] | (_ & _ & Hb)]; [rewrite Ok in Hn; discriminate|].
  destruct (saveImageToSupabase (base64 img) (template e ++ "-update")
              (0 + 1) w) as [o w1].
  cbn [fst snd] in *. subst o. unfold Date_now, ret. cbn [fst snd].
  simpl bucket. rewrite Hb. apply in_or_app; right. now left.
Qed.

(** X7.  An update of an id in the range of the column that no row has,
    with values that fit their columns, is answered 404 and leaves the
    table as it was.  The images with new data are uploaded all the
    same: the bucket is the one the upload loop leaves, and the first
    entry, when it carries data the codec accepts, its upload is
    answered and its key is free, has its bytes in the bucket after the
    404.  The update call is the remote call after the uploads. *)
Theorem update_not_found (i : Z) (b : Body.t) (w : World) :
  dbInitialized w = true ->
  int4 i = true ->
  tiposValidos b = true ->
  (forall c, In c (tabla w) -> id c <> i) ->
  nth (decodificables (imagenesPedidas b)) (fallos w) None = None ->
  fst (put_computadores i b w) = mkRespuesta 404 RegistroNoEncontrado
  /\ tabla (snd (put_computadores i b w)) = tabla w
  /\ bucket (snd (put_computadores i b w))
     = bucket (snd (updateLoop (Body.equipo_id b) 0 (imagenesPedidas b)
                      [] w))
  /\ forall img rest subtype bytes,
       imagenesPedidas b = img :: rest ->
       decodeImage (base64 img) = Some (subtype, bytes) ->
       hd None (fallos w) = None ->
       let key := clave (template (Body.equipo_id b) ++ "-update")
                    (ahora w) 1 subtype in
       hasKey (removeEmptyFolders key) (bucket w) = false ->
       In (removeEmptyFolders key, bytes)
          (bucket (snd (put_computadores i b w))).
Proof.
  intros Hdb Hi Hty Hno Hf.
  rewrite (put_computadores_run i b w Hdb). cbv zeta.
  destruct (updateLoop_effect (Body.equipo_id b) (imagenesPedidas b) 0%N w)
    as ((_ & Ht & _ & _) & S & _).
  pose proof (updateLoop_first (Body.equipo_id b)) as First.
  set (L := updateLoop (Body.equipo_id b) 0 (imagenesPedidas b) [] w) in *.
  destruct (db_update_frame b (fst L) (ahora (snd L)) i
              (snd (Date_now (snd L)))) as (Bk & _ & _ & H).
  simpl in H, Bk |- *. destruct H as [E T]; auto.
  - intros c Hc. apply Hno. now rewrite <- Ht.
  - now rewrite S, hd_skipn_nth.
  - rewrite E, T, Bk. split; [reflexivity|]. split; [exact Ht|].
    split; [reflexivity|].
    intros img rest sub bytes Hp D F K. subst L. rewrite Hp.
    now apply First.
Qed.

(** X8.  In an update that is answered 200, every descriptor of the
    stored sequence comes from an entry of the submitted array: either
    it is the upload of an entry with data
    [data:image/<subtype>;base64,...] at 0-based position [k], stored
    under [<equipo_id>-update/<timestamp>-<k+1>.<subtype>] (with
    [undefined] for an absent [equipo_id]) and carrying the public URL of
    that key, or it is an entry without new data, kept under its own
    filename.  There are at most as many as entries, and the answer
    reports their number. *)
Theorem update_stored_origin (i : Z) (b : Body.t) (w : World) :
  status (fst (put_computadores i b w)) = 200 ->
  exists c finales,
    In c (tabla (snd (put_computadores i b w)))
    /\ id c = i
    /\ imagenes c = Some finales
    /\ cuerpo (fst (put_computadores i b w))
       = RegistroActualizado (length finales)
    /\ length finales <= length (imagenesPedidas b)
    /\ Forall
         (fun x =>
            exists k img,
              nth_error (imagenesPedidas b) k = Some img
              /\ origen (Body.equipo_id b) img (N.of_nat k) x)
         finales.
Proof.
  intros H200.
  destruct (put_200 i b w H200) as (finales & w1 & E & (c & Hc & Hid) & Hall & Hb).
  destruct (updateLoop_effect (Body.equipo_id b) (imagenesPedidas b) 0%N w)
    as (_ & _ & _ & L & O).
  assert (EL : updateLoop (Body.equipo_id b) 0 (imagenesPedidas b) [] w
               = (finales, w1)).
  { unfold imagenesPedidas.
    destruct (Body.asArray (Body.imagenes b)); [exact E | exact E]. }
  rewrite EL in L, O. simpl in L, O.
  exists c, finales. repeat split; auto.
Qed.

Lemma conservada_disco (w w' : World) (img : Imagen) :
  disco w' = disco w -> conservada w' img = conservada w img.
Proof. intros H. unfold conservada, existsSync. now rewrite H. Qed.

Lemma updateStep_sinDatos (e : option string) (i : N) (img : Imagen)
  (w : World) :
  traeDatos img = false ->
  soloReloj w (snd (updateStep e i img w))
  /\ map filename (fst (updateStep e i img w))
     = map filename (filter (conservada w) [img]).
Proof.
  intros H. unfold updateStep, conservada, rutaLocal. rewrite H. simpl.
  destruct (JS.truthy (filename img)); simpl;
    [|split; [apply soloReloj_refl | reflexivity]].
  destruct (JS.startsWith _ "http"); simpl.
  - unfold bind. pose proof (fechaSubida_soloReloj img w) as F.
    destruct (fechaSubida img w) as [f w1]. simpl. now split.
  - destruct (existsSync _ w); simpl;
      [|split; [apply soloReloj_refl | reflexivity]].
    unfold bind. pose proof (fechaSubida_soloReloj img w) as F.
    destruct (fechaSubida img w) as [f w1]. simpl. now split.
Qed.

Lemma updateLoop_sinDatos (e : option string) (imgs : list Imagen) :
  Forall (fun img => traeDatos img = false) imgs ->
  forall i w,
    soloReloj w (snd (updateLoop e i imgs [] w))
    /\ map filename (fst (updateLoop e i imgs [] w))
       = map filename (filter (conservada w) imgs).
Proof.
  induction 1 as [|img rest Hi _ IH]; intros i w.
  - simpl. split; [apply soloReloj_refl | reflexivity].
  - rewrite updateLoop_cons, updateLoop_acc_eq.
    destruct (updateStep_sinDatos e i img w Hi) as [F1 M1].
    destruct (updateStep e i img w) as [xs w1]. simpl fst in *. simpl snd in *.
    destruct (IH (i + 1)%N w1) as [F2 M2].
    split; [eapply soloReloj_trans; eassumption|].
    simpl app. rewrite map_app, M1, M2.
    assert (D : disco w1 = disco w) by apply F1.
    rewrite (filter_ext _ _ (fun x => conservada_disco w w1 x D)).
    change (img :: rest) with ([img] ++ rest)%list.
    now rewrite filter_app, map_app.
Qed.

(** X9.  In an update that is answered 200 and whose entries all come
    without new data, nothing is uploaded and the stored sequence holds,
    in the submitted order, exactly the entries that have a storage key
    which starts with [http] or names a file present in the upload
    directory: an entry without key, or whose local file is missing, is
    left out without notice. *)
Theorem update_keeps_existing (i : Z) (b : Body.t) (w : World) :
  status (fst (put_computadores i b w)) = 200 ->
  Forall (fun img => traeDatos img = false) (imagenesPedidas b) ->
  exists c finales,
    In c (tabla (snd (put_computadores i b w)))
    /\ id c = i
    /\ imagenes c = Some finales
    /\ map filename finales
       = map filename (filter (conservada w) (imagenesPedidas b))
    /\ bucket (snd (put_computadores i b w)) = bucket w.
Proof.
  intros H200 Hsin.
  destruct (put_200 i b w H200) as (finales & w1 & E & (c & Hc & Hid) & Hall & _).
  destruct (updateLoop_sinDatos (Body.equipo_id b) (imagenesPedidas b) Hsin
              0%N w) as [F M].
  assert (EL : updateLoop (Body.equipo_id b) 0 (imagenesPedidas b) [] w
               = (finales, w1)).
  { unfold imagenesPedidas.
    destruct (Body.asArray (Body.imagenes b)); [exact E | exact E]. }
  rewrite EL in F, M. simpl in F, M.
  exists c, finales. repeat split; auto.
  assert (Hdb : dbInitialized w = true).
  { unfold put_computadores, checkDatabase in H200.
    destruct (dbInitialized w); [reflexivity | discriminate]. }
  rewrite (put_computadores_run i b w Hdb). cbv zeta. rewrite EL. simpl.
  destruct (db_update_frame b finales (ahora w1) i (snd (Date_now w1)))
    as (B & _). simpl in B. rewrite B. apply F.
Qed.

(** *** POST /api/computadores, when the row is refused *)

Lemma post_computadores_run_gen (b : Body.t) (w : World) :
  dbInitialized w = true ->
  camposPresentes b = true ->
  let R := createLoop (template (Body.equipo_id b)) 0 (imagenesPedidas b)
             [] w in
  let I := db_insert pg_numeric b (fst R) (snd R) in
  post_computadores b w
  = (match fst I with
     | inl error => handleSupabaseError error
     | inr data =>
         mkRespuesta 201
           (RegistroCreado (id data) (equipo_id data) (serial_number data)
              (length (fst R)))
     end, snd I).
Proof.
  intros Hdb Hc R I. unfold post_computadores, checkDatabase. rewrite Hdb.
  replace (negb (JS.truthy (Body.equipo_id b))
           || negb (JS.truthy (Body.serial_number b))
           || negb (JS.truthy (Body.responsable b))
           || negb (JS.truthy (Body.cargo b))
           || negb (JS.truthy (Body.estado b))
           || negb (JS.truthy (Body.windows_update b))) with false.
  - unfold bind. subst I R. unfold imagenesPedidas.
    destruct (Body.asArray (Body.imagenes b)) as [imgs|].
    + destruct (createLoop _ 0 imgs [] w) as [g w1]. simpl.
      destruct (db_insert pg_numeric b g w1) as [[err|data] w2]; reflexivity.
    + simpl. destruct (db_insert pg_numeric b [] w) as [[err|data] w2]; reflexivity.
  - unfold camposPresentes in Hc.
    repeat (apply andb_true_iff in Hc as [Hc ?]).
    repeat match goal with
           | H : JS.truthy _ = true |- _ => rewrite H
           end.
    reflexivity.
Qed.

(** X10.  A create request with the six fields present and valid (the
    values fit the types of their columns and pass the checks), but
    with an [equipo_id] that a row already has, is answered 400
    [El ID del equipo ya existe] with code 23505 and adds no row.  Its
    images were uploaded before the insert was tried and stay in the
    bucket. *)
Theorem create_duplicate_rejected (b : Body.t) (w : World) :
  dbInitialized w = true ->
  camposPresentes b = true ->
  tiposValidos b = true ->
  estadoValido (template (Body.estado b)) = true ->
  windowsValido (template (Body.windows_update b)) = true ->
  existsb (fun x => equipo_id x =? template (Body.equipo_id b)) (tabla w)
  = true ->
  nth (decodificables (imagenesPedidas b)) (fallos w) None = None ->
  fst (post_computadores b w)
  = mkRespuesta 400
      (ErrorSupabase "El ID del equipo ya existe"
         "El identificador del equipo debe ser único" "23505")
  /\ tabla (snd (post_computadores b w)) = tabla w
  /\ exists objs,
       bucket (snd (post_computadores b w)) = (bucket w ++ objs)%list
       /\ length objs
          = length (fst (createLoop (template (Body.equipo_id b)) 0
                           (imagenesPedidas b) [] w)).
Proof.
  intros Hdb Hc Hty He Hw Hu Hf.
  rewrite (post_computadores_run_gen b w Hdb Hc). cbv zeta.
  destruct (createLoop_spec (template (Body.equipo_id b)) (imagenesPedidas b)
              0%N w)
    as ((_ & Ht & _ & _) & F & (objs & B1 & B2 & _) & _).
  set (R := createLoop (template (Body.equipo_id b)) 0 (imagenesPedidas b)
              [] w) in *.
  destruct (db_insert_refused b (fst R) (snd R)) as [_ Dup]; auto.
  { now rewrite F, hd_skipn_nth. }
  destruct Dup as [E T]; [now rewrite He, Hw | now rewrite Ht |].
  simpl. rewrite E, T, db_insert_bucket, B1.
  split; [reflexivity|]. split; [exact Ht|].
  exists objs. split; [reflexivity|].
  now rewrite <- (length_map fst), B2, length_map.
Qed.

(** X11.  A create request with the six fields present, whose values
    fit the types of their columns (so an [estado] of at most 20
    characters and a [windows_update] of at most 5), but with an
    [estado] or a [windows_update] outside the values the table allows
    is answered 400 [Valor no válido] with code 23514 and adds no row.
    A value that is too long for its column is refused before the check
    is looked at, with another code. *)
Theorem create_invalid_value_rejected (b : Body.t) (w : World) :
  dbInitialized w = true ->
  camposPresentes b = true ->
  tiposValidos b = true ->
  estadoValido (template (Body.estado b))
  && windowsValido (template (Body.windows_update b)) = false ->
  nth (decodificables (imagenesPedidas b)) (fallos w) None = None ->
  fst (post_computadores b w)
  = mkRespuesta 400
      (ErrorSupabase "Valor no válido"
         "El valor proporcionado no cumple con las restricciones" "23514")
  /\ tabla (snd (post_computadores b w)) = tabla w.
Proof.
  intros Hdb Hc Hty Hv Hf.
  rewrite (post_computadores_run_gen b w Hdb Hc). cbv zeta.
  destruct (createLoop_spec (template (Body.equipo_id b)) (imagenesPedidas b)
              0%N w)
    as ((_ & Ht & _ & _) & F & _).
  set (R := createLoop (template (Body.equipo_id b)) 0 (imagenesPedidas b)
              [] w) in *.
  destruct (db_insert_refused b (fst R) (snd R)) as [Chk _]; auto.
  { now rewrite F, hd_skipn_nth. }
  destruct (Chk Hv) as [E T].
  simpl. rewrite E, T. split; [reflexivity | exact Ht].
Qed.

(** *** GET /api/computadores: the images that are returned *)

Lemma filterMap_Forall {A B} (f : A -> option B) (P : B -> Prop)
  (l : list A) :
  (forall x y, f x = Some y -> P y) -> Forall P (filterMap f l).
Proof.
  intros H. induction l as [|x l IH]; simpl; [constructor|].
  destruct (f x) as [y|] eqn:E; [constructor; eauto | exact IH].
Qed.

Lemma procesarImagen_servible (w : World) (img img' : Imagen) :
  procesarImagen w img = Some img' -> servible w img'.
Proof.
  unfold procesarImagen, servible, esSupabase, esLocal, rutaLocal.
  destruct (JS.truthy (url img)
            && JS.includes (template (url img)) "supabase.co") eqn:S.
  - intros H; inversion H; subst img'. simpl. left. now rewrite S.
  - destruct (JS.truthy (filename img) && negb _) eqn:L.
    + destruct (existsSync _ w) eqn:E; [|discriminate].
      intros H; inversion H; subst img'. now right; right.
    + intros H; inversion H; subst img'. now right; left.
Qed.

(** X12.  Whatever the list route returns, every image of every
    returned record is on [supabase.co] with its filename set to its
    url, or is not locally hosted, or is a locally-hosted image whose
    file is in the upload directory: a local image whose file is missing
    is never listed.  The route changes neither table, bucket nor
    files. *)
Theorem list_images_servible (q : Query.t) (w : World)
  (data : list Computador) :
  cuerpo (fst (get_computadores q w)) = Listado data ->
  Forall (fun c => Forall (servible w) (imagenesDe c)) data
  /\ tabla (snd (get_computadores q w)) = tabla w
  /\ bucket (snd (get_computadores q w)) = bucket w
  /\ disco (snd (get_computadores q w)) = disco w.
Proof.
  unfold get_computadores, checkDatabase.
  destruct (dbInitialized w); [|discriminate].
  unfold bind, db_select, remote, bind, remoteCall, ret.
  destruct (hd None (fallos w)) as [e|]; simpl.
  - intros H. exfalso. unfold handleSupabaseError in H.
    destruct (code e =? "23505"); [discriminate|].
    destruct (code e =? "23514"); [discriminate|].
    destruct (code e =? "23502"); discriminate.
  - intros H. inversion H; subst data; clear H.
    split; [|auto]. apply Forall_forall. intros c Hc.
    apply in_map_iff in Hc as (c0 & <- & _).
    unfold procesarComputador, imagenesDe.
    destruct (imagenes c0) as [imgs|] eqn:I; [|rewrite I; constructor].
    destruct c0; simpl.
    apply filterMap_Forall. intros x y Hxy.
    apply procesarImagen_servible in Hxy.
    unfold servible, existsSync in *. exact Hxy.
Qed.

(** *** POST /api/fix-imagenes: what stays *)

Lemma reconciliaImagen_identidad (img img' : Imagen) :
  reconciliaImagen img img' -> identidad img' = identidad img.
Proof.
  unfold reconciliaImagen. destruct (necesitaCorreccion img).
  - intros [t ->]. reflexivity.
  - now intros ->.
Qed.

Lemma mismaFila_refl (c : Computador) : mismaFila c c.
Proof. repeat split. Qed.

Lemma Reconciliada_mismaFila (fs : list (option PgError))
  (T T' : list Computador) (k : nat) :
  Reconciliada fs T T' k -> Forall2 mismaFila T T'.
Proof.
  induction 1 as [fs|fs c T T' k Hc R IH|fs e c T T' k Hc He R IH|
                  fs c imgs imgs' T T' k I D He F R IH].
  - constructor.
  - constructor; [apply mismaFila_refl | exact IH].
  - constructor; [apply mismaFila_refl | exact IH].
  - constructor; [|exact IH].
    unfold mismaFila, imagenesDe. rewrite I. destruct c; simpl.
    split; [reflexivity|]. split; [reflexivity|].
    clear - F. induction F as [|x y l l' Hxy F IHF]; simpl; [reflexivity|].
    now rewrite IHF, (reconciliaImagen_identidad _ _ Hxy).
Qed.

(** X13.  With the rows loaded, the reconciliation changes nothing but
    the url, [url_anterior] and [corregida_el] of images: row by row the
    table has the same records with the same number of images in the
    same order, each with its title, filename, size, upload timestamp
    and embedded data as before; and the bucket and the local files are
    not touched. *)
Theorem fix_imagenes_preserves (w : World) :
  dbInitialized w = true ->
  hd None (fallos w) = None ->
  NoDup (map id (tabla w)) ->
  Forall2 mismaFila (tabla w) (tabla (snd (post_fix_imagenes w)))
  /\ bucket (snd (post_fix_imagenes w)) = bucket w
  /\ disco (snd (post_fix_imagenes w)) = disco w.
Proof.
  intros Hdb Hf Hnd.
  rewrite (post_fix_imagenes_run w Hdb Hf). cbv zeta.
  destruct (fixLoop_spec (tabla w) [] 0 0 (setFallos (tl (fallos w)) w))
    as (k & T' & _ & Tb & Rc & _ & Bk & Dk & _); auto.
  simpl. simpl in Tb, Bk, Dk. rewrite Tb, Bk, Dk.
  split; [|auto]. now apply (Reconciliada_mismaFila _ _ _ k Rc).
Qed.

(** *** [deleteImageLocally] and [saveImageToSupabase], alone *)

(** X14.  [deleteImageLocally] returns [true] exactly when the key
    starts with [http], or the file was there and its removal went
    through; in the second case the file is gone afterwards.  When it
    returns [false] nothing has changed. *)
Theorem deleteImageLocally_result (f : string) (w : World) :
  let p := path_join UPLOADS_DIR f in
  let R := deleteImageLocally f w in
  (fst R = true <->
   JS.startsWith f "http" = true
   \/ (existsSync p w = true /\ removible p (disco w) = true))
  /\ (fst R = true -> JS.startsWith f "http" = false ->
      existsSync p (snd R) = false)
  /\ (fst R = false -> snd R = w).
Proof.
  unfold deleteImageLocally, removible, existsSync, unlinkSync.
  destruct (JS.startsWith f "http"); simpl.
  - split; [split; auto|]. split; [discriminate | discriminate].
  - destruct (existsb (isPath (path_join UPLOADS_DIR f)) (disco w)) eqn:E;
      simpl.
    + destruct (find (isPath (path_join UPLOADS_DIR f)) (disco w))
        as [[q [|]]|] eqn:F; simpl.
      * split; [split; auto|]. split; [|discriminate].
        intros _ _. apply existsb_filter_same.
      * split; [|split; [discriminate | reflexivity]].
        split; [discriminate|]. intros [D|[_ D]]; discriminate D.
      * apply find_none_existsb in F. congruence.
    + split; [|split; [discriminate | reflexivity]].
      split; [discriminate|]. intros [D|[D _]]; discriminate D.
Qed.

(** X15.  When [saveImageToSupabase] returns a result, the data was
    [data:image/<subtype>;base64,<payload>], the filename is the key
    [<equipoId>/<timestamp>-<index>.<subtype>] built from the clock, the
    url is the public URL of that key as it stands, the size is the
    number of decoded bytes, and the bucket now holds the decoded bytes
    under the key with its empty path segments removed, which was free
    before.  When it returns [null] the bucket is as it was.  In both
    cases the table and the local files are untouched. *)
Theorem saveImageToSupabase_stores (v : option string) (e : string) (i : N)
  (w : World) :
  let R := saveImageToSupabase v e i w in
  mismoAlmacen w (snd R)
  /\ (fst R = None -> bucket (snd R) = bucket w)
  /\ forall r,
       fst R = Some r ->
       exists subtype payload,
         v = Some (dataUri subtype payload)
         /\ r_filename r = clave e (ahora w) i subtype
         /\ r_url r = getPublicUrl (r_filename r)
         /\ r_size r = N.of_nat (length (Buffer_from payload))
         /\ hasKey (removeEmptyFolders (r_filename r)) (bucket w) = false
         /\ bucket (snd R)
            = (bucket w
               ++ [(removeEmptyFolders (r_filename r),
                    Buffer_from payload)])%list.
Proof.
  pose proof (saveImageToSupabase_spec v e i w) as S. cbv zeta in S |- *.
  destruct (decodeImage v) as [[sub bytes]|] eqn:D.
  - destruct S as (Fr & _ & S). split; [exact Fr|].
    apply decodeImage_sound in D as (payload & Hv & _ & _ & Hb).
    destruct S as [[Hn Hbk] | (Hs & Hk & Hbk)].
    + split; [auto|]. intros r Hr. rewrite Hn in Hr. discriminate.
    + split; [intros Hn; rewrite Hn in Hs; discriminate|].
      intros r Hr. rewrite Hs in Hr. inversion Hr; subst r; clear Hr. simpl.
      exists sub, payload. subst bytes. repeat split; auto.
  - rewrite S. simpl. split; [apply mismoAlmacen_refl|].
    split; [reflexivity | discriminate].
Qed.

(** *** Create, then delete *)

Lemma delete_computadores_run (i : Z) (w : World) (c : Computador) :
  dbInitialized w = true ->
  int4 i = true ->
  hd None (fallos w) = None ->
  hd None (tl (fallos w)) = None ->
  filter (hasId i) (tabla w) = [c] ->
  let R := delete_computadores i w in
  fst R = mkRespuesta 200 RegistroEliminado
  /\ tabla (snd R) = filter (fun x => negb (hasId i x)) (tabla w)
  /\ bucket (snd R) = bucket w.
Proof.
  intros Hdb Hi H0 H1 Hc R. subst R.
  unfold delete_computadores, checkDatabase. rewrite Hdb.
  unfold bind, db_select_imagenes, db_delete, remote, bind, remoteCall, ret.
  rewrite H0. simpl. rewrite ?Hi. simpl. rewrite !Hc. simpl.
  rewrite H1. simpl. rewrite ?Hi. simpl. rewrite ?Hc. simpl.
  destruct (imagenes c) as [imgs0|] eqn:I; simpl.
  - match goal with
    | |- context [deleteLoop imgs0 ?w1] =>
        destruct (deleteLoop_spec imgs0 w1) as (T & B & _);
        simpl in T, B;
        destruct (deleteLoop imgs0 w1) as [u w2]; simpl in *
    end.
    now rewrite T, B.
  - auto.
Qed.

(** X16.  Create followed by delete, with every remote call going
    through: a valid create request (its values fit the types of their
    columns) with a new [equipo_id] is answered 201 with the next id of
    the sequence, which is in the range of the column, deleting that id is answered
    200 and the table is back to what it was before the create.  The
    objects uploaded for the record are not removed by the delete: the
    bucket stays as the create left it, one object per stored image. *)
Theorem create_then_delete (b : Body.t) (w : World) :
  dbInitialized w = true ->
  fallos w = [] ->
  camposPresentes b = true ->
  tiposValidos b = true ->
  estadoValido (template (Body.estado b)) = true ->
  windowsValido (template (Body.windows_update b)) = true ->
  existsb (fun x => equipo_id x =? template (Body.equipo_id b)) (tabla w)
  = false ->
  (forall c, In c (tabla w) -> id c <> serial w) ->
  int4 (serial w) = true ->
  let C := post_computadores b w in
  let D := delete_computadores (serial w) (snd C) in
  (exists n,
      fst C = mkRespuesta 201
                (RegistroCreado (serial w) (template (Body.equipo_id b))
                   (template (Body.serial_number b)) n)
      /\ exists objs,
           bucket (snd D) = (bucket w ++ objs)%list /\ length objs = n)
  /\ fst D = mkRespuesta 200 RegistroEliminado
  /\ tabla (snd D) = tabla w.
Proof.
  intros Hdb Hf Hc Hty He Hw Hu Hs Hi C D. subst D C.
  rewrite (post_computadores_run_gen b w Hdb Hc). cbv zeta.
  destruct (createLoop_spec (template (Body.equipo_id b)) (imagenesPedidas b)
              0%N w)
    as ((Db & Ht & Sr & Dk) & F & (objs & B1 & B2 & _) & _).
  set (R := createLoop (template (Body.equipo_id b)) 0 (imagenesPedidas b)
              [] w) in *.
  rewrite Hf, skipn_nil in F.
  destruct (db_insert_ok b (fst R) (snd R)) as (fila & Hfila & Eq1 & Eq2);
    auto.
  { now rewrite F. }
  { now rewrite Ht. }
  destruct (db_insert_inr _ _ _ _ Hfila) as [Tb _].
  pose proof (db_insert_id _ _ _ _ Hfila) as Id. rewrite Sr in Id.
  destruct (db_insert_frame b (fst R) (snd R)) as (Db' & _ & F').
  pose proof (db_insert_bucket b (fst R) (snd R)) as Bk.
  rewrite F in F'. simpl in F'. rewrite Ht in Tb.
  rewrite Hfila. cbn [fst snd].
  destruct (delete_computadores_run (serial w)
              (snd (db_insert pg_numeric b (fst R) (snd R))) fila)
    as (Rs & Tb' & Bk').
  - now rewrite Db', Db.
  - exact Hi.
  - now rewrite F'.
  - now rewrite F'.
  - rewrite Tb, filter_app, (filter_hasId_none _ _ Hs). simpl.
    unfold hasId. now rewrite Id, Z.eqb_refl.
  - split; [|split].
    + exists (length (fst R)). rewrite Id, Eq1, Eq2.
      split; [reflexivity|].
      exists objs. rewrite Bk', Bk, B1. split; [reflexivity|].
      now rewrite <- (length_map fst), B2, length_map.
    + exact Rs.
    + rewrite Tb', Tb, filter_app. simpl. unfold hasId at 2.
      rewrite Id, Z.eqb_refl. simpl. rewrite app_nil_r.
      apply forallb_filter_id, forallb_forall. intros x Hx.
      unfold hasId. apply negb_true_iff, Z.eqb_neq. now apply Hs.
Qed.

End Server.

(** ** The handlers on concrete requests *)

Example matchPattern_png :
  DataUri.matchPattern "data:image/png;base64,iVBOR" = Some ("png", "iVBOR").
Proof. reflexivity. Qed.

(** *** C5 *)

(** The data URI of an SVG image has the required shape, and the codec
    refuses it: [svg+xml] is not a run of letters. *)
Lemma decodeImage_rejects_svg :
  Sample.svg = dataUri "svg+xml" "PHN2Zy8+"
  /\ decodeImage Sample.Buffer_from (Some (dataUri "svg+xml" "PHN2Zy8+")) = None.
Proof. split; reflexivity. Qed.

Lemma decodeImage_accepts_exactly_witness :
  decodeImage Sample.Buffer_from (Some (dataUri "png" "iVBORw0KGgo="))
  = Some ("png", Sample.Buffer_from "iVBORw0KGgo=")
  /\ decodeImage Sample.Buffer_from (Some "iVBORw0KGgo=") = None.
Proof.
  destruct (decodeImage_accepts_exactly Sample.getPublicUrl Sample.Buffer_from)
    as [A R].
  split.
  - apply (A "png" "iVBORw0KGgo="); reflexivity.
  - apply (R (Some "iVBORw0KGgo=")).
    intros t p _ _ H. unfold dataUri in H. simpl in H. discriminate H.
Defined.

(** *** C6 *)

(** A request that lacks only [cargo] is answered with all six names. *)
Lemma create_lists_all_required :
  faltantes Sample.crearSinCargo = ["cargo"]
  /\ fst (post_computadores Sample.getPublicUrl Sample.Buffer_from
            Sample.toISOString Sample.numeric Sample.crearSinCargo Sample.w0)
     = mkRespuesta 400
         (CamposFaltantes
            ["equipo_id"; "serial_number"; "responsable"; "cargo"; "estado";
             "windows_update"])
  /\ fst (post_computadores Sample.getPublicUrl Sample.Buffer_from
            Sample.toISOString Sample.numeric Sample.crearSinCargo Sample.w0)
     <> mkRespuesta 400 (CamposFaltantes (faltantes Sample.crearSinCargo)).
Proof.
  split; [reflexivity|]. split; [reflexivity|]. vm_compute. discriminate.
Qed.

Lemma create_missing_field_rejected_witness :
  dbInitialized Sample.w0 = true
  /\ faltantes Sample.crearSinCargo <> []
  /\ post_computadores Sample.getPublicUrl Sample.Buffer_from
       Sample.toISOString Sample.numeric Sample.crearSinCargo Sample.w0
     = (mkRespuesta 400 (CamposFaltantes required), Sample.w0).
Proof.
  split; [reflexivity|]. split; [discriminate|].
  apply create_missing_field_rejected; [reflexivity | discriminate].
Defined.

(** *** C10 *)

Lemma update_without_images_clears_witness :
  Body.asArray (Body.imagenes Sample.actualizarSinImagenes) = None
  /\ status (fst (put_computadores Sample.getPublicUrl Sample.Buffer_from
                    Sample.path_join Sample.UPLOADS_DIR Sample.toISOString Sample.numeric
                    1 Sample.actualizarSinImagenes Sample.w1)) = 200
  /\ forall c,
       In c (tabla (snd (put_computadores Sample.getPublicUrl
                           Sample.Buffer_from Sample.path_join
                           Sample.UPLOADS_DIR Sample.toISOString Sample.numeric
                           1 Sample.actualizarSinImagenes Sample.w1))) ->
       id c = 1%Z -> imagenes c = Some [].
Proof.
  split; [reflexivity|]. split; [reflexivity|].
  apply (update_without_images_clears Sample.getPublicUrl Sample.Buffer_from
           Sample.path_join Sample.UPLOADS_DIR Sample.toISOString Sample.numeric
           1 Sample.actualizarSinImagenes Sample.w1); reflexivity.
Defined.

(** *** C3 *)

(** The caller sends a remote-hosted entry whose url is not its
    filename; the stored url is the filename. *)
Lemma update_overwrites_url :
  JS.truthy (base64 (Sample.remota "https://cdn.example.com/pc01.png")) = false
  /\ JS.startsWith Sample.remotaUrl "http" = true
  /\ fst (put_computadores Sample.getPublicUrl Sample.Buffer_from
            Sample.path_join Sample.UPLOADS_DIR Sample.toISOString Sample.numeric 1
            (Sample.actualizarRemota "https://cdn.example.com/pc01.png")
            Sample.w1)
     = mkRespuesta 200 (RegistroActualizado 1)
  /\ map imagenes
       (tabla (snd (put_computadores Sample.getPublicUrl Sample.Buffer_from
                      Sample.path_join Sample.UPLOADS_DIR Sample.toISOString Sample.numeric 1
                      (Sample.actualizarRemota
                         "https://cdn.example.com/pc01.png")
                      Sample.w1)))
     = [Some [Sample.remota Sample.remotaUrl]]
  /\ Sample.remota Sample.remotaUrl
     <> Sample.remota "https://cdn.example.com/pc01.png".
Proof. repeat split; try reflexivity. discriminate. Qed.

Lemma update_remote_image_kept_witness :
  status (fst (put_computadores Sample.getPublicUrl Sample.Buffer_from
                 Sample.path_join Sample.UPLOADS_DIR Sample.toISOString Sample.numeric 1
                 (Sample.actualizarRemota Sample.remotaUrl) Sample.w1)) = 200
  /\ exists c finales img',
       In c (tabla (snd (put_computadores Sample.getPublicUrl
                           Sample.Buffer_from Sample.path_join
                           Sample.UPLOADS_DIR Sample.toISOString Sample.numeric 1
                           (Sample.actualizarRemota Sample.remotaUrl)
                           Sample.w1)))
       /\ imagenes c = Some finales
       /\ In img' finales
       /\ url img' = Some Sample.remotaUrl.
Proof.
  split; [reflexivity|].
  destruct (update_remote_image_kept Sample.getPublicUrl Sample.Buffer_from
              Sample.path_join Sample.UPLOADS_DIR Sample.toISOString Sample.numeric 1
              (Sample.actualizarRemota Sample.remotaUrl)
              [Sample.remota Sample.remotaUrl] Sample.w1 0
              (Sample.remota Sample.remotaUrl))
    as (c & finales & img' & Hc & _ & Hi & Hin & _ & Hu & _);
    try reflexivity.
  exists c, finales, img'. repeat split; assumption.
Defined.

(** *** C4 *)

Example create_only_image_fails :
  fst (post_computadores Sample.getPublicUrl Sample.Buffer_from
         Sample.toISOString Sample.numeric Sample.crearSoloFallo Sample.w0)
  = mkRespuesta 201 (RegistroCreado 1 "PC-01" "SN001" 0)
  /\ map imagenes
       (tabla (snd (post_computadores Sample.getPublicUrl Sample.Buffer_from
                      Sample.toISOString Sample.numeric Sample.crearSoloFallo Sample.w0)))
     = [Some []].
Proof. split; reflexivity. Qed.

Lemma create_tolerates_image_failures_witness :
  dbInitialized Sample.w0 = true
  /\ camposPresentes Sample.crearConFallo = true
  /\ tiposValidos Sample.numeric Sample.crearConFallo = true
  /\ decodificables Sample.Buffer_from
       [Sample.nueva "iVBORw0KGgo="; Sample.nueva Sample.png] = 1
  /\ exists data guardadas,
       fst (post_computadores Sample.getPublicUrl Sample.Buffer_from
              Sample.toISOString Sample.numeric Sample.crearConFallo Sample.w0)
       = mkRespuesta 201
           (RegistroCreado (id data) (equipo_id data) (serial_number data)
              (length guardadas))
       /\ imagenes data = Some guardadas
       /\ length guardadas <= 1.
Proof.
  split; [reflexivity|]. split; [reflexivity|]. split; [reflexivity|].
  split; [reflexivity|].
  destruct (create_tolerates_image_failures Sample.getPublicUrl
              Sample.Buffer_from Sample.toISOString Sample.numeric Sample.crearConFallo
              [Sample.nueva "iVBORw0KGgo="; Sample.nueva Sample.png]
              Sample.w0)
    as (data & guardadas & E & _ & I & L & _); try reflexivity.
  exists data, guardadas. repeat split; assumption.
Defined.

(** *** C8 *)

Example create_first_png_filename :
  map imagenes
    (tabla (snd (post_computadores Sample.getPublicUrl Sample.Buffer_from
                   Sample.toISOString Sample.numeric Sample.crearPng Sample.w0)))
  = [Some [mkImagen (Some "Imagen 1") (Some "PC-01/1700000000000-1.png")
             (Some (Sample.getPublicUrl "PC-01/1700000000000-1.png"))
             (Some 8%N) (Some "T1700000000003") None None None]].
Proof. reflexivity. Qed.

Lemma create_filename_shape_witness :
  dbInitialized Sample.w0 = true
  /\ camposPresentes Sample.crearPng = true
  /\ Body.imagenes Sample.crearPng = Body.Array [Sample.nueva Sample.png]
  /\ exists guardadas objs,
       bucket (snd (post_computadores Sample.getPublicUrl Sample.Buffer_from
                      Sample.toISOString Sample.numeric Sample.crearPng Sample.w0))
       = (bucket Sample.w0 ++ objs)%list
       /\ exists x,
            In x guardadas
            /\ filename x = Some "PC-01/1700000000000-1.png".
Proof.
  split; [reflexivity|]. split; [reflexivity|]. split; [reflexivity|].
  destruct (create_filename_shape Sample.getPublicUrl Sample.Buffer_from
              Sample.toISOString Sample.numeric Sample.crearPng [Sample.nueva Sample.png]
              Sample.w0 eq_refl eq_refl eq_refl)
    as (guardadas & objs & B & _ & _ & _ & _ & L).
  destruct (L 0 (Sample.nueva Sample.png) "png"
              (Sample.Buffer_from "iVBORw0KGgo=")
              eq_refl eq_refl eq_refl eq_refl)
    as [(x & Hx & Hf & _) _].
  exists guardadas, objs. split; [exact B|].
  exists x. split; [exact Hx | exact Hf].
Defined.

(** *** C7 *)

Lemma delete_cleans_local_images_witness :
  dbInitialized Sample.w1 = true
  /\ nth 1 (fallos Sample.w1) None = None
  /\ NoDup (map id (tabla Sample.w1))
  /\ fst (delete_computadores Sample.path_join Sample.UPLOADS_DIR 1 Sample.w1)
     = mkRespuesta 200 RegistroEliminado
  /\ existsSync (rutaLocal Sample.path_join Sample.UPLOADS_DIR Sample.local)
       (snd (delete_computadores Sample.path_join Sample.UPLOADS_DIR 1
               Sample.w1))
     = false.
Proof.
  assert (Hnd : NoDup (map id (tabla Sample.w1))).
  { simpl. constructor; [intros H; exact H | constructor]. }
  split; [reflexivity|]. split; [reflexivity|].
  split; [exact Hnd|].
  destruct (delete_cleans_local_images Sample.path_join Sample.UPLOADS_DIR 1
              Sample.w1 eq_refl eq_refl Hnd)
    as (_ & _ & H & _).
  destruct (H eq_refl
              (Sample.fila 1 "PC-01" "Ana" "operativo"
                 (Some [Sample.remota Sample.remotaUrl; Sample.local])
                 1690000000000%N))
    as (R & _ & _ & _ & Hi); [now left | reflexivity |].
  split; [exact R|].
  destruct (Hi eq_refl [Sample.remota Sample.remotaUrl; Sample.local] eq_refl)
    as [G _].
  apply G; [right; now left | reflexivity | reflexivity].
Defined.

(** A local file whose name starts with the letters [http] belongs to
    an image that is locally hosted (its filename has no URL scheme and
    the file is in the upload directory), yet it is not removed when
    its record is deleted. *)
Lemma delete_keeps_http_named_file :
  JS.includes "httpd/1690000000000-1.png" "://" = false
  /\ existsSync "/app/uploads/httpd/1690000000000-1.png" Sample.wHttpd = true
  /\ fst (delete_computadores Sample.path_join Sample.UPLOADS_DIR 1
            Sample.wHttpd)
     = mkRespuesta 200 RegistroEliminado
  /\ tabla (snd (delete_computadores Sample.path_join Sample.UPLOADS_DIR 1
                   Sample.wHttpd)) = []
  /\ existsSync "/app/uploads/httpd/1690000000000-1.png"
       (snd (delete_computadores Sample.path_join Sample.UPLOADS_DIR 1
               Sample.wHttpd))
     = true.
Proof. repeat split; reflexivity. Qed.

(** The select before the delete fails: the record is deleted and
    answered 200, and its local file stays. *)
Example delete_without_cleanup :
  let w := setFallos [Some (mkPgError "57014" "canceling statement"); None]
             Sample.w1 in
  fst (delete_computadores Sample.path_join Sample.UPLOADS_DIR 1 w)
  = mkRespuesta 200 RegistroEliminado
  /\ disco (snd (delete_computadores Sample.path_join Sample.UPLOADS_DIR 1 w))
     = disco Sample.w1.
Proof. split; reflexivity. Qed.

(** An id outside the range of the column is answered 500, not 404. *)
Example delete_id_out_of_range :
  status (fst (delete_computadores Sample.path_join Sample.UPLOADS_DIR
                 99999999999 Sample.w1)) = 500.
Proof. reflexivity. Qed.

(** The removal of the local file is refused; the answer is 200 all the
    same and the file is still there. *)
Example delete_succeeds_when_unlink_fails :
  delete_computadores Sample.path_join Sample.UPLOADS_DIR 1 Sample.w1Bloqueado
  = (mkRespuesta 200 RegistroEliminado,
     setFallos [] (setTabla [] Sample.w1Bloqueado)).
Proof. reflexivity. Qed.

Example delete_unknown_id :
  fst (delete_computadores Sample.path_join Sample.UPLOADS_DIR 7 Sample.w1)
  = mkRespuesta 404 RegistroNoEncontrado.
Proof. reflexivity. Qed.

(** *** C9 *)

(** No row contains [A_a], and the value selects [ANA MARIA] and [Ana]. *)
Lemma list_underscore_is_wildcard :
  filter (coincide Sample.lower (Sample.query (Some "mantenimiento") (Some "A_a")))
         (tabla Sample.w3) = []
  /\ fst (get_computadores Sample.path_join Sample.UPLOADS_DIR Sample.lower
            (Sample.query (Some "mantenimiento") (Some "A_a")) Sample.w3)
     = mkRespuesta 200
         (Listado [Sample.fila 4 "PC-04" "ANA MARIA" "mantenimiento" None 400%N;
                   Sample.fila 1 "PC-01" "Ana" "mantenimiento" None 100%N]).
Proof. split; reflexivity. Qed.

Lemma lowerFrom_percent (latin : bool) (v : string) :
  Sample.lowerFrom latin (v ++ "%") = Sample.lowerFrom latin v ++ "%".
Proof.
  revert latin. induction v as [|c v IH]; intros latin; simpl.
  - now destruct latin.
  - now rewrite IH.
Qed.

Lemma esComodin_below (d : ascii) :
  esComodin d = true -> (nat_of_ascii d < 97)%nat.
Proof.
  intros Hd. unfold esComodin in Hd.
  repeat (apply orb_true_iff in Hd as [Hd|Hd]);
    apply Ascii.eqb_eq in Hd; subst d; apply Nat.ltb_lt; reflexivity.
Qed.

Lemma esComodin_lowerAscii (c : ascii) :
  esComodin c = false -> esComodin (Sample.lowerAscii c) = false.
Proof.
  unfold Sample.lowerAscii.
  destruct ((65 <=? nat_of_ascii c) && (nat_of_ascii c <=? 90))%nat eqn:E;
    [|auto].
  intros _. apply andb_true_iff in E as [E1 E2].
  apply Nat.leb_le in E1, E2.
  destruct (esComodin (ascii_of_nat (nat_of_ascii c + 32))) eqn:K;
    [|reflexivity].
  apply esComodin_below in K. rewrite nat_ascii_embedding in K; lia.
Qed.

Lemma esComodin_lowerLatin (c : ascii) :
  esComodin c = false -> esComodin (Sample.lowerLatin c) = false.
Proof.
  unfold Sample.lowerLatin.
  destruct ((128 <=? nat_of_ascii c) && (nat_of_ascii c <=? 158)
            && negb (nat_of_ascii c =? 151))%nat eqn:E; [|auto].
  intros _. apply andb_true_iff in E as [E _].
  apply andb_true_iff in E as [E1 E2].
  apply Nat.leb_le in E1, E2.
  destruct (esComodin (ascii_of_nat (nat_of_ascii c + 32))) eqn:K;
    [|reflexivity].
  apply esComodin_below in K. rewrite nat_ascii_embedding in K; lia.
Qed.

Lemma sinComodines_lowerFrom (latin : bool) (v : string) :
  sinComodines v = true -> sinComodines (Sample.lowerFrom latin v) = true.
Proof.
  revert latin. induction v as [|c v IH]; intros latin; simpl; [auto|].
  intros H. apply andb_true_iff in H as [Hc Hv].
  apply negb_true_iff in Hc. rewrite (IH _ Hv), andb_true_r.
  apply negb_true_iff.
  destruct latin; [now apply esComodin_lowerLatin
                  | now apply esComodin_lowerAscii].
Qed.

(** The sample folding is as regular as the list route needs. *)
Lemma lower_regular : plegadoRegular Sample.lower.
Proof.
  intros v H. unfold Sample.lower. split.
  - change ("%" ++ v ++ "%") with (String "%" (v ++ "%")).
    simpl. now rewrite lowerFrom_percent.
  - now apply sinComodines_lowerFrom.
Qed.

Lemma list_filters_conjunctive_witness :
  dbInitialized Sample.w3 = true
  /\ hd None (fallos Sample.w3) = None
  /\ plegadoRegular Sample.lower
  /\ literal (Sample.query (Some "mantenimiento") (Some "Ana")) = true
  /\ exists data,
       fst (get_computadores Sample.path_join Sample.UPLOADS_DIR Sample.lower
              (Sample.query (Some "mantenimiento") (Some "Ana")) Sample.w3)
       = mkRespuesta 200
           (Listado
              (map (procesarComputador Sample.path_join Sample.UPLOADS_DIR
                      (snd (get_computadores Sample.path_join
                              Sample.UPLOADS_DIR Sample.lower
                              (Sample.query (Some "mantenimiento")
                                 (Some "Ana")) Sample.w3)))
                   data))
       /\ Permutation
            (filter (coincide Sample.lower
                       (Sample.query (Some "mantenimiento") (Some "Ana")))
                    (tabla Sample.w3))
            data
       /\ StronglySorted masReciente data.
Proof.
  split; [reflexivity|]. split; [reflexivity|].
  split; [exact lower_regular|]. split; [reflexivity|].
  destruct (list_filters_conjunctive Sample.path_join Sample.UPLOADS_DIR
              Sample.lower
              (Sample.query (Some "mantenimiento") (Some "Ana")) Sample.w3
              eq_refl eq_refl lower_regular eq_refl)
    as (data & E & P & S & _).
  exists data. repeat split; assumption.
Defined.

(** The folding is the database's: with a locale that folds the Latin-1
    letters, [peña] finds the row of [PEÑA]. *)
Example list_folds_latin :
  cuerpo
    (fst (get_computadores Sample.path_join Sample.UPLOADS_DIR Sample.lower
            (Sample.query None (Some "peña"))
            (setTabla
               [Sample.fila 1 "PC-01" "PEÑA" "operativo" None 100%N;
                Sample.fila 2 "PC-02" "Luis" "operativo" None 200%N]
               Sample.w3)))
  = Listado [Sample.fila 1 "PC-01" "PEÑA" "operativo" None 100%N].
Proof. reflexivity. Qed.

(** *** C1 *)

(** The write of the record fails: the answer is 200 all the same, and
    the image whose url holds the marker is left as it was. *)
Lemma fix_leaves_marker_when_write_fails :
  JS.includes (template (url Sample.local)) "/uploads/" = true
  /\ fst (post_fix_imagenes Sample.getPublicUrl Sample.toISOString
            Sample.w1Fallo)
     = mkRespuesta 200 (UrlsCorregidas 0 2 "T1700000000003")
  /\ map imagenes
       (tabla (snd (post_fix_imagenes Sample.getPublicUrl Sample.toISOString
                      Sample.w1Fallo)))
     = [Some [Sample.remota Sample.remotaUrl; Sample.local]].
Proof. repeat split; reflexivity. Qed.

Example fix_rewrites_local_image :
  fst (post_fix_imagenes Sample.getPublicUrl Sample.toISOString Sample.w1)
  = mkRespuesta 200 (UrlsCorregidas 1 2 "T1700000000003")
  /\ map imagenes
       (tabla (snd (post_fix_imagenes Sample.getPublicUrl Sample.toISOString
                      Sample.w1)))
     = [Some [Sample.remota Sample.remotaUrl;
              mkImagen (Some "Lateral") (Some "PC01/1690000000000-2.png")
                (Some (Sample.getPublicUrl "PC01/1690000000000-2.png"))
                (Some 1024%N) (Some "2023-07-22T04:26:40.000Z") None
                (Some "/uploads/PC01/1690000000000-2.png")
                (Some "T1700000000000")]].
Proof. split; reflexivity. Qed.

Lemma fix_imagenes_rewrites_witness :
  dbInitialized Sample.w1 = true
  /\ hd None (fallos Sample.w1) = None
  /\ NoDup (map id (tabla Sample.w1))
  /\ exists actualizados timestamp,
       fst (post_fix_imagenes Sample.getPublicUrl Sample.toISOString Sample.w1)
       = mkRespuesta 200
           (UrlsCorregidas actualizados (totalImagenes (tabla Sample.w1))
              timestamp)
       /\ Reconciliada Sample.getPublicUrl Sample.toISOString
            (tl (fallos Sample.w1))
            (tabla Sample.w1)
            (tabla (snd (post_fix_imagenes Sample.getPublicUrl
                           Sample.toISOString Sample.w1)))
            actualizados.
Proof.
  assert (Hnd : NoDup (map id (tabla Sample.w1))).
  { simpl. constructor; [intros H; exact H | constructor]. }
  split; [reflexivity|]. split; [reflexivity|]. split; [exact Hnd|].
  exact (fix_imagenes_rewrites Sample.getPublicUrl Sample.toISOString
           Sample.w1 eq_refl eq_refl Hnd).
Defined.

(** *** C2 *)

(** A record created through the API under the equipment id
    [lab/uploads] has a public URL that holds the marker: every
    reconciliation rewrites it again.  And a row whose write failed in
    the first run is rewritten by the second. *)
Lemma fix_imagenes_second_run_updates :
  fst (post_fix_imagenes Sample.getPublicUrl Sample.toISOString
         (snd (post_fix_imagenes Sample.getPublicUrl Sample.toISOString
                 (snd (post_computadores Sample.getPublicUrl
                         Sample.Buffer_from Sample.toISOString Sample.numeric
                         Sample.crearLab Sample.w0)))))
  = mkRespuesta 200 (UrlsCorregidas 1 1 "T1700000000018")
  /\ fst (post_fix_imagenes Sample.getPublicUrl Sample.toISOString
            Sample.w1Fallo)
     = mkRespuesta 200 (UrlsCorregidas 0 2 "T1700000000003")
  /\ fst (post_fix_imagenes Sample.getPublicUrl Sample.toISOString
            (snd (post_fix_imagenes Sample.getPublicUrl Sample.toISOString
                    Sample.w1Fallo)))
     = mkRespuesta 200 (UrlsCorregidas 1 2 "T1700000000012").
Proof. repeat split; vm_compute; reflexivity. Qed.

Lemma fix_imagenes_idempotent_witness :
  dbInitialized Sample.w1 = true
  /\ fallos Sample.w1 = []
  /\ NoDup (map id (tabla Sample.w1))
  /\ Forall (fun c => sucia c = false)
       (tabla (snd (post_fix_imagenes Sample.getPublicUrl Sample.toISOString
                      Sample.w1)))
  /\ (exists timestamp,
         fst (post_fix_imagenes Sample.getPublicUrl Sample.toISOString
                (snd (post_fix_imagenes Sample.getPublicUrl
                        Sample.toISOString Sample.w1)))
         = mkRespuesta 200
             (UrlsCorregidas 0
                (totalImagenes
                   (tabla (snd (post_fix_imagenes Sample.getPublicUrl
                                  Sample.toISOString Sample.w1))))
                timestamp))
  /\ tabla (snd (post_fix_imagenes Sample.getPublicUrl Sample.toISOString
                   (snd (post_fix_imagenes Sample.getPublicUrl
                           Sample.toISOString Sample.w1))))
     = tabla (snd (post_fix_imagenes Sample.getPublicUrl Sample.toISOString
                     Sample.w1)).
Proof.
  assert (Hnd : NoDup (map id (tabla Sample.w1))).
  { simpl. constructor; [intros H; exact H | constructor]. }
  split; [reflexivity|]. split; [reflexivity|]. split; [exact Hnd|].
  apply (fix_imagenes_idempotent Sample.getPublicUrl Sample.toISOString
           Sample.w1 eq_refl eq_refl Hnd).
  intros c imgs img [<-|[]] E. inversion E; subst imgs.
  intros [<-|[<-|[]]] N; [discriminate N | reflexivity].
Defined.

(** ** The other properties on the sample data *)

(** *** X1 *)

Example startServer_sin_tabla : startServer SampleExt.wSinTabla = None.
Proof. reflexivity. Qed.

Lemma server_listens_ready_witness :
  startServer SampleExt.wFrio = Some Sample.w1
  /\ Forall (fun r => ~ noDisponible r)
       (fst (atenderTodas Sample.getPublicUrl Sample.Buffer_from
               Sample.path_join Sample.UPLOADS_DIR Sample.toISOString Sample.lower Sample.numeric
               SampleExt.trim SampleExt.toUpperCase SampleExt.toDateString
               SampleExt.toLocaleDateString SampleExt.toLocaleTimeString
               [GetImagenesStatus; PostComputadores SampleExt.crearNuevo;
                DeleteComputadores 1; GetEstadisticas]
               Sample.w1)).
Proof.
  assert (S : startServer SampleExt.wFrio = Some Sample.w1) by reflexivity.
  split; [exact S|].
  destruct (server_listens_ready Sample.getPublicUrl Sample.Buffer_from
              Sample.path_join Sample.UPLOADS_DIR Sample.toISOString Sample.lower Sample.numeric
              SampleExt.trim SampleExt.toUpperCase SampleExt.toDateString
              SampleExt.toLocaleDateString SampleExt.toLocaleTimeString
              SampleExt.wFrio) as [_ H].
  destruct (H Sample.w1 S) as [_ K]. apply K.
Defined.

(** *** X3, X4, X5 *)

Lemma imagenes_status_partition_witness :
  dbInitialized Sample.w1 = true
  /\ hd None (fallos Sample.w1) = None
  /\ exists s,
       fst (get_imagenes_status Sample.w1)
       = mkRespuestaExt 200 (EstadoImagenes s)
       /\ Status.total_imagenes s = 2
       /\ Status.imagenes_supabase s = 1
       /\ Status.imagenes_rotas s = 1
       /\ Status.necesita_fix s = true.
Proof.
  split; [reflexivity|]. split; [reflexivity|].
  destruct (imagenes_status_partition Sample.w1 eq_refl eq_refl)
    as (s & R & _ & Ti & Su & _ & Ro & _ & Nf & _).
  exists s. split; [exact R|]. split; [exact Ti|]. split; [exact Su|].
  split; [exact Ro|]. apply Nf. exists Sample.local.
  split; [right; now left | reflexivity].
Defined.

Lemma estadisticas_consistent_witness :
  dbInitialized Sample.w3 = true
  /\ hd None (fallos Sample.w3) = None
  /\ exists s,
       fst (get_estadisticas SampleExt.trim SampleExt.toDateString Sample.w3)
       = mkRespuestaExt 200 (Estadisticas s)
       /\ Stats.total s = 4
       /\ Stats.operativos s + Stats.mantenimiento s + Stats.danados s = 4
       /\ Stats.windows_si s + Stats.windows_no s = 4.
Proof.
  split; [reflexivity|]. split; [reflexivity|].
  destruct (estadisticas_consistent SampleExt.trim SampleExt.toDateString
              Sample.w3 eq_refl eq_refl)
    as (s & R & T & _ & _ & Es & Wi & _).
  exists s. split; [exact R|]. split; [exact T|].
  split.
  - rewrite Es; [exact T | repeat constructor].
  - rewrite Wi; [exact T | repeat constructor].
Defined.

Lemma export_follows_list_witness :
  dbInitialized Sample.w3 = true
  /\ hd None (fallos Sample.w3) = None
  /\ exists data,
       fst (get_export_excel Sample.lower SampleExt.toUpperCase
              SampleExt.toLocaleDateString SampleExt.toLocaleTimeString
              Sample.w3)
       = mkRespuestaExt 200
           (Exportacion
              (map (excelRow SampleExt.toUpperCase
                      SampleExt.toLocaleDateString
                      SampleExt.toLocaleTimeString) data))
       /\ Permutation (tabla Sample.w3) data
       /\ StronglySorted masReciente data.
Proof.
  split; [reflexivity|]. split; [reflexivity|].
  destruct (export_follows_list Sample.path_join Sample.UPLOADS_DIR Sample.lower
              SampleExt.toUpperCase SampleExt.toLocaleDateString
              SampleExt.toLocaleTimeString Sample.w3 eq_refl eq_refl)
    as (data & R & _ & P & S & _).
  exists data. split; [exact R|]. split; [exact P | exact S].
Defined.

(** The export of the four records: the most recently reviewed first. *)
Example export_order :
  match cuerpoExt
          (fst (get_export_excel Sample.lower SampleExt.toUpperCase
                  SampleExt.toLocaleDateString SampleExt.toLocaleTimeString
                  Sample.w3)) with
  | Exportacion filas => map Excel.id_equipo filas
  | _ => []
  end = ["PC-04"; "PC-03"; "PC-02"; "PC-01"].
Proof. reflexivity. Qed.

(** *** X7, X8, X9 *)

Lemma update_not_found_witness :
  dbInitialized Sample.w1 = true
  /\ int4 7 = true
  /\ tiposValidos Sample.numeric Sample.crearPng = true
  /\ (forall c, In c (tabla Sample.w1) -> id c <> 7%Z)
  /\ nth (decodificables Sample.Buffer_from (imagenesPedidas Sample.crearPng))
       (fallos Sample.w1) None = None
  /\ fst (put_computadores Sample.getPublicUrl Sample.Buffer_from
            Sample.path_join Sample.UPLOADS_DIR Sample.toISOString
            Sample.numeric 7 Sample.crearPng Sample.w1)
     = mkRespuesta 404 RegistroNoEncontrado
  /\ tabla (snd (put_computadores Sample.getPublicUrl Sample.Buffer_from
                   Sample.path_join Sample.UPLOADS_DIR Sample.toISOString
                   Sample.numeric 7 Sample.crearPng Sample.w1))
     = tabla Sample.w1
  /\ In ("PC-01-update/1700000000000-1.png",
         Sample.Buffer_from "iVBORw0KGgo=")
        (bucket (snd (put_computadores Sample.getPublicUrl Sample.Buffer_from
                        Sample.path_join Sample.UPLOADS_DIR
                        Sample.toISOString Sample.numeric 7 Sample.crearPng
                        Sample.w1))).
Proof.
  assert (H : forall c, In c (tabla Sample.w1) -> id c <> 7%Z).
  { intros c [<-|[]]. discriminate. }
  split; [reflexivity|]. split; [reflexivity|]. split; [reflexivity|].
  split; [exact H|]. split; [reflexivity|].
  destruct (update_not_found Sample.getPublicUrl Sample.Buffer_from
              Sample.path_join Sample.UPLOADS_DIR Sample.toISOString
              Sample.numeric 7 Sample.crearPng Sample.w1
              eq_refl eq_refl eq_refl H eq_refl)
    as (R & T & _ & U).
  split; [exact R|]. split; [exact T|].
  exact (U (Sample.nueva Sample.png) [] "png"
           (Sample.Buffer_from "iVBORw0KGgo=")
           eq_refl eq_refl eq_refl eq_refl).
Defined.

Lemma update_stored_origin_witness :
  status (fst (put_computadores Sample.getPublicUrl Sample.Buffer_from
                 Sample.path_join Sample.UPLOADS_DIR Sample.toISOString Sample.numeric
                 1 Sample.crearPng Sample.w1)) = 200
  /\ exists c finales,
       In c (tabla (snd (put_computadores Sample.getPublicUrl
                           Sample.Buffer_from Sample.path_join
                           Sample.UPLOADS_DIR Sample.toISOString Sample.numeric
                           1 Sample.crearPng Sample.w1)))
       /\ id c = 1%Z
       /\ imagenes c = Some finales
       /\ Forall
            (fun x =>
               exists k img,
                 nth_error (imagenesPedidas Sample.crearPng) k = Some img
                 /\ origen Sample.getPublicUrl
                      (Body.equipo_id Sample.crearPng) img (N.of_nat k) x)
            finales.
Proof.
  split; [reflexivity|].
  destruct (update_stored_origin Sample.getPublicUrl Sample.Buffer_from
              Sample.path_join Sample.UPLOADS_DIR Sample.toISOString Sample.numeric
              1 Sample.crearPng Sample.w1 eq_refl)
    as (c & finales & Hin & Hid & Him & _ & _ & Ho).
  exists c, finales. repeat split; assumption.
Defined.

Lemma update_keeps_existing_witness :
  status (fst (put_computadores Sample.getPublicUrl Sample.Buffer_from
                 Sample.path_join Sample.UPLOADS_DIR Sample.toISOString Sample.numeric
                 1 SampleExt.actualizarExistentes Sample.w1)) = 200
  /\ Forall (fun img => traeDatos img = false)
       (imagenesPedidas SampleExt.actualizarExistentes)
  /\ exists c finales,
       In c (tabla (snd (put_computadores Sample.getPublicUrl
                           Sample.Buffer_from Sample.path_join
                           Sample.UPLOADS_DIR Sample.toISOString Sample.numeric
                           1 SampleExt.actualizarExistentes Sample.w1)))
       /\ imagenes c = Some finales
       /\ map filename finales
          = [Some Sample.remotaUrl; Some "PC01/1690000000000-2.png"].
Proof.
  assert (H : Forall (fun img => traeDatos img = false)
                (imagenesPedidas SampleExt.actualizarExistentes)).
  { repeat constructor. }
  split; [reflexivity|]. split; [exact H|].
  destruct (update_keeps_existing Sample.getPublicUrl Sample.Buffer_from
              Sample.path_join Sample.UPLOADS_DIR Sample.toISOString Sample.numeric
              1 SampleExt.actualizarExistentes Sample.w1 eq_refl H)
    as (c & finales & Hin & _ & Him & Hf & _).
  exists c, finales. split; [exact Hin|]. split; [exact Him | exact Hf].
Defined.

(** *** X10, X11 *)

Lemma create_duplicate_rejected_witness :
  dbInitialized Sample.w1 = true
  /\ camposPresentes Sample.crearPng = true
  /\ tiposValidos Sample.numeric Sample.crearPng = true
  /\ estadoValido (template (Body.estado Sample.crearPng)) = true
  /\ windowsValido (template (Body.windows_update Sample.crearPng)) = true
  /\ existsb
       (fun x => equipo_id x =? template (Body.equipo_id Sample.crearPng))
       (tabla Sample.w1) = true
  /\ nth (decodificables Sample.Buffer_from (imagenesPedidas Sample.crearPng))
       (fallos Sample.w1) None = None
  /\ status (fst (post_computadores Sample.getPublicUrl Sample.Buffer_from
                    Sample.toISOString Sample.numeric Sample.crearPng Sample.w1)) = 400
  /\ tabla (snd (post_computadores Sample.getPublicUrl Sample.Buffer_from
                   Sample.toISOString Sample.numeric Sample.crearPng Sample.w1))
     = tabla Sample.w1
  /\ exists objs,
       bucket (snd (post_computadores Sample.getPublicUrl Sample.Buffer_from
                      Sample.toISOString Sample.numeric Sample.crearPng Sample.w1))
       = (bucket Sample.w1 ++ objs)%list
       /\ length objs = 1.
Proof.
  do 7 (split; [reflexivity|]).
  destruct (create_duplicate_rejected Sample.getPublicUrl Sample.Buffer_from
              Sample.toISOString Sample.numeric Sample.crearPng Sample.w1
              eq_refl eq_refl eq_refl eq_refl eq_refl eq_refl eq_refl)
    as (R & T & objs & B & L).
  split; [now rewrite R|]. split; [exact T|].
  exists objs. split; [exact B | exact L].
Defined.

Lemma create_invalid_value_rejected_witness :
  dbInitialized Sample.w1 = true
  /\ camposPresentes SampleExt.crearEstadoRoto = true
  /\ tiposValidos Sample.numeric SampleExt.crearEstadoRoto = true
  /\ estadoValido (template (Body.estado SampleExt.crearEstadoRoto))
     && windowsValido (template (Body.windows_update SampleExt.crearEstadoRoto))
     = false
  /\ nth (decodificables Sample.Buffer_from (imagenesPedidas SampleExt.crearEstadoRoto))
       (fallos Sample.w1) None = None
  /\ status (fst (post_computadores Sample.getPublicUrl Sample.Buffer_from
                    Sample.toISOString Sample.numeric SampleExt.crearEstadoRoto Sample.w1))
     = 400
  /\ tabla (snd (post_computadores Sample.getPublicUrl Sample.Buffer_from
                   Sample.toISOString Sample.numeric SampleExt.crearEstadoRoto Sample.w1))
     = tabla Sample.w1.
Proof.
  do 5 (split; [reflexivity|]).
  destruct (create_invalid_value_rejected Sample.getPublicUrl
              Sample.Buffer_from Sample.toISOString Sample.numeric
              SampleExt.crearEstadoRoto Sample.w1
              eq_refl eq_refl eq_refl eq_refl eq_refl)
    as (R & T).
  split; [now rewrite R | exact T].
Defined.

(** *** X12, X13 *)

Lemma list_images_servible_witness :
  cuerpo (fst (get_computadores Sample.path_join Sample.UPLOADS_DIR Sample.lower
                 (Sample.query None None) Sample.w1))
  = Listado (tabla Sample.w1)
  /\ Forall
       (fun c =>
          Forall (servible Sample.path_join Sample.UPLOADS_DIR Sample.w1)
            (imagenesDe c))
       (tabla Sample.w1).
Proof.
  assert (H : cuerpo (fst (get_computadores Sample.path_join
                             Sample.UPLOADS_DIR Sample.lower (Sample.query None None)
                             Sample.w1))
              = Listado (tabla Sample.w1)) by reflexivity.
  split; [exact H|].
  apply (list_images_servible Sample.path_join Sample.UPLOADS_DIR Sample.lower
           (Sample.query None None) Sample.w1 (tabla Sample.w1) H).
Defined.

(** A local image whose file is gone is not listed. *)
Example list_drops_missing_file :
  cuerpo (fst (get_computadores Sample.path_join Sample.UPLOADS_DIR Sample.lower
                 (Sample.query None None) (setDisco [] Sample.w1)))
  = Listado
      [Sample.fila 1 "PC-01" "Ana" "operativo"
         (Some [Sample.remota Sample.remotaUrl]) 1690000000000%N].
Proof. reflexivity. Qed.

Lemma fix_imagenes_preserves_witness :
  dbInitialized Sample.w1 = true
  /\ hd None (fallos Sample.w1) = None
  /\ NoDup (map id (tabla Sample.w1))
  /\ Forall2 mismaFila (tabla Sample.w1)
       (tabla (snd (post_fix_imagenes Sample.getPublicUrl Sample.toISOString
                      Sample.w1)))
  /\ disco (snd (post_fix_imagenes Sample.getPublicUrl Sample.toISOString
                   Sample.w1))
     = disco Sample.w1.
Proof.
  assert (Hnd : NoDup (map id (tabla Sample.w1))).
  { simpl. constructor; [intros H; exact H | constructor]. }
  split; [reflexivity|]. split; [reflexivity|]. split; [exact Hnd|].
  destruct (fix_imagenes_preserves Sample.getPublicUrl Sample.toISOString
              Sample.w1 eq_refl eq_refl Hnd)
    as (F & _ & D).
  split; [exact F | exact D].
Defined.

(** *** X16 *)

Lemma create_then_delete_witness :
  dbInitialized Sample.w1 = true
  /\ fallos Sample.w1 = []
  /\ camposPresentes SampleExt.crearNuevo = true
  /\ tiposValidos Sample.numeric SampleExt.crearNuevo = true
  /\ estadoValido (template (Body.estado SampleExt.crearNuevo)) = true
  /\ windowsValido (template (Body.windows_update SampleExt.crearNuevo))
     = true
  /\ existsb
       (fun x => equipo_id x =? template (Body.equipo_id SampleExt.crearNuevo))
       (tabla Sample.w1) = false
  /\ (forall c, In c (tabla Sample.w1) -> id c <> serial Sample.w1)
  /\ int4 (serial Sample.w1) = true
  /\ fst (delete_computadores Sample.path_join Sample.UPLOADS_DIR
            (serial Sample.w1)
            (snd (post_computadores Sample.getPublicUrl Sample.Buffer_from
                    Sample.toISOString Sample.numeric SampleExt.crearNuevo Sample.w1)))
     = mkRespuesta 200 RegistroEliminado
  /\ tabla (snd (delete_computadores Sample.path_join Sample.UPLOADS_DIR
                   (serial Sample.w1)
                   (snd (post_computadores Sample.getPublicUrl
                           Sample.Buffer_from Sample.toISOString Sample.numeric
                           SampleExt.crearNuevo Sample.w1))))
     = tabla Sample.w1.
Proof.
  assert (H : forall c, In c (tabla Sample.w1) -> id c <> serial Sample.w1).
  { intros c [<-|[]]. discriminate. }
  do 7 (split; [reflexivity|]). split; [exact H|].
  split; [reflexivity|].
  destruct (create_then_delete Sample.getPublicUrl Sample.Buffer_from
              Sample.path_join Sample.UPLOADS_DIR Sample.toISOString Sample.numeric
              SampleExt.crearNuevo Sample.w1
              eq_refl eq_refl eq_refl eq_refl eq_refl eq_refl eq_refl H eq_refl)
    as (_ & R & T).
  split; [exact R | exact T].
Defined.

(** The object uploaded for the record is still in the bucket after the
    record is deleted. *)
Example create_then_delete_leaves_object :
  map fst
    (bucket (snd (delete_computadores Sample.path_join Sample.UPLOADS_DIR 2
                    (snd (post_computadores Sample.getPublicUrl
                            Sample.Buffer_from Sample.toISOString Sample.numeric
                            SampleExt.crearNuevo Sample.w1)))))
  = ["PC-02/1700000000000-1.png"].
Proof. reflexivity. Qed.

(** *** X11, X15: values and keys out of the ordinary *)

(** A [windows_update] of six characters does not fit its column: the
    answer is 500 with the code of the type error, not the 400 of the
    check. *)
Example create_value_too_long :
  let b := Body.mk (Some "PC-09") (Some "SN009") None None None None None
             (Some "Ana") (Some "Tech") (Some "operativo") (Some "quizas")
             None None None Body.Absent in
  fst (post_computadores Sample.getPublicUrl Sample.Buffer_from
         Sample.toISOString Sample.numeric b Sample.w1)
  = mkRespuesta 500
      (ErrorSupabase "Error interno del servidor"
         "value too long for type character varying" "22001")
  /\ tabla (snd (post_computadores Sample.getPublicUrl Sample.Buffer_from
                   Sample.toISOString Sample.numeric b Sample.w1))
     = tabla Sample.w1.
Proof. split; reflexivity. Qed.

(** An [equipoId] with an empty path segment: the result names the path
    as it was built, the object is under the cleaned path. *)
Example upload_key_is_cleaned :
  let R := saveImageToSupabase Sample.getPublicUrl Sample.Buffer_from
             (Some Sample.png) "PC-01//fotos" 1 Sample.w0 in
  fst R
  = Some (mkResultado "PC-01//fotos/1700000000000-1.png"
            (Sample.getPublicUrl "PC-01//fotos/1700000000000-1.png") 8)
  /\ map fst (bucket (snd R)) = ["PC-01/fotos/1700000000000-1.png"].
Proof. split; reflexivity. Qed.

(** An update of an id outside the range of the column is answered 500,
    not 404. *)
Example update_id_out_of_range :
  status (fst (put_computadores Sample.getPublicUrl Sample.Buffer_from
                 Sample.path_join Sample.UPLOADS_DIR Sample.toISOString
                 Sample.numeric 99999999999 Sample.actualizarSinImagenes
                 Sample.w1)) = 500.
Proof. reflexivity. Qed.
